(** * translatepy: the DeepL JSON-RPC translator and the Bing translator

    A shallow embedding of [translatepy/translators/deepl.py] and of
    [translatepy/translators/bing.py], with the properties of the
    sentence splitter, the job builder, the glossary matcher, the
    request timestamp, the reassembly of the answer and the handling of
    failures.

    Conventions of the embedding.
    - A Python [str] is a [string]; text outside ASCII is held as its
      UTF-8 bytes.  Searching, counting and joining with ASCII needles
      give the same answer on bytes as on code points.
    - [str.upper] is modelled on ASCII, the alphabet of the language
      codes that the translator receives; [str.strip] removes the
      white space of Unicode.
    - A value decoded from JSON is a [Json], with integers for numbers;
      Python's [None] is [JNull].
    - A Python exception is a [PyExn]; code that can raise returns a
      [Result], code that also touches the session, the clock, the
      network or the warnings runs in the monad [M] over a [World].
    - The network and the clock are oracles of the world: [net w k] is
      the outcome of the post number [k], [clock w k] the reading
      number [k] of [time()], the rational number of seconds that the
      float stands for.  Every post is logged in [sent], every warning
      in [warned].

    The file first gives the embedding, then what the calls are
    expected to compute, then the proofs. *)

From Stdlib Require Import List String Ascii ZArith QArith Qpower Bool Lia PeanoNat
  Lqa Permutation DecimalString.
Import ListNotations.

Close Scope Q_scope.
Open Scope string_scope.
Open Scope list_scope.

(** String concatenation, kept apart from the [++] of lists. *)
Infix "+++" := String.append (at level 60, right associativity).

(** ** Python strings *)

Module PyStr.

Definition is_lower (c : ascii) : bool :=
  let n := nat_of_ascii c in (97 <=? n)%nat && (n <=? 122)%nat.

Definition upper_char (c : ascii) : ascii :=
  if is_lower c then ascii_of_nat (nat_of_ascii c - 32) else c.

(** [s.upper()] *)
Fixpoint upper (s : string) : string :=
  match s with
  | EmptyString => EmptyString
  | String c rest => String (upper_char c) (upper rest)
  end.

(** [s.startswith(p)] *)
Fixpoint startswith (p s : string) : bool :=
  match p, s with
  | EmptyString, _ => true
  | String _ _, EmptyString => false
  | String a p', String b s' => Ascii.eqb a b && startswith p' s'
  end.

(** [needle in s] for two strings: substring search. *)
Fixpoint contains (needle s : string) : bool :=
  startswith needle s ||
  match s with
  | EmptyString => false
  | String _ rest => contains needle rest
  end.

(** [s.count(c)] for a one-character needle. *)
Fixpoint count_char (c : ascii) (s : string) : Z :=
  match s with
  | EmptyString => 0
  | String a rest => (if Ascii.eqb a c then 1 else 0) + count_char c rest
  end%Z.

Fixpoint drop (n : nat) (s : string) : string :=
  match n, s with
  | O, _ => s
  | S _, EmptyString => EmptyString
  | S m, String _ rest => drop m rest
  end.

(** [s.replace(old, new)] for a non-empty [old]: occurrences are
    replaced from the left and do not overlap.  [fuel] bounds the
    number of characters still to scan. *)
Fixpoint replace_from (fuel : nat) (old new s : string) : string :=
  match fuel with
  | O => s
  | S fuel' =>
      match s with
      | EmptyString => EmptyString
      | String c rest =>
          if startswith old s
          then new +++ replace_from fuel' old new (drop (String.length old) s)
          else String c (replace_from fuel' old new rest)
      end
  end.

Definition replace (old new s : string) : string :=
  replace_from (String.length s) old new s.

(** [s[-1]], [None] standing for the [IndexError] of the empty string. *)
Fixpoint last_char (s : string) : option ascii :=
  match s with
  | EmptyString => None
  | String c EmptyString => Some c
  | String _ rest => last_char rest
  end.

(** [s[:-1]] *)
Fixpoint drop_last (s : string) : string :=
  match s with
  | EmptyString => EmptyString
  | String _ EmptyString => EmptyString
  | String c rest => String c (drop_last rest)
  end.

(** [sep.join(parts)] *)
Fixpoint join (sep : string) (parts : list string) : string :=
  match parts with
  | [] => EmptyString
  | [p] => p
  | p :: rest => p +++ sep +++ join sep rest
  end.

Definition quote : ascii := ascii_of_nat 34.
Definition tab : ascii := ascii_of_nat 9.
Definition newline : ascii := ascii_of_nat 10.

Definition has_quote (s : string) : bool := contains (String quote EmptyString) s.

End PyStr.

(** ** The sentence splitting pattern

    [SENTENCES_SPLITTING_REGEX = compile('(?<=[.!:?]) +')]: a match is a
    maximal run of spaces that starts right after one of [. ! : ?]. *)

Module Regex.

Definition is_boundary (c : ascii) : bool :=
  Ascii.eqb c "."%char || Ascii.eqb c "!"%char
  || Ascii.eqb c ":"%char || Ascii.eqb c "?"%char.

Definition is_space (c : ascii) : bool := Ascii.eqb c " "%char.

Fixpoint skip_spaces (s : string) : string :=
  match s with
  | String c rest => if is_space c then skip_spaces rest else s
  | EmptyString => EmptyString
  end.

(** [split_from prev piece s]: [prev] is the character before [s]
    (if any), [piece] the characters of the current piece, reversed. *)
Fixpoint rev_string (acc s : string) : string :=
  match s with
  | EmptyString => acc
  | String c rest => rev_string (String c acc) rest
  end.

Fixpoint split_from (fuel : nat) (prev : option ascii) (piece s : string)
  : list string :=
  match fuel with
  | O => [rev_string EmptyString piece +++ s]
  | S fuel' =>
      match s with
      | EmptyString => [rev_string EmptyString piece]
      | String c rest =>
          if is_space c && match prev with Some p => is_boundary p | None => false end
          then rev_string EmptyString piece
               :: split_from fuel' (Some " "%char) EmptyString (skip_spaces rest)
          else split_from fuel' (Some c) (String c piece) rest
      end
  end.

(** [SENTENCES_SPLITTING_REGEX.split(text)] *)
Definition split (text : string) : list string :=
  split_from (S (String.length text)) None EmptyString text.

End Regex.

(** ** JSON values, exceptions and results *)

#[local] Set Warnings "-register-all".

Inductive Json : Type :=
| JNull
| JBool (b : bool)
| JNum (n : Z)
| JStr (s : string)
| JArr (items : list Json)
| JObj (fields : list (string * Json)).

Inductive PyExn : Type :=
| AttributeError
| KeyError (key : string)
| IndexError
| TypeError
| ValueError
| JSONDecodeError
| ConnectionError
| DeeplTranslateException (code : Json).

Inductive Result (A : Type) : Type :=
| Ok (a : A)
| Raise (e : PyExn).
Arguments Ok {A} a.
Arguments Raise {A} e.

Definition rbind {A B} (r : Result A) (k : A -> Result B) : Result B :=
  match r with
  | Ok a => k a
  | Raise e => Raise e
  end.

Notation "'let?' x ':=' c 'in' k" := (rbind c (fun x => k))
  (at level 10, x pattern, c at level 100, k at level 200).

Module Py.

(** [d.get(k)] on the fields of a decoded object; the first binding
    of a key is the one a [dict] holds. *)
Fixpoint dict_get (k : string) (fields : list (string * Json)) : option Json :=
  match fields with
  | [] => None
  | (k', v) :: rest => if String.eqb k k' then Some v else dict_get k rest
  end.

(** [d[k] = v]: an existing key keeps its place, a new key goes last. *)
Fixpoint dict_set (k : string) (v : Json) (fields : list (string * Json))
  : list (string * Json) :=
  match fields with
  | [] => [(k, v)]
  | (k', v') :: rest =>
      if String.eqb k k' then (k, v) :: rest else (k', v') :: dict_set k v rest
  end.

(** [v[k]] for a string key. *)
Definition getitem (v : Json) (k : string) : Result Json :=
  match v with
  | JObj fields =>
      match dict_get k fields with
      | Some x => Ok x
      | None => Raise (KeyError k)
      end
  | _ => Raise TypeError
  end.

Definition is_continuation (c : ascii) : bool :=
  let n := nat_of_ascii c in (128 <=? n)%nat && (n <=? 191)%nat.

Fixpoint continuation_bytes (s : string) : string :=
  match s with
  | String c rest =>
      if is_continuation c then String c (continuation_bytes rest) else EmptyString
  | EmptyString => EmptyString
  end.

(** [v[0]] *)
Definition getitem0 (v : Json) : Result Json :=
  match v with
  | JArr (x :: _) => Ok x
  | JArr [] => Raise IndexError
  | JStr (String c rest) => Ok (JStr (String c (continuation_bytes rest)))
  | JStr EmptyString => Raise IndexError
  | JObj _ => Raise (KeyError "0")
  | _ => Raise TypeError
  end.

Fixpoint chars (s : string) : list Json :=
  match s with
  | EmptyString => []
  | String c rest =>
      if is_continuation c then chars rest
      else JStr (String c (continuation_bytes rest)) :: chars rest
  end.

(** [for x in v]: the items a [for] loop or a generator walks over. *)
Definition iterate (v : Json) : Result (list Json) :=
  match v with
  | JArr items => Ok items
  | JObj fields => Ok (map (fun kv => JStr (fst kv)) fields)
  | JStr s => Ok (chars s)
  | _ => Raise TypeError
  end.

(** [v[i]] for an integer [i] that is not negative: the item of a
    list, the character of a [str]; a decoded object has strings as
    keys, never [i], and the [KeyError] carries the digits of [i]. *)
Definition getitem_at (v : Json) (i : nat) : Result Json :=
  match v with
  | JArr items =>
      match nth_error items i with
      | Some x => Ok x
      | None => Raise IndexError
      end
  | JStr s =>
      match nth_error (chars s) i with
      | Some x => Ok x
      | None => Raise IndexError
      end
  | JObj _ => Raise (KeyError (NilZero.string_of_uint (Nat.to_uint i)))
  | _ => Raise TypeError
  end.

(** [len(v)] *)
Definition len (v : Json) : Result Z :=
  match v with
  | JArr items => Ok (Z.of_nat (List.length items))
  | JStr s => Ok (Z.of_nat (List.length (chars s)))
  | JObj fields => Ok (Z.of_nat (List.length fields))
  | _ => Raise TypeError
  end.

(** [v.count(x)] for a string [x] of the one character [c]: the
    occurrences of [c] in a [str], the items equal to [x] in a list;
    the other values have no [count]. *)
Definition count (v : Json) (c : ascii) : Result Z :=
  match v with
  | JStr s => Ok (PyStr.count_char c s)
  | JArr items =>
      Ok (Z.of_nat
            (List.length
               (filter (fun item =>
                          match item with
                          | JStr s => String.eqb s (String c EmptyString)
                          | _ => false
                          end) items)))
  | _ => Raise AttributeError
  end.

(** [bool(v)] *)
Definition truthy (v : Json) : bool :=
  match v with
  | JNull => false
  | JBool b => b
  | JNum n => negb (n =? 0)%Z
  | JStr s => negb (String.eqb s EmptyString)
  | JArr items => match items with [] => false | _ => true end
  | JObj fields => match fields with [] => false | _ => true end
  end.

(** [sep.join(items)]: every item must be a [str]. *)
Fixpoint all_str (items : list Json) : Result (list string) :=
  match items with
  | [] => Ok []
  | JStr s :: rest => let? tl := all_str rest in Ok (s :: tl)
  | _ :: _ => Raise TypeError
  end.

Definition join (sep : string) (items : list Json) : Result string :=
  let? parts := all_str items in Ok (PyStr.join sep parts).

Definition opt_str (o : option string) : Json :=
  match o with
  | Some s => JStr s
  | None => JNull
  end.

(** [int(x)] of a rational: truncation towards zero. *)
Definition int (x : Q) : Z := Z.quot (Qnum x) (Zpos (Qden x)).

(** A [float] is the rational it stands for.  The product and the
    difference of two floats are the float nearest to the product and
    to the difference of the rationals, the one with the even
    significand when two are as near: a float has 53 significant bits,
    and below [2 ^ -1022] its step is [2 ^ -1074].  (Results of
    [2 ^ 1024] and more, which Python gives as [inf], do not come up: the
    operands here are readings of the clock, 5 and 10.) *)
Definition round_half_even (x : Q) : Z :=
  let q := (Qnum x / Zpos (Qden x))%Z in
  let r := (Qnum x mod Zpos (Qden x))%Z in
  match (2 * r ?= Zpos (Qden x))%Z with
  | Lt => q
  | Gt => (q + 1)%Z
  | Eq => if Z.even q then q else (q + 1)%Z
  end.

(** The exponent [e] with [2 ^ e <= |x| < 2 ^ (e + 1)], for [x] not 0. *)
Definition exponent (x : Q) : Z :=
  let e := (Z.log2 (Z.abs (Qnum x)) - Z.log2 (Zpos (Qden x)))%Z in
  if Qle_bool (Qpower 2 e) (Qmake (Z.abs (Qnum x)) (Qden x)) then e else (e - 1)%Z.

Definition float_round (x : Q) : Q :=
  if Qeq_bool x 0 then 0%Q
  else
    let step := Qpower 2 (Z.max (exponent x) (-1022) - 52) in
    (inject_Z (round_half_even (x / step)) * step)%Q.

(** [a * b] and [a - b] on floats. *)
Definition float_mul (a b : Q) : Q := float_round (a * b).

Definition float_sub (a b : Q) : Q := float_round (a - b).

Definition Qltb (a b : Q) : bool := negb (Qle_bool b a).

Definition Qmax (a b : Q) : Q := if Qle_bool a b then b else a.


(** The white space of [str.strip()]: the characters U+0009 to U+000D,
    U+001C to U+0020, U+0085, U+00A0, U+1680, U+2000 to U+200A, U+2028,
    U+2029, U+202F, U+205F and U+3000.  A string is its UTF-8 bytes, so
    a character of white space is one, two or three bytes long;
    [space_width] is the number of bytes of the white space character a
    string starts with, 0 when it starts with none. *)
Definition is_whitespace (c : ascii) : bool :=
  let n := nat_of_ascii c in
  ((9 <=? n)%nat && (n <=? 13)%nat) || ((28 <=? n)%nat && (n <=? 32)%nat).

Definition is_byte (n : nat) (c : ascii) : bool := (nat_of_ascii c =? n)%nat.

Definition space_width (s : string) : nat :=
  match s with
  | String a (String b (String c _)) =>
      if is_whitespace a then 1
      else if is_byte 194 a && (is_byte 133 b || is_byte 160 b) then 2
      else if is_byte 225 a && is_byte 154 b && is_byte 128 c then 3
      else if is_byte 226 a && is_byte 128 b
              && (((128 <=? nat_of_ascii c)%nat && (nat_of_ascii c <=? 138)%nat)
                  || is_byte 168 c || is_byte 169 c || is_byte 175 c)
      then 3
      else if is_byte 226 a && is_byte 129 b && is_byte 159 c then 3
      else if is_byte 227 a && is_byte 128 b && is_byte 128 c then 3
      else 0
  | String a (String b EmptyString) =>
      if is_whitespace a then 1
      else if is_byte 194 a && (is_byte 133 b || is_byte 160 b) then 2
      else 0
  | String a EmptyString => if is_whitespace a then 1 else 0
  | EmptyString => 0
  end.

(** The same for the white space character a string ends with, read on
    the bytes of the string in reverse order. *)
Definition space_width_end (reversed : string) : nat :=
  match reversed with
  | String c (String b (String a _)) =>
      if is_whitespace c then 1
      else if (space_width (String b (String c EmptyString)) =? 2)%nat then 2
      else if (space_width (String a (String b (String c EmptyString))) =? 3)%nat then 3
      else 0
  | String c (String b EmptyString) =>
      if is_whitespace c then 1
      else if (space_width (String b (String c EmptyString)) =? 2)%nat then 2
      else 0
  | String c EmptyString => if is_whitespace c then 1 else 0
  | EmptyString => 0
  end.

Fixpoint strip_from (width : string -> nat) (fuel : nat) (s : string) : string :=
  match fuel with
  | O => s
  | S fuel' =>
      match width s with
      | O => s
      | n => strip_from width fuel' (PyStr.drop n s)
      end
  end.

Fixpoint reverse (acc s : string) : string :=
  match s with
  | EmptyString => acc
  | String c rest => reverse (String c acc) rest
  end.

Definition lstrip (s : string) : string := strip_from space_width (String.length s) s.

Definition rstrip (s : string) : string :=
  let reversed := reverse EmptyString s in
  reverse EmptyString (strip_from space_width_end (String.length s) reversed).

(** [s.strip()] *)
Definition strip (s : string) : string := rstrip (lstrip s).

(** [v[k] = x] *)
Definition setitem (v : Json) (k : string) (x : Json) : Result Json :=
  match v with
  | JObj fields => Ok (JObj (dict_set k x fields))
  | _ => Raise TypeError
  end.

(** [v.append(x)] *)
Definition append (v x : Json) : Result Json :=
  match v with
  | JArr items => Ok (JArr (items ++ [x]))
  | _ => Raise AttributeError
  end.

(** [params[k1][k2] = x] *)
Definition setitem_in (params : Json) (k1 k2 : string) (x : Json) : Result Json :=
  let? inner := getitem params k1 in
  let? inner' := setitem inner k2 x in
  setitem params k1 inner'.

(** [params[k1][k2].append(x)] *)
Definition append_in (params : Json) (k1 k2 : string) (x : Json) : Result Json :=
  let? inner := getitem params k1 in
  let? l := getitem inner k2 in
  let? l' := append l x in
  let? inner' := setitem inner k2 l' in
  setitem params k1 inner'.

End Py.

(** ** The world a call runs in *)

Record Response : Type := {
  status_code : Z;
  (** the decoded body, [None] when the body is not JSON *)
  body : option Json
}.

Inductive PostOutcome : Type :=
| PostRaises (e : PyExn)
| PostReturns (r : Response).

Record World : Type := {
  (** [JSONRPCRequest.id_number] *)
  id_number : Z;
  (** [JSONRPCRequest.last_access] *)
  last_access : Q;
  (** [DeeplTranslate.user_preferred_langs] *)
  user_preferred_langs : list string;
  (** the successive readings of [time()], and how many were taken *)
  clock : nat -> Q;
  reads : nat;
  (** the outcome of the successive [post] calls, and the posts made *)
  net : nat -> PostOutcome;
  sent : list (string * Json);
  (** the arguments of the [sleep] calls *)
  slept : list Q;
  (** the messages given to [warnings.warn] *)
  warned : list string
}.

Definition M (A : Type) : Type := World -> Result A * World.

Definition ret {A} (a : A) : M A := fun w => (Ok a, w).

Definition raise {A} (e : PyExn) : M A := fun w => (Raise e, w).

Definition bind {A B} (m : M A) (k : A -> M B) : M B :=
  fun w =>
    match m w with
    | (Ok a, w') => k a w'
    | (Raise e, w') => (Raise e, w')
    end.

Definition lift {A} (r : Result A) : M A := fun w => (r, w).

(** [try: body  except: handler] with a bare [except]. *)
Definition try_except {A} (body : M A) (handler : M A) : M A :=
  fun w =>
    match body w with
    | (Ok a, w') => (Ok a, w')
    | (Raise _, w') => handler w'
    end.

Notation "'let*' x ':=' c 'in' k" := (bind c (fun x => k))
  (at level 10, x pattern, c at level 100, k at level 200).

Definition time : M Q :=
  fun w =>
    (Ok (clock w (reads w)),
     {| id_number := id_number w; last_access := last_access w;
        user_preferred_langs := user_preferred_langs w;
        clock := clock w; reads := S (reads w);
        net := net w; sent := sent w; slept := slept w; warned := warned w |}).

Definition sleep (d : Q) : M unit :=
  fun w =>
    (Ok tt,
     {| id_number := id_number w; last_access := last_access w;
        user_preferred_langs := user_preferred_langs w;
        clock := clock w; reads := reads w;
        net := net w; sent := sent w; slept := slept w ++ [d]; warned := warned w |}).

Definition warn (msg : string) : M unit :=
  fun w =>
    (Ok tt,
     {| id_number := id_number w; last_access := last_access w;
        user_preferred_langs := user_preferred_langs w;
        clock := clock w; reads := reads w;
        net := net w; sent := sent w; slept := slept w; warned := warned w ++ [msg] |}).

Definition set_id_number (n : Z) : M unit :=
  fun w =>
    (Ok tt,
     {| id_number := n; last_access := last_access w;
        user_preferred_langs := user_preferred_langs w;
        clock := clock w; reads := reads w;
        net := net w; sent := sent w; slept := slept w; warned := warned w |}).

Definition set_last_access (t : Q) : M unit :=
  fun w =>
    (Ok tt,
     {| id_number := id_number w; last_access := t;
        user_preferred_langs := user_preferred_langs w;
        clock := clock w; reads := reads w;
        net := net w; sent := sent w; slept := slept w; warned := warned w |}).

Definition get {A} (f : World -> A) : M A := fun w => (Ok (f w), w).

(** [session.post(url, json=payload)] *)
Definition post (url : string) (payload : Json) : M Response :=
  fun w =>
    let w' :=
      {| id_number := id_number w; last_access := last_access w;
         user_preferred_langs := user_preferred_langs w;
         clock := clock w; reads := reads w;
         net := net w; sent := sent w ++ [(url, payload)];
         slept := slept w; warned := warned w |} in
    match net w (List.length (sent w)) with
    | PostRaises e => (Raise e, w')
    | PostReturns r => (Ok r, w')
    end.

(** [request.json()] *)
Definition json (r : Response) : Result Json :=
  match body r with
  | Some v => Ok v
  | None => Raise JSONDecodeError
  end.

(** ** [DeeplTranslateException.error_codes] *)

Definition error_codes (code : Z) : option string :=
  match code with
  | (-32600)%Z => Some "Invalid Request: Invalid commonJobParams."
  | 1042911%Z => Some "Too many requests."
  | 1042912%Z => Some "Too many requests."
  | 1156049%Z => Some "Invalid Request"
  | 5000%Z => Some "Unsported language for glossary."
  | 5001%Z => Some "Invalid CSV file: Same source and target language."
  | 5002%Z => Some "Invalid CSV file: EN can only be combined with FR, DE, ES, IT, PL, JA, NL."
  | 5003%Z => Some "Invalid CSV file: FR can only be combined with EN, DE, ES, IT, PL, JA, NL."
  | 5004%Z => Some "Invalid CSV file: DE can only be combined with EN, FR, ES, IT, PL, JA, NL."
  | 5005%Z => Some "Invalid CSV file: ES can only be combined with EN, FR, DE, IT, PL, JA, NL."
  | 5006%Z => Some "Invalid CSV file: IT can only be combined with EN, FR, DE, ES, PL, JA, NL."
  | 5007%Z => Some "Invalid CSV file: PL can only be combined with EN, FR, DE, ES, IT, JA, NL."
  | 5008%Z => Some "Invalid CSV file: JA can only be combined with EN, FR, DE, ES, IT, PL, NL."
  | 5009%Z => Some "Invalid CSV file: NL can only be combined with EN, FR, DE, ES, IT, PL, JA."
  | 5010%Z => Some "Invalid CSV file: Error in the header (or in its declaration in the 'load_glossary_from_csv' function)"
  | 5011%Z => Some "Syntax Error: The combination in the glossary does not correspond to the combination declared in the translate function."
  | _ => None
  end.

(** The message an exception of the class carries for an integer code. *)
Definition message (e : PyExn) : option string :=
  match e with
  | DeeplTranslateException (JNum code) => error_codes code
  | _ => None
  end.

(** ** [JSONRPCRequest] *)

Module JSONRPCRequest.

Definition dump (method : string) (params : Json) : M Json :=
  let* n := get id_number in
  let* _ := set_id_number (n + 1) in
  let* n' := get id_number in
  ret (JObj [("jsonrpc", JStr "2.0"); ("method", JStr method);
             ("params", params); ("id", JNum n')]).

Definition send_jsonrpc (method : string) (params : Json) : M Json :=
  (* Take a break 5 sec between requests *)
  let* now := time in
  let* last := get last_access in
  let* _ :=
    if Py.Qltb (Py.float_sub now last) 5
    then
      let* now' := time in
      let* last' := get last_access in
      let distance := Py.float_sub 5 (Py.float_sub now' last') in
      sleep (Py.Qmax distance 0)
    else ret tt in
  let* payload := dump method params in
  let* request := post "https://www2.deepl.com/jsonrpc" payload in
  let* t := time in
  let* _ := set_last_access t in
  let* response := lift (json request) in
  if (status_code request =? 200)%Z
  then lift (Py.getitem response "result")
  else
    let* error := lift (Py.getitem response "error") in
    let* code := lift (Py.getitem error "code") in
    raise (DeeplTranslateException code).

End JSONRPCRequest.

(** ** [DeeplTranslate] *)

(** One entry of the [sentences] list of a job.  A sentence is the
    value the split gave for it: the code passes it on as it is. *)
Record JobSentence : Type := {
  text : Json;
  id : Z;
  prefix : string
}.

Record Job : Type := {
  kind : string;
  preferred_num_beams : Z;
  raw_en_context_after : list Json;
  raw_en_context_before : list Json;
  sentences : list JobSentence;
  quality : option string
}.

Definition job_json (j : Job) : Json :=
  JObj ([("kind", JStr (kind j));
         ("preferred_num_beams", JNum (preferred_num_beams j));
         ("raw_en_context_after", JArr (raw_en_context_after j));
         ("raw_en_context_before", JArr (raw_en_context_before j));
         ("sentences",
          JArr (map (fun s => JObj [("text", text s); ("id", JNum (id s));
                                    ("prefix", JStr (prefix s))])
                    (sentences j)))]
        ++ match quality j with
           | Some q => [("quality", JStr q)]
           | None => []
           end).

(** The body of the [for] loop of [_build_jobs] at one [index], from the
    value [before] has when the iteration starts to the value it has
    when it ends, with the job appended.  [all] is the argument
    [sentences] of [_build_jobs]. *)
Definition build_job (all : Json) (quality_ : string)
    (index : nat) (sentence : Json) (before : list Json)
  : Result (list Json * Job) :=
  let? (before, after) :=
    if (index =? 0)%nat
    then
      match Py.getitem_at all (index + 1) with
      | Ok next => Ok ([], [next])
      | Raise IndexError => Ok ([], [])
      | Raise e => Raise e
      end
    else
      let before := if (4 <? List.length before)%nat then List.tl before else before in
      let? prev := Py.getitem_at all (index - 1) in
      let before := before ++ [prev] in
      let? n := Py.len all in
      if (Z.of_nat index >? n - 2)%Z
      then Ok (before, [])
      else let? next := Py.getitem_at all (index + 1) in Ok (before, [next]) in
  Ok (before,
      {| kind := "default";
         preferred_num_beams := 4;
         raw_en_context_after := after;
         raw_en_context_before := before;
         sentences := [{| text := sentence; id := 0; prefix := EmptyString |}];
         quality := if String.eqb quality_ EmptyString then None else Some quality_ |}).

Fixpoint build_jobs_from (all : Json) (quality_ : string)
    (index : nat) (rest : list Json) (before : list Json)
  : Result (list Job) :=
  match rest with
  | [] => Ok []
  | sentence :: rest' =>
      let? (before', job) := build_job all quality_ index sentence before in
      let? jobs := build_jobs_from all quality_ (S index) rest' before' in
      Ok (job :: jobs)
  end.

(** [_build_jobs]: [enumerate(sentences)] walks the items of a list,
    the characters of a [str] or the keys of a [dict]. *)
Definition _build_jobs (sentences_ : Json) (quality_ : string)
  : Result (list Job) :=
  let? items := Py.iterate sentences_ in
  build_jobs_from sentences_ quality_ 0 items [].

(** ** Glossaries

    [BaseTranslator.FormatedGlossary] holds a pandas frame and the two
    language codes.  A frame is its columns in order, each with its
    name and its cells from top to bottom; cells are strings (an empty
    CSV cell, which pandas reads as NaN, is outside the model).
    [df[name]] is the column of the label [name]; where several columns
    carry the label, pandas gives the frame of these columns, which is
    outside the model too: [getitem] is then the first of them. *)

Module DataFrame.

Definition t : Type := list (string * list string).

(** [df[name]]: [KeyError] when no column has the name. *)
Fixpoint getitem (df : t) (name : string) : Result (list string) :=
  match df with
  | [] => Raise (KeyError name)
  | (n, cells) :: rest => if String.eqb name n then Ok cells else getitem rest name
  end.

(** [col.loc[lambda x: x == word].index]: the rows whose cell is [word]. *)
Fixpoint loc_eq_from (row : nat) (col : list string) (word : string) : list nat :=
  match col with
  | [] => []
  | cell :: rest =>
      if String.eqb cell word
      then row :: loc_eq_from (S row) rest word
      else loc_eq_from (S row) rest word
  end.

Definition loc_eq (col : list string) (word : string) : list nat :=
  loc_eq_from 0 col word.

(** [col[index]]: the cells of the rows [index], in that order. *)
Fixpoint take (col : list string) (index : list nat) : Result (list string) :=
  match index with
  | [] => Ok []
  | row :: rest =>
      match nth_error col row with
      | Some cell => let? cells := take col rest in Ok (cell :: cells)
      | None => Raise (KeyError "row")
      end
  end.

(** [series.values[0]] *)
Definition values0 (cells : list string) : Result string :=
  match cells with
  | cell :: _ => Ok cell
  | [] => Raise IndexError
  end.

(** [csv.columns = csv.columns.str.upper()] *)
Definition upper_columns (df : t) : t :=
  map (fun c => (PyStr.upper (fst c), snd c)) df.

(** The rows in ascending order of their key, rows of equal key in
    their order of appearance. *)
Fixpoint insert_row (k : string * nat) (sorted : list (string * nat))
  : list (string * nat) :=
  match sorted with
  | [] => [k]
  | k' :: rest =>
      if String.leb (fst k) (fst k') then k :: sorted else k' :: insert_row k rest
  end.

Fixpoint number_from (row : nat) (col : list string) : list (string * nat) :=
  match col with
  | [] => []
  | cell :: rest => (cell, row) :: number_from (S row) rest
  end.

Definition sorted_rows (key : list string) : list nat :=
  map snd (fold_right insert_row [] (number_from 0 key)).

Definition select_rows (df : t) (rows : list nat) : t :=
  map (fun c => (fst c,
                 flat_map (fun r => match nth_error (snd c) r with
                                    | Some cell => [cell]
                                    | None => []
                                    end) rows)) df.

(** The columns that carry the label [name]. *)
Definition labelled (df : t) (name : string) : list (list string) :=
  map snd (filter (fun c => String.eqb name (fst c)) df).

(** [csv.sort_values(by=[name], ascending=True, inplace=True)]:
    [KeyError] when no column has the label, [ValueError] when the label
    is not unique. *)
Definition sort_values (df : t) (name : string) : Result t :=
  match labelled df name with
  | [] => Raise (KeyError name)
  | [key] => Ok (select_rows df (sorted_rows key))
  | _ :: _ :: _ => Raise ValueError
  end.

(** [col.is_unique] *)
Fixpoint is_unique (col : list string) : bool :=
  match col with
  | [] => true
  | cell :: rest => negb (existsb (String.eqb cell) rest) && is_unique rest
  end.

(** The rows [keep='last'] keeps: those whose key does not come again. *)
Fixpoint last_rows_from (row : nat) (col : list string) : list nat :=
  match col with
  | [] => []
  | cell :: rest =>
      if existsb (String.eqb cell) rest
      then last_rows_from (S row) rest
      else row :: last_rows_from (S row) rest
  end.

(** [csv.drop_duplicates(subset=[name], keep='last', inplace=True)] *)
Definition drop_duplicates (df : t) (name : string) : Result t :=
  let? key := getitem df name in
  Ok (select_rows df (last_rows_from 0 key)).

End DataFrame.

Module FormatedGlossary.

Record t : Type := {
  dataframe : DataFrame.t;
  source_language : string;
  target_language : string
}.

End FormatedGlossary.

Definition _glossary_supported_languages : list string :=
  ["DE"; "EN"; "ES"; "FR"; "JA"; "IT"; "PL"; "NL"].

(** [x in l] and [x not in l] for a list or a set of strings. *)
Definition str_in (x : string) (l : list string) : bool := existsb (String.eqb x) l.

Definition raise_code {A} (code : Z) : M A :=
  raise (DeeplTranslateException (JNum code)).

(** [try: body  except KeyError: handler] *)
Definition try_except_KeyError {A} (body : M A) (handler : M A) : M A :=
  fun w =>
    match body w with
    | (Raise (KeyError _), w') => handler w'
    | other => other
    end.

(** [load_glossary_from_csv]: [read_csv] is what
    [pd.read_csv(file_path, sep=separator, encoding=encoding)] gives for
    the file, a frame or the exception it raises. *)
Definition load_glossary_from_csv (read_csv : Result DataFrame.t)
    (source_language target_language : string) : M FormatedGlossary.t :=
  let source_language := PyStr.upper source_language in
  let target_language := PyStr.upper target_language in
  (* verifiy if language is supported *)
  if negb (str_in source_language _glossary_supported_languages)
     || negb (str_in target_language _glossary_supported_languages)
  then raise_code 5000
  else if String.eqb source_language target_language
  then raise_code 5001
  else
    let* csv := lift read_csv in
    (* check if combinations of source and target language are available by DeepL *)
    if String.eqb source_language "EN"
       && negb (str_in target_language ["FR"; "DE"; "ES"; "IT"; "PL"; "JA"; "NL"])
    then raise_code 5002
    else if String.eqb source_language "FR"
       && negb (str_in target_language ["EN"; "DE"; "ES"; "IT"; "PL"; "JA"; "NL"])
    then raise_code 5003
    else if String.eqb source_language "DE"
       && negb (str_in target_language ["EN"; "FR"; "ES"; "IT"; "PL"; "JA"; "NL"])
    then raise_code 5004
    else if String.eqb source_language "ES"
       && negb (str_in target_language ["EN"; "FR"; "DE"; "IT"; "PL"; "JA"; "NL"])
    then raise_code 5005
    else if String.eqb source_language "IT"
       && negb (str_in target_language ["EN"; "FR"; "DE"; "ES"; "PL"; "JA"; "NL"])
    then raise_code 5006
    else if String.eqb source_language "PL"
       && negb (str_in target_language ["EN"; "FR"; "DE"; "ES"; "IT"; "JA"; "NL"])
    then raise_code 5007
    else if String.eqb source_language "JA"
       && negb (str_in target_language ["EN"; "FR"; "DE"; "ES"; "IT"; "PL"; "NL"])
    then raise_code 5008
    else if String.eqb source_language "NL"
       && negb (str_in target_language ["EN"; "FR"; "DE"; "ES"; "IT"; "PL"; "JA"])
    then raise_code 5009
    else
      let csv := DataFrame.upper_columns csv in
      let* csv :=
        try_except_KeyError
          (let* csv := lift (DataFrame.sort_values csv source_language) in
           let* key := lift (DataFrame.getitem csv source_language) in
           if negb (DataFrame.is_unique key)
           then
             let* _ := warn "Duplicate entries in the dictionary, only the last one will be kept. Please check the dictionary." in
             lift (DataFrame.drop_duplicates csv source_language)
           else ret csv)
          (raise_code 5010) in
      ret {| FormatedGlossary.dataframe := csv;
             FormatedGlossary.source_language := source_language;
             FormatedGlossary.target_language := target_language |}.


(** The parameters of the remote split.  [list(set(...))] leaves the
    order of the languages to the implementation; here the languages
    come in the order of the list, each once. *)
Definition split_params (text_ destination_language source_language : string)
    (preferred : list string) : Json :=
  JObj [("texts", JArr [JStr (Py.strip text_)]);
        ("lang",
         JObj [("lang_user_selected", JStr source_language);
               ("user_preferred_langs",
                JArr (map JStr (nodup string_dec (preferred ++ [destination_language]))))])].

(** [_split_into_sentences]: the tuple of the regular expression split
    is an expression statement, its value is dropped and the call goes
    on to the remote split. *)
Definition _split_into_sentences (text_ destination_language source_language : string)
  : M (Json * Json) :=
  let REGEX_SPLIT := true in
  let _ :=
    if REGEX_SPLIT
    then Some (JArr (map JStr (Regex.split text_)), JNull)
    else None in
  let* preferred := get user_preferred_langs in
  let params := split_params text_ destination_language source_language preferred in
  let* resp := JSONRPCRequest.send_jsonrpc "LMT_split_into_sentences" params in
  let* splitted := lift (Py.getitem resp "splitted_texts") in
  let* first := lift (Py.getitem0 splitted) in
  let* lang := lift (Py.getitem resp "lang") in
  ret (first, lang).

(** The [dictionary] argument of [_translate]: [None] (the default), a
    string, or a glossary. *)
Inductive Dictionary : Type :=
| DictNone
| DictStr (s : string)
| DictGlossary (g : FormatedGlossary.t).

(** [dictionary != ""] *)
Definition dictionary_ne_empty (d : Dictionary) : bool :=
  match d with
  | DictStr s => negb (String.eqb s EmptyString)
  | _ => true
  end.

(** [dictionary.source_language] and the other attributes: only a
    glossary has them. *)
Definition glossary_of (d : Dictionary) : Result FormatedGlossary.t :=
  match d with
  | DictGlossary g => Ok g
  | _ => Raise AttributeError
  end.

Definition quote_warning : string :=
  "Word with quotes in the dictionary: the pair will be ignored".

Definition limit_warning : string :=
  "The limit of 10 combinations per query has been reached, the rest of the combinations will be ignored".

Definition pair_line (word target : string) : string :=
  word +++ String PyStr.tab EmptyString +++ target +++ String PyStr.newline EmptyString.

(** One iteration of the loop over the words of the source column. *)
Definition glossary_step (g : FormatedGlossary.t) (text_ source_language : string)
    (st : Z * string) (word : string) : M (Z * string) :=
  let (limit, formated_string) := st in
  let* (limit, formated_string) :=
    if PyStr.contains word text_ && (limit >? 0)%Z
    then
      let* col := lift (DataFrame.getitem (FormatedGlossary.dataframe g)
                                          (PyStr.upper source_language)) in
      let index := DataFrame.loc_eq col word in
      let* tcol := lift (DataFrame.getitem (FormatedGlossary.dataframe g)
                                           (PyStr.upper (FormatedGlossary.target_language g))) in
      let* target_word := lift (DataFrame.take tcol index) in
      let* value := lift (DataFrame.values0 target_word) in
      if negb (PyStr.has_quote value) && negb (PyStr.has_quote word)
      then ret ((limit - 1)%Z, formated_string +++ pair_line word value)
      else
        (* warning for words with quotes *)
        let* _ := warn quote_warning in
        ret (limit, formated_string)
    else ret (limit, formated_string) in
  let* _ :=
    if PyStr.contains word text_ && (limit =? 0)%Z
    then warn limit_warning
    else ret tt in
  ret (limit, formated_string).

Fixpoint glossary_loop (g : FormatedGlossary.t) (text_ source_language : string)
    (st : Z * string) (words : list string) : M (Z * string) :=
  match words with
  | [] => ret st
  | word :: rest =>
      let* st' := glossary_step g text_ source_language st word in
      glossary_loop g text_ source_language st' rest
  end.

(** The first part of [_translate]: the check of the glossary against
    the languages of the call and the string of the termbase. *)
Definition build_termbase (dictionary : Dictionary)
    (text_ source_language destination_language : string) : M string :=
  let formated_string := EmptyString in
  if dictionary_ne_empty dictionary
  then
    let* g := lift (glossary_of dictionary) in
    if negb (PyStr.contains (PyStr.upper source_language) (FormatedGlossary.source_language g))
       || negb (PyStr.contains (PyStr.upper destination_language)
                               (FormatedGlossary.target_language g))
    then raise_code 5011
    else
      let limit := 10%Z in
      let* words := lift (DataFrame.getitem (FormatedGlossary.dataframe g)
                                            (PyStr.upper source_language)) in
      let* (_, formated_string) :=
        glossary_loop g text_ source_language (limit, formated_string) words in
      if negb (String.eqb formated_string EmptyString)
      then
        let formated_string :=
          PyStr.replace (String PyStr.quote (String PyStr.tab
                           (String PyStr.quote (String PyStr.newline EmptyString))))
                        EmptyString formated_string in
        match PyStr.last_char formated_string with
        | None => raise IndexError
        | Some c =>
            if Ascii.eqb c PyStr.newline
            then ret (PyStr.drop_last formated_string)
            else ret formated_string
        end
      else ret formated_string
  else ret formated_string.

(** [sum(sentence.count("i") for sentence in sentences)] over the items
    the generator walks. *)
Fixpoint sum_counts (items : list Json) : Result Z :=
  match items with
  | [] => Ok 0%Z
  | sentence :: rest =>
      let? n := Py.count sentence "i"%char in
      let? total := sum_counts rest in
      Ok (n + total)%Z
  end.

(** [1 + sum(sentence.count("i") for sentence in sentences)] *)
Definition i_count (sentences_ : Json) : Result Z :=
  let? items := Py.iterate sentences_ in
  let? total := sum_counts items in
  Ok (1 + total)%Z.

(** [int(time() * 10) * 100 + 1000] for a reading [t] of the clock. *)
Definition base_timestamp (t : Q) : Z :=
  (Py.int (Py.float_mul t 10) * 100 + 1000)%Z.

(** [ts + (i_count - ts % i_count)] *)
Definition timestamp (ts n : Z) : Z := (ts + (n - ts mod n))%Z.

(** [obj["beams"][0]["sentences"][0]["text"]] *)
Definition top_text (obj : Json) : Result Json :=
  let? beams := Py.getitem obj "beams" in
  let? beam := Py.getitem0 beams in
  let? sents := Py.getitem beam "sentences" in
  let? sent := Py.getitem0 sents in
  Py.getitem sent "text".

(** The generator given to [join]: the top text of each translation
    whose top text is true. *)
Fixpoint top_texts (translations : list Json) : Result (list Json) :=
  match translations with
  | [] => Ok []
  | obj :: rest =>
      let? cond := top_text obj in
      if Py.truthy cond
      then
        let? item := top_text obj in
        let? items := top_texts rest in
        Ok (item :: items)
      else top_texts rest
  end.

Definition translate_params (jobs : list Job)
    (source_language destination_language : string) (priority : Z)
    (formality : option string) (formated_string : string) (stamp : Z) : Json :=
  JObj [("jobs", JArr (map job_json jobs));
        ("lang",
         JObj [("preference",
                JObj [("weight", JObj []); ("default", JStr "default")]);
               ("source_lang_computed", JStr source_language);
               ("target_lang", JStr destination_language)]);
        ("priority", JNum priority);
        ("commonJobParams",
         JObj [("browserType", JNum 1);
               ("formality", Py.opt_str formality);
               ("mode", JStr "translate");
               ("termbase", JObj [("dictionary", JStr formated_string)])]);
        ("timestamp", JNum stamp)].

(** The end of [_translate], from the result of the job batch: the
    detected language, and the top texts joined when there is a result. *)
Definition reassemble (source_language : string) (results : Json)
  : Result (option (Json * string)) :=
  let _detected_language :=
    match Py.getitem results "source_lang" with
    | Ok v => v
    | Raise _ => JStr source_language
    end in
  match results with
  | JNull => Ok None
  | _ =>
      let? translations := Py.getitem results "translations" in
      let? objs := Py.iterate translations in
      let? items := top_texts objs in
      let? joined := Py.join " " items in
      Ok (Some (_detected_language, joined))
  end.

(** The branch of [_translate] on [source_language == 'auto'], which
    completes the [lang] entry of the parameters. *)
Definition translate_lang_update (params : Json) (source_language : string)
    (computed_lang : Json) : Result Json :=
  if String.eqb source_language "auto"
  then
    let? params :=
      Py.setitem_in params "lang" "source_lang_computed" computed_lang in
    Py.append_in params "lang" "user_preferred_langs" computed_lang
  else
    Py.setitem_in params "lang" "source_lang_user_selected" (JStr source_language).

(** [_translate]: [None] when the call returns nothing, else the pair
    of the detected language and the text. *)
Definition _translate (text_ destination_language source_language : string)
    (formality : option string) (dictionary : Dictionary)
  : M (option (Json * string)) :=
  (* check if glossary conbination are same as source and target language *)
  let priority := 1%Z in
  let quality_ := EmptyString in
  let* formated_string :=
    build_termbase dictionary text_ source_language destination_language in
  (* splitting the text into sentences *)
  let* (sentences_, computed_lang) :=
    _split_into_sentences text_ destination_language source_language in
  (* building the a job per sentence *)
  let* jobs := lift (_build_jobs sentences_ quality_) in
  let* n := lift (i_count sentences_) in
  let* t := time in
  let ts := base_timestamp t in
  (* params building *)
  let params :=
    translate_params jobs source_language destination_language priority
                     formality formated_string (timestamp ts n) in
  let* params := lift (translate_lang_update params source_language computed_lang) in
  let* results := JSONRPCRequest.send_jsonrpc "LMT_handle_jobs" params in
  lift (reassemble source_language results).

Definition language_params (jobs : list Job) (priority : Z) (stamp : Z) : Json :=
  JObj [("jobs", JArr (map job_json jobs));
        ("lang",
         JObj [("preference",
                JObj [("weight", JObj []); ("default", JStr "default")]);
               ("target_lang", JStr "FR");
               ("user_preferred_langs", JArr [JStr "FR"])]);
        ("priority", JNum priority);
        ("timestamp", JNum stamp)].

(** The branch of [_language] on [computed_lang is not None]. *)
Definition language_lang_update (params : Json) (computed_lang : Json) : Result Json :=
  match computed_lang with
  | JNull => Py.setitem_in params "lang" "source_lang_user_selected" (JStr "AUTO")
  | _ =>
      let? params :=
        Py.setitem_in params "lang" "source_lang_computed" computed_lang in
      Py.append_in params "lang" "user_preferred_langs" computed_lang
  end.

(** The end of [_language]: [JNull] when the call returns nothing. *)
Definition language_result (results : Json) : Result Json :=
  match results with
  | JNull => Ok JNull
  | _ => Py.getitem results "source_lang"
  end.

(** [_language]: the detected language. *)
Definition _language (text_ : string) : M Json :=
  let priority := 1%Z in
  let quality_ := EmptyString in
  (* splitting the text into sentences *)
  let* (sentences_, computed_lang) := _split_into_sentences text_ "EN" "AUTO" in
  (* building the a job per sentence *)
  let* jobs := lift (_build_jobs sentences_ quality_) in
  let* n := lift (i_count sentences_) in
  let* t := time in
  let ts := base_timestamp t in
  (* params building *)
  let params := language_params jobs priority (timestamp ts n) in
  let* params := lift (language_lang_update params computed_lang) in
  let* results := JSONRPCRequest.send_jsonrpc "LMT_handle_jobs" params in
  lift (language_result results).

(** ** [BingTranslate] *)

Module Language.

(** [translatepy.models.languages.Language], as far as the Bing
    translator reads it. *)
Record t : Type := { bing_translate : string }.

End Language.

Module BingTranslate.

Definition HEADERS : Json :=
  JObj [("Host", JStr "www.bing.com");
        ("User-Agent", JStr "Mozilla/5.0 (Windows NT 6.1; WOW64; rv:52.0) Gecko/20100101 Firefox/52.0");
        ("Accept", JStr "*/*");
        ("Accept-Language", JStr "en-US,en;q=0.5");
        ("Accept-Encoding", JStr "gzip, deflate");
        ("Referer", JStr "https://www.bing.com/");
        ("Content-Type", JStr "application/x-www-form-urlencoded");
        ("Connection", JStr "keep-alive")].

Definition PARAMS : Json :=
  JObj [("IG", JStr "839D27F8277F4AA3B0EDB83C255D0D70");
        ("IID", JStr "translator.5033.3")].

(** The [source_language] argument: [None], a string or a [Language]. *)
Inductive Source : Type :=
| SourceNone
| SourceStr (s : string)
| SourceLanguage (l : Language.t).

(** [translate]: the pair it returns, [(JNull, JNull)] for
    [None, None]. *)
Definition translate (text_ destination_language : string)
    (source_language : Source) : M (Json * Json) :=
  try_except
    (let source_language :=
       match source_language with
       | SourceNone => "auto-detect"
       | SourceLanguage l => Language.bing_translate l
       | SourceStr s => s
       end in
     let* request :=
       post "https://www.bing.com/ttranslatev3"
            (JObj [("headers", HEADERS); ("params", PARAMS);
                   ("data", JObj [("text", JStr text_);
                                  ("fromLang", JStr source_language);
                                  ("to", JStr destination_language)])]) in
     if (status_code request <? 400)%Z
     then
       let* data := lift (json request) in
       let* first := lift (Py.getitem0 data) in
       let* detected := lift (Py.getitem first "detectedLanguage") in
       let* lang := lift (Py.getitem detected "language") in
       let* first' := lift (Py.getitem0 data) in
       let* translations := lift (Py.getitem first' "translations") in
       let* translation := lift (Py.getitem0 translations) in
       let* translated := lift (Py.getitem translation "text") in
       ret (lang, translated)
     else ret (JNull, JNull))
    (ret (JNull, JNull)).

End BingTranslate.

(** ** [GetClientState] and the construction of [JSONRPCRequest] *)

Module GetClientState.

(** The state manager: its own counter.  [r] is the draw of
    [randint(1000, 9999)]. *)
Record t : Type := { id_number : Z }.

Definition init (r : Z) : t := {| id_number := (r * 10000)%Z |}.

Definition dump (self : t) : t * Json :=
  let self' := {| id_number := (id_number self + 1)%Z |} in
  (self',
   JObj [("id", JNum (id_number self'));
         ("jsonrpc", JStr "2.0");
         ("method", JStr "getClientState");
         ("params", JObj [("v", JStr "20180814"); ("clientVars", JObj [])])]).

Definition url : string := "https://w.deepl.com/web".

(** The request [get] posts: the query parameters and the JSON body. *)
Definition request_of (payload : Json) : Json :=
  JObj [("params",
         JObj [("request_type", JStr "jsonrpc"); ("il", JStr "E");
               ("method", JStr "getClientState")]);
        ("json", payload)].

(** [get]: the [id] of the answer, whatever its status. *)
Definition get (self : t) : M Json :=
  let (_, payload) := dump self in
  let* request := post url (request_of payload) in
  let* response := lift (json request) in
  lift (Py.getitem response "id").

End GetClientState.

(** [JSONRPCRequest.__init__]: the value it leaves in [id_number], with
    [last_access] set to zero.  [r1] is the draw of the state manager,
    [r2] the draw of the [except] branch. *)
Definition JSONRPCRequest_init (r1 r2 : Z) : M Json :=
  let client_state := GetClientState.init r1 in
  let* id_ :=
    try_except (GetClientState.get client_state)
               (ret (JNum (r2 * 10000 + 1))) in
  let* _ := set_last_access 0 in
  ret id_.

(** ** [BingTranslate.language] and [BingTranslate.spellcheck] *)

Module Bing.

Definition translate_url : string := "https://www.bing.com/ttranslatev3".

Definition spellcheck_url : string := "https://www.bing.com/tspellcheckv3".

Definition request_of (data : Json) : Json :=
  JObj [("headers", BingTranslate.HEADERS); ("params", BingTranslate.PARAMS);
        ("data", data)].

(** [language]: [JNull] for [None]. *)
Definition language (text_ : string) : M Json :=
  try_except
    (let* request :=
       post translate_url
            (request_of (JObj [("text", JStr text_);
                               ("fromLang", JStr "auto-detect");
                               ("to", JStr "en")])) in
     if (status_code request <? 400)%Z
     then
       let* data := lift (json request) in
       let* first := lift (Py.getitem0 data) in
       let* detected := lift (Py.getitem first "detectedLanguage") in
       lift (Py.getitem detected "language")
     else ret JNull)
    (ret JNull).

(** [result == ""] for a decoded value. *)
Definition is_empty_str (v : Json) : bool :=
  match v with
  | JStr s => String.eqb s EmptyString
  | _ => false
  end.

(** The part of [spellcheck] after the source language is known.
    [str_] is Python's [str] on a decoded value. *)
Definition spellcheck_request (str_ : Json -> string) (text_ : string)
    (source_language : Json) : M (Json * Json) :=
  let* request :=
    post spellcheck_url
         (request_of (JObj [("text", JStr text_);
                            ("fromLang", JStr (str_ source_language))])) in
  if (status_code request <? 400)%Z
  then
    let* data := lift (json request) in
    let* result := lift (Py.getitem data "correctedText") in
    if is_empty_str result
    then ret (source_language, JStr text_)
    else ret (source_language, result)
  else ret (JNull, JNull).

(** [spellcheck]: the pair it returns, [(JNull, JNull)] for
    [None, None]. *)
Definition spellcheck (str_ : Json -> string) (text_ : string)
    (source_language : option string) : M (Json * Json) :=
  try_except
    (match source_language with
     | None =>
         let* detected := language text_ in
         match detected with
         | JNull => ret (JNull, JNull)
         | _ => spellcheck_request str_ text_ detected
         end
     | Some s => spellcheck_request str_ text_ (JStr s)
     end)
    (ret (JNull, JNull)).

End Bing.

(** ** What the job builder is expected to return *)

(** The sentences before [i], at most five, the nearest last. *)
Definition window (all : list Json) (i : nat) : list Json :=
  skipn (i - 5) (firstn i all).

(** The sentence after [i], if there is one. *)
Definition following (all : list Json) (i : nat) : list Json :=
  firstn 1 (skipn (S i) all).

Definition expected_job (all : list Json) (quality_ : string) (i : nat) : Job :=
  {| kind := "default";
     preferred_num_beams := 4;
     raw_en_context_after := following all i;
     raw_en_context_before := window all i;
     sentences := [{| text := nth i all JNull; id := 0; prefix := EmptyString |}];
     quality := if String.eqb quality_ EmptyString then None else Some quality_ |}.

(** The items of a value that is a sequence: a list or a [str]. *)
Definition sequence (v : Json) : option (list Json) :=
  match v with
  | JArr items => Some items
  | JStr s => Some (Py.chars s)
  | _ => None
  end.

(** ** What a call returns, as a function of what the network answers *)

Definition jsonrpc_url : string := "https://www2.deepl.com/jsonrpc".

(** The payload [dump] builds when the identifier before the call is [n]. *)
Definition rpc_payload (method : string) (params : Json) (n : Z) : Json :=
  JObj [("jsonrpc", JStr "2.0"); ("method", JStr method);
        ("params", params); ("id", JNum (n + 1))].

(** What [send_jsonrpc] returns or raises when [post] has the outcome [o]. *)
Definition rpc_result (o : PostOutcome) : Result Json :=
  match o with
  | PostRaises e => Raise e
  | PostReturns request =>
      let? response := json request in
      if (status_code request =? 200)%Z
      then Py.getitem response "result"
      else
        let? error := Py.getitem response "error" in
        let? code := Py.getitem error "code" in
        Raise (DeeplTranslateException code)
  end.

(** What [_split_into_sentences] returns or raises for that outcome. *)
Definition split_reply (o : PostOutcome) : Result (Json * Json) :=
  let? resp := rpc_result o in
  let? splitted := Py.getitem resp "splitted_texts" in
  let? first := Py.getitem0 splitted in
  let? lang := Py.getitem resp "lang" in
  Ok (first, lang).

(** The parameters [_translate] sends when the source language is not
    ['auto']. *)
Definition translate_sent_params (jobs : list Job)
    (source_language destination_language : string)
    (formality : option string) (formated_string : string) (stamp : Z) : Json :=
  JObj [("jobs", JArr (map job_json jobs));
        ("lang",
         JObj [("preference",
                JObj [("weight", JObj []); ("default", JStr "default")]);
               ("source_lang_computed", JStr source_language);
               ("target_lang", JStr destination_language);
               ("source_lang_user_selected", JStr source_language)]);
        ("priority", JNum 1);
        ("commonJobParams",
         JObj [("browserType", JNum 1);
               ("formality", Py.opt_str formality);
               ("mode", JStr "translate");
               ("termbase", JObj [("dictionary", JStr formated_string)])]);
        ("timestamp", JNum stamp)].

(** The jobs of a list of sentences, as [_build_jobs] returns them. *)
Definition jobs_of (sentences_ : list Json) : list Job :=
  map (expected_job sentences_ EmptyString) (seq 0 (List.length sentences_)).

(** What [_translate] returns or raises, from the termbase and the
    outcomes of its two posts. *)
Definition translate_outcome (source_language : string) (termbase : Result string)
    (o_split o_jobs : PostOutcome) : Result (option (Json * string)) :=
  let? _ := termbase in
  let? reply := split_reply o_split in
  let? _ := _build_jobs (fst reply) EmptyString in
  let? _ := i_count (fst reply) in
  if String.eqb source_language "auto"
  then Raise (KeyError "user_preferred_langs")
  else
    let? results := rpc_result o_jobs in
    reassemble source_language results.

(** The requests a call of [_translate] posts, [n] being the identifier
    of the session before the call and [t] the reading of the clock
    the timestamp is made from. *)
Definition translate_log (text_ destination_language source_language : string)
    (formality : option string) (preferred : list string) (n : Z)
    (termbase : Result string) (o_split : PostOutcome) (t : Q)
  : list (string * Json) :=
  match termbase with
  | Raise _ => []
  | Ok formated_string =>
      (jsonrpc_url,
       rpc_payload "LMT_split_into_sentences"
         (split_params text_ destination_language source_language preferred) n)
      :: match split_reply o_split with
         | Raise _ => []
         | Ok reply =>
             match _build_jobs (fst reply) EmptyString, i_count (fst reply) with
             | Ok jobs, Ok count =>
                 if String.eqb source_language "auto" then []
                 else
                   [(jsonrpc_url,
                     rpc_payload "LMT_handle_jobs"
                       (translate_sent_params jobs
                          source_language destination_language formality
                          formated_string
                          (timestamp (base_timestamp t) count))
                       (n + 1))]
             | _, _ => []
             end
         end
  end.

(** The parameters [_language] sends. *)
Definition language_sent_params (jobs : list Job) (computed_lang : Json) (stamp : Z)
  : Json :=
  JObj [("jobs", JArr (map job_json jobs));
        ("lang",
         JObj ([("preference",
                 JObj [("weight", JObj []); ("default", JStr "default")]);
                ("target_lang", JStr "FR")]
               ++ match computed_lang with
                  | JNull =>
                      [("user_preferred_langs", JArr [JStr "FR"]);
                       ("source_lang_user_selected", JStr "AUTO")]
                  | _ =>
                      [("user_preferred_langs", JArr [JStr "FR"; computed_lang]);
                       ("source_lang_computed", computed_lang)]
                  end));
        ("priority", JNum 1);
        ("timestamp", JNum stamp)].

(** What [_language] returns or raises, from the outcomes of its two posts. *)
Definition language_outcome (o_split o_jobs : PostOutcome) : Result Json :=
  let? reply := split_reply o_split in
  let? _ := _build_jobs (fst reply) EmptyString in
  let? _ := i_count (fst reply) in
  let? results := rpc_result o_jobs in
  language_result results.

(** The requests a call of [_language] posts. *)
Definition language_log (text_ : string) (preferred : list string) (n : Z)
    (o_split : PostOutcome) (t : Q) : list (string * Json) :=
  (jsonrpc_url,
   rpc_payload "LMT_split_into_sentences" (split_params text_ "EN" "AUTO" preferred) n)
  :: match split_reply o_split with
     | Raise _ => []
     | Ok reply =>
         match _build_jobs (fst reply) EmptyString, i_count (fst reply) with
         | Ok jobs, Ok count =>
             [(jsonrpc_url,
               rpc_payload "LMT_handle_jobs"
                 (language_sent_params jobs (snd reply)
                    (timestamp (base_timestamp t) count))
                 (n + 1))]
         | _, _ => []
         end
     end.

(** What [BingTranslate.translate] reads in the decoded body. *)
Definition bing_parse (data : Json) : Result (Json * Json) :=
  let? first := Py.getitem0 data in
  let? detected := Py.getitem first "detectedLanguage" in
  let? lang := Py.getitem detected "language" in
  let? first' := Py.getitem0 data in
  let? translations := Py.getitem first' "translations" in
  let? translation := Py.getitem0 translations in
  let? translated := Py.getitem translation "text" in
  Ok (lang, translated).

(** What [BingTranslate.translate] returns when [post] has the outcome [o]. *)
Definition bing_outcome (o : PostOutcome) : Json * Json :=
  match o with
  | PostRaises _ => (JNull, JNull)
  | PostReturns request =>
      if (status_code request <? 400)%Z
      then
        match (let? data := json request in bing_parse data) with
        | Ok answer => answer
        | Raise _ => (JNull, JNull)
        end
      else (JNull, JNull)
  end.

(** The occurrences of the character [c] in a string, and in all the
    strings of a list. *)
Definition letters (c : ascii) (s : string) : nat :=
  count_occ ascii_dec (list_ascii_of_string s) c.

Definition occurrences (c : ascii) (sentences_ : list string) : Z :=
  Z.of_nat (list_sum (map (letters c) sentences_)).

(** The strings [join] is given: the texts that are not empty. *)
Definition non_empty (texts : list string) : list string :=
  filter (fun t => negb (String.eqb t EmptyString)) texts.

(** ** What the glossary matcher is expected to emit *)

(** The target cell of the first row whose source cell is [word]. *)
Definition first_target (words targets : list string) (word : string) : option string :=
  match DataFrame.loc_eq words word with
  | row :: _ => nth_error targets row
  | [] => None
  end.

(** The pair a word stands for: the word occurs in the text and neither
    the word nor its target holds a quote. *)
Definition candidate (text_ : string) (words targets : list string) (word : string)
  : option (string * string) :=
  if PyStr.contains word text_
  then
    match first_target words targets word with
    | Some value =>
        if negb (PyStr.has_quote value) && negb (PyStr.has_quote word)
        then Some (word, value)
        else None
    | None => None
    end
  else None.

(** The pairs of the words [ws], in their order. *)
Definition candidates (text_ : string) (words targets ws : list string)
  : list (string * string) :=
  flat_map (fun word =>
              match candidate text_ words targets word with
              | Some p => [p]
              | None => []
              end) ws.

(** The lines of a list of pairs, each [source TAB target NEWLINE]. *)
Definition render (pairs : list (string * string)) : string :=
  fold_right (fun p acc => pair_line (fst p) (snd p) +++ acc) EmptyString pairs.

(** A matched entry that holds a quote. *)
Definition quoted_match (text_ : string) (words targets : list string) (word : string)
  : bool :=
  PyStr.contains word text_
  && match first_target words targets word with
     | Some value => PyStr.has_quote value || PyStr.has_quote word
     | None => false
     end.

(** What one iteration of the matcher leaves in [limit] and
    [formated_string]. *)
Definition step_state (text_ : string) (words targets : list string)
    (st : Z * string) (word : string) : Z * string :=
  if (0 <? fst st)%Z
  then
    match candidate text_ words targets word with
    | Some p => ((fst st - 1)%Z, snd st +++ pair_line (fst p) (snd p))
    | None => st
    end
  else st.

(** The warnings one iteration gives. *)
Definition step_warnings (text_ : string) (words targets : list string)
    (st : Z * string) (word : string) : list string :=
  (if quoted_match text_ words targets word && (0 <? fst st)%Z
   then [quote_warning] else [])
  ++ (if PyStr.contains word text_
         && (fst (step_state text_ words targets st word) =? 0)%Z
      then [limit_warning] else []).

(** The warnings of the loop over the words [ws] from the state [st]. *)
Fixpoint loop_warnings (text_ : string) (words targets : list string)
    (st : Z * string) (ws : list string) : list string :=
  match ws with
  | [] => []
  | word :: rest =>
      step_warnings text_ words targets st word
      ++ loop_warnings text_ words targets (step_state text_ words targets st word) rest
  end.

(** Neither string of the pair holds a quote. *)
Definition quote_free (p : string * string) : Prop :=
  PyStr.has_quote (fst p) = false /\ PyStr.has_quote (snd p) = false.


(** What is left of the world when only warnings were given. *)
Definition same_but_warned (w w' : World) : Prop :=
  id_number w' = id_number w /\ last_access w' = last_access w /\
  user_preferred_langs w' = user_preferred_langs w /\
  clock w' = clock w /\ reads w' = reads w /\
  net w' = net w /\ sent w' = sent w /\ slept w' = slept w.

(** Computations that touch nothing but the warnings. *)
Definition warn_only {A} (m : M A) : Prop :=
  forall w, same_but_warned w (snd (m w)).

(** ** Sample worlds *)

Definition sample_world (answers : nat -> PostOutcome) : World :=
  {| id_number := 12340001;
     last_access := 0;
     user_preferred_langs := ["EN"; "FR"];
     clock := fun k => inject_Z (1700000000 + Z.of_nat k);
     reads := 0;
     net := answers;
     sent := [];
     slept := [];
     warned := [] |}.

(** The same world with a clock whose first reading is the float
    [1700000000.1]. *)
Definition fraction_world (answers : nat -> PostOutcome) : World :=
  {| id_number := 12340001;
     last_access := 0;
     user_preferred_langs := ["EN"; "FR"];
     clock := fun k => ((3565158400209715 # 2097152) + inject_Z (Z.of_nat k))%Q;
     reads := 0;
     net := answers;
     sent := [];
     slept := [];
     warned := [] |}.

(** A network that refuses every connection. *)
Definition refused : nat -> PostOutcome := fun _ => PostRaises ConnectionError.

Definition ok_200 (result : Json) : PostOutcome :=
  PostReturns {| status_code := 200; body := Some (JObj [("id", JNum 1); ("result", result)]) |}.

(** A translation object whose first beam holds the one sentence [s]. *)
Definition translation (s : string) : Json :=
  JObj [("beams", JArr [JObj [("sentences", JArr [JObj [("text", JStr s)]])]])].

(** The split answers with three sentences, the job batch with their
    translations. *)
Definition bonjour : nat -> PostOutcome :=
  fun k =>
    match k with
    | O =>
        ok_200 (JObj [("splitted_texts",
                       JArr [JArr [JStr "Hello."; JStr "How are you?"; JStr "Bye."]]);
                      ("lang", JStr "EN")])
    | _ =>
        ok_200 (JObj [("source_lang", JStr "EN");
                      ("translations",
                       JArr [translation "Bonjour."; translation "Comment ça va?";
                             translation "Au revoir."])])
    end.

(** The split answers with sentences that hold the letter [i]. *)
Definition with_i : nat -> PostOutcome :=
  fun k =>
    match k with
    | O =>
        ok_200 (JObj [("splitted_texts", JArr [JArr [JStr "This is it."; JStr "Hi!"]]);
                      ("lang", JNull)])
    | _ => ok_200 (JObj [("source_lang", JStr "EN"); ("translations", JArr [])])
    end.

(** The second request of a log, and its parameters. *)
Definition second_payload (log : list (string * Json)) : Json :=
  match log with
  | _ :: (_, payload) :: _ => payload
  | _ => JNull
  end.

Definition params_of (payload : Json) : Json :=
  match Py.getitem payload "params" with
  | Ok params => params
  | Raise _ => JNull
  end.

(** The parameters of the job batch that [_language] posts in the
    world [fraction_world with_i]. *)
Definition sample_params : Json :=
  params_of (second_payload (sent (snd (_language "This is it. Hi!"
                                                  (fraction_world with_i))))).

(** A frame read from a CSV file with the columns [EN] and [KO]. *)
Definition sample_frame : DataFrame.t :=
  [("EN", ["cat"; "dog"]); ("KO", ["goyangi"; "gae"])].

(** A glossary of twelve entries that all occur in [sample_text]; the
    word of the first and the target of the third hold a quote. *)
Definition sample_words : list string :=
  [String PyStr.quote "a"; "a"; "b"; "c"; "d"; "e"; "f"; "g"; "h"; "i"; "j"; "k"].

Definition sample_targets : list string :=
  ["QA"; "A"; String PyStr.quote "B"; "C"; "D"; "E"; "F"; "G"; "H"; "I"; "J"; "K"].

Definition sample_glossary : FormatedGlossary.t :=
  {| FormatedGlossary.dataframe := [("EN", sample_words); ("FR", sample_targets)];
     FormatedGlossary.source_language := "EN";
     FormatedGlossary.target_language := "FR" |}.

Definition sample_text : string :=
  String PyStr.quote "a b c d e f g h i j k".

(** The identifier the construction keeps when the state request has
    the outcome [o] and the draw of the [except] branch is [r2]. *)
Definition handshake_id (r2 : Z) (o : PostOutcome) : Json :=
  match o with
  | PostRaises _ => JNum (r2 * 10000 + 1)
  | PostReturns request =>
      match body request with
      | None => JNum (r2 * 10000 + 1)
      | Some response =>
          match Py.getitem response "id" with
          | Ok v => v
          | Raise _ => JNum (r2 * 10000 + 1)
          end
      end
  end.

(** [v[k1][k2]...] for string keys. *)
Fixpoint getpath (v : Json) (keys : list string) : Result Json :=
  match keys with
  | [] => Ok v
  | k :: rest => let? inner := Py.getitem v k in getpath inner rest
  end.

(** The requests a call has added to the log of the world [w]. *)
Definition posted (w w' : World) : list (string * Json) :=
  skipn (List.length (sent w)) (sent w').

(** One line of the termbase, without its newline. *)
Definition term_line (p : string * string) : string :=
  fst p +++ String PyStr.tab EmptyString +++ snd p.

(** The split answers with two sentences and no computed language, the
    job batch with a result that has no source language. *)
Definition no_source_lang : nat -> PostOutcome :=
  fun k =>
    match k with
    | O =>
        ok_200 (JObj [("splitted_texts", JArr [JArr [JStr "Hello."; JStr "Bye."]]);
                      ("lang", JNull)])
    | _ => ok_200 (JObj [("translations", JArr [translation "Bonjour."])])
    end.

(** The cells of a column at the rows [rows], in that order. *)
Definition pick_rows (col : list string) (rows : list nat) : list string :=
  flat_map (fun r => match nth_error col r with
                     | Some cell => [cell]
                     | None => []
                     end) rows.


Definition duplicate_warning : string :=
  "Duplicate entries in the dictionary, only the last one will be kept. Please check the dictionary.".

(** The [fromLang] that [BingTranslate.translate] sends. *)
Definition bing_from_lang (source : BingTranslate.Source) : string :=
  match source with
  | BingTranslate.SourceNone => "auto-detect"
  | BingTranslate.SourceLanguage l => Language.bing_translate l
  | BingTranslate.SourceStr s => s
  end.

(** Python's [str] on the decoded values that are strings; the other
    values are given a name each. *)
Definition sample_str (v : Json) : string :=
  match v with
  | JStr s => s
  | JNull => "None"
  | JBool true => "True"
  | JBool false => "False"
  | JNum _ => "<int>"
  | JArr _ => "<list>"
  | JObj _ => "<dict>"
  end.

(** An answer of the Bing spell checker that corrects nothing. *)
Definition nothing_to_correct : nat -> PostOutcome :=
  fun _ => PostReturns {| status_code := 200;
                          body := Some (JObj [("correctedText", JStr EmptyString)]) |}.

(** An answer of the Bing translator. *)
Definition bing_answer : nat -> PostOutcome :=
  fun _ =>
    PostReturns
      {| status_code := 200;
         body := Some (JArr [JObj [("detectedLanguage", JObj [("language", JStr "en")]);
                                   ("translations",
                                    JArr [JObj [("text", JStr "Bonjour"); ("to", JStr "fr")]])]]) |}.

(** A glossary whose frame has no column for the target language. *)
Definition no_target_glossary : FormatedGlossary.t :=
  {| FormatedGlossary.dataframe := [("EN", ["cat"; "dog"]); ("XX", ["chat"; "chien"])];
     FormatedGlossary.source_language := "EN";
     FormatedGlossary.target_language := "FR" |}.

(** An answer with the status 429 and the error code of too many
    requests, and a world whose network gives this answer. *)
Definition too_many : PostOutcome :=
  PostReturns {| status_code := 429;
                 body := Some (JObj [("id", JNum 1);
                                     ("error", JObj [("code", JNum 1042911);
                                                     ("message", JStr "Too many requests")])]) |}.

Definition throttled : nat -> PostOutcome := fun _ => too_many.

(** A world whose last request was made two seconds before the first
    reading of the clock. *)
Definition recent_world : World :=
  {| id_number := 12340001;
     last_access := inject_Z 1699999998;
     user_preferred_langs := ["EN"; "FR"];
     clock := fun k => inject_Z (1700000000 + Z.of_nat k);
     reads := 0;
     net := bonjour;
     sent := [];
     slept := [];
     warned := [] |}.

(** * Properties *)

(** ** The job builder *)

Lemma firstn_snoc (all : list Json) (i : nat) (x : Json) :
  nth_error all i = Some x -> firstn (S i) all = firstn i all ++ [x].
Proof.
  revert i. induction all as [|a l IH]; intros [|i] H; simpl in *; try discriminate.
  - now inversion H.
  - now rewrite (IH i H).
Qed.

Lemma following_nth (all : list Json) (i : nat) :
  following all i = match nth_error all (S i) with Some x => [x] | None => [] end.
Proof.
  unfold following. generalize (S i) as k. clear i.
  induction all as [|a l IH]; intros [|k]; simpl; auto.
  apply (IH k).
Qed.

Lemma window_length (all : list Json) (i : nat) :
  i <= List.length all -> List.length (window all i) = Nat.min i 5.
Proof.
  intros H. unfold window. rewrite length_skipn, length_firstn. lia.
Qed.

Lemma tl_skipn (l : list Json) (k : nat) : tl (skipn k l) = skipn (S k) l.
Proof.
  revert l. induction k as [|k IH]; intros [|a l]; simpl; auto.
Qed.

Lemma window_step (all : list Json) (i : nat) (x : Json) :
  nth_error all i = Some x ->
  (if (4 <? List.length (window all i))%nat then tl (window all i) else window all i) ++ [x]
  = window all (S i).
Proof.
  intros H.
  assert (Hlt : i < List.length all) by (apply nth_error_Some; congruence).
  rewrite window_length by lia.
  unfold window. rewrite (firstn_snoc all i x H).
  destruct (4 <? Nat.min i 5)%nat eqn:E.
  - apply Nat.ltb_lt in E.
    replace (S i - 5) with (S (i - 5)) by lia.
    rewrite skipn_app, length_firstn.
    replace (S (i - 5) - Nat.min i (List.length all)) with 0 by lia.
    rewrite tl_skipn. reflexivity.
  - apply Nat.ltb_ge in E.
    replace (i - 5) with 0 by lia. replace (S i - 5) with 0 by lia.
    reflexivity.
Qed.

(** On a list and on a [str], indexing, [len] and the walk of a loop
    are those of the list of the items. *)
Lemma getitem_at_sequence (v : Json) (all : list Json) (i : nat) :
  sequence v = Some all ->
  Py.getitem_at v i
  = match nth_error all i with Some x => Ok x | None => Raise IndexError end.
Proof. destruct v; intros H; inversion H; reflexivity. Qed.

Lemma len_sequence (v : Json) (all : list Json) :
  sequence v = Some all -> Py.len v = Ok (Z.of_nat (List.length all)).
Proof. destruct v; intros H; inversion H; reflexivity. Qed.

Lemma iterate_sequence (v : Json) (all : list Json) :
  sequence v = Some all -> Py.iterate v = Ok all.
Proof. destruct v; intros H; inversion H; reflexivity. Qed.

Lemma build_job_ok (v : Json) (all : list Json) (quality_ : string)
    (i : nat) (s : Json) (before : list Json) :
  sequence v = Some all ->
  nth_error all i = Some s ->
  (i = 0 \/ before = window all (i - 1)) ->
  build_job v quality_ i s before = Ok (window all i, expected_job all quality_ i).
Proof.
  intros Hv Hs Hb. unfold build_job, expected_job.
  rewrite (nth_error_nth all i JNull Hs).
  assert (Hlt : i < List.length all) by (apply nth_error_Some; congruence).
  rewrite !(getitem_at_sequence v all _ Hv), (len_sequence v all Hv).
  destruct i as [|i].
  - simpl Nat.eqb. cbv iota. rewrite following_nth.
    simpl Nat.add. destruct (nth_error all 1); reflexivity.
  - destruct Hb as [Hb|Hb]; [discriminate|]. subst before.
    replace (S i =? 0)%nat with false by reflexivity. cbv iota.
    replace (S i - 1) with i by lia.
    destruct (nth_error all i) as [prev|] eqn:Hp.
    2:{ apply nth_error_None in Hp. lia. }
    cbn [rbind]. rewrite (window_step all i prev Hp).
    rewrite following_nth. replace (S i + 1) with (S (S i)) by lia.
    destruct (Z.of_nat (S i) >? Z.of_nat (List.length all) - 2)%Z eqn:E.
    + assert (Hn : nth_error all (S (S i)) = None).
      { apply nth_error_None. apply Z.gtb_lt in E. lia. }
      rewrite Hn. reflexivity.
    + destruct (nth_error all (S (S i))) as [next|] eqn:Hn.
      * reflexivity.
      * apply nth_error_None in Hn.
        rewrite Z.gtb_ltb in E. apply Z.ltb_ge in E. lia.
Qed.

Lemma build_jobs_from_ok (v : Json) (all : list Json) (quality_ : string)
    (rest : list Json) :
  sequence v = Some all ->
  forall (i : nat) (before : list Json),
    skipn i all = rest ->
    (i = 0 \/ before = window all (i - 1)) ->
    build_jobs_from v quality_ i rest before
    = Ok (map (expected_job all quality_) (seq i (List.length rest))).
Proof.
  intros Hv.
  induction rest as [|s rest IH]; intros i before Hr Hb.
  - reflexivity.
  - assert (Hs : nth_error all i = Some s).
    { rewrite <- (firstn_skipn i all) at 1. rewrite Hr.
      assert (Hlen : List.length (firstn i all) = i).
      { apply firstn_length_le.
        assert (List.length (skipn i all) = S (List.length rest)) by (now rewrite Hr).
        rewrite length_skipn in H. lia. }
      rewrite nth_error_app2 by lia. rewrite Hlen, Nat.sub_diag. reflexivity. }
    simpl build_jobs_from. rewrite (build_job_ok v all quality_ i s before Hv Hs Hb).
    cbn [rbind]. rewrite (IH (S i) (window all i)).
    + reflexivity.
    + replace (S i) with (1 + i) by lia. rewrite <- skipn_skipn, Hr. reflexivity.
    + right. f_equal. lia.
Qed.

(** On a list or a [str], [_build_jobs] never raises and gives the
    expected job at every index. *)
Lemma _build_jobs_sequence (v : Json) (all : list Json) (quality_ : string) :
  sequence v = Some all ->
  _build_jobs v quality_
  = Ok (map (expected_job all quality_) (seq 0 (List.length all))).
Proof.
  intros Hv. unfold _build_jobs. rewrite (iterate_sequence v all Hv). cbn [rbind].
  apply (build_jobs_from_ok v all quality_ all Hv); auto.
Qed.

Lemma _build_jobs_eq (all : list Json) (quality_ : string) :
  _build_jobs (JArr all) quality_
  = Ok (map (expected_job all quality_) (seq 0 (List.length all))).
Proof. now apply _build_jobs_sequence. Qed.

(** ** The monad and the RPC layer *)

Lemma bind_ok {A B} (m : M A) (k : A -> M B) (w w' : World) (a : A) :
  m w = (Ok a, w') -> bind m k w = k a w'.
Proof. intros H. unfold bind. rewrite H. reflexivity. Qed.

Lemma bind_raise {A B} (m : M A) (k : A -> M B) (w w' : World) (e : PyExn) :
  m w = (Raise e, w') -> bind m k w = (Raise e, w').
Proof. intros H. unfold bind. rewrite H. reflexivity. Qed.

Lemma bind_lift {A B} (r : Result A) (k : A -> M B) (w : World) :
  bind (lift r) k w = match r with Ok a => k a w | Raise e => (Raise e, w) end.
Proof. destruct r; reflexivity. Qed.

Lemma same_but_warned_refl (w : World) : same_but_warned w w.
Proof. repeat split. Qed.

Lemma same_but_warned_trans (w1 w2 w3 : World) :
  same_but_warned w1 w2 -> same_but_warned w2 w3 -> same_but_warned w1 w3.
Proof.
  unfold same_but_warned. intros H1 H2.
  decompose [and] H1. decompose [and] H2. repeat split; congruence.
Qed.

(** [send_jsonrpc] posts once, whatever happens next, and its result
    depends on the outcome of that post alone. *)
Lemma send_jsonrpc_run (method : string) (params : Json) (w : World) :
  exists w',
    JSONRPCRequest.send_jsonrpc method params w
    = (rpc_result (net w (List.length (sent w))), w') /\
    sent w' = sent w ++ [(jsonrpc_url, rpc_payload method params (id_number w))] /\
    net w' = net w /\ clock w' = clock w /\
    user_preferred_langs w' = user_preferred_langs w /\
    warned w' = warned w /\ id_number w' = (id_number w + 1)%Z.
Proof.
  unfold JSONRPCRequest.send_jsonrpc, JSONRPCRequest.dump, rpc_result.
  unfold bind at 1. cbn [time fst snd].
  unfold bind at 1. cbn [get last_access].
  destruct (Py.Qltb _ 5);
    cbv [bind time get sleep set_id_number set_last_access post ret lift raise
         id_number last_access user_preferred_langs clock reads net sent slept warned];
    fold (id_number w); fold (sent w); fold (net w); fold (clock w);
    fold (user_preferred_langs w); fold (warned w);
    (destruct (net w (List.length (sent w))) as [e|request];
     [ | unfold json; destruct (body request) as [response|]; cbn [rbind];
         [ destruct (status_code request =? 200)%Z;
           [ destruct (Py.getitem response "result")
           | destruct (Py.getitem response "error") as [error|]; cbn [rbind];
             [ destruct (Py.getitem error "code") | ] ]
         | ] ]);
    (eexists; split; [reflexivity | repeat split]).
Qed.

Lemma warn_only_ret {A} (a : A) : warn_only (ret a).
Proof. intros w. apply same_but_warned_refl. Qed.

Lemma warn_only_raise {A} (e : PyExn) : warn_only (@raise A e).
Proof. intros w. apply same_but_warned_refl. Qed.

Lemma warn_only_lift {A} (r : Result A) : warn_only (lift r).
Proof. intros w. apply same_but_warned_refl. Qed.

Lemma warn_only_warn (msg : string) : warn_only (warn msg).
Proof. intros w. repeat split. Qed.

Lemma warn_only_bind {A B} (m : M A) (k : A -> M B) :
  warn_only m -> (forall a, warn_only (k a)) -> warn_only (bind m k).
Proof.
  intros Hm Hk w. unfold bind. specialize (Hm w).
  destruct (m w) as [[a|e] w1]; cbn [snd] in *.
  - eapply same_but_warned_trans; [exact Hm | apply Hk].
  - exact Hm.
Qed.

Ltac warn_only_tac :=
  repeat first
    [ apply warn_only_ret | apply warn_only_raise | apply warn_only_lift
    | apply warn_only_warn
    | apply warn_only_bind; [ | intros ? ]
    | match goal with
      | |- warn_only (if ?b then _ else _) => destruct b
      | |- warn_only (let (_, _) := ?p in _) => destruct p
      | |- warn_only (match ?x with _ => _ end) => destruct x
      end ].

Lemma glossary_step_warn_only (g : FormatedGlossary.t) (text_ source_language : string)
    (st : Z * string) (word : string) :
  warn_only (glossary_step g text_ source_language st word).
Proof. unfold glossary_step, raise_code. warn_only_tac. Qed.

Lemma glossary_loop_warn_only (g : FormatedGlossary.t) (text_ source_language : string)
    (words : list string) :
  forall st, warn_only (glossary_loop g text_ source_language st words).
Proof.
  induction words as [|word rest IH]; intros st; cbn [glossary_loop].
  - apply warn_only_ret.
  - apply warn_only_bind; [apply glossary_step_warn_only | intros st'; apply IH].
Qed.

Lemma build_termbase_warn_only (dictionary : Dictionary)
    (text_ source_language destination_language : string) :
  warn_only (build_termbase dictionary text_ source_language destination_language).
Proof.
  unfold build_termbase, raise_code.
  destruct (dictionary_ne_empty dictionary); [|apply warn_only_ret].
  apply warn_only_bind; [apply warn_only_lift|intros g].
  destruct (_ || _); [apply warn_only_raise|].
  apply warn_only_bind; [apply warn_only_lift|intros words].
  apply warn_only_bind; [apply glossary_loop_warn_only|intros [limit fs]].
  warn_only_tac.
Qed.

(** [_split_into_sentences] returns what the remote split answers: the
    local split has no part in the result. *)
Lemma split_run (text_ destination_language source_language : string) (w : World) :
  exists w',
    _split_into_sentences text_ destination_language source_language w
    = (split_reply (net w (List.length (sent w))), w') /\
    sent w' = sent w ++
      [(jsonrpc_url,
        rpc_payload "LMT_split_into_sentences"
          (split_params text_ destination_language source_language
                        (user_preferred_langs w))
          (id_number w))] /\
    net w' = net w /\ clock w' = clock w /\
    user_preferred_langs w' = user_preferred_langs w /\
    warned w' = warned w /\ id_number w' = (id_number w + 1)%Z.
Proof.
  unfold _split_into_sentences, split_reply. cbv zeta.
  unfold bind at 1. cbn [get].
  destruct (send_jsonrpc_run "LMT_split_into_sentences"
              (split_params text_ destination_language source_language
                            (user_preferred_langs w)) w)
    as (w' & Hrun & Hsent & Hnet & Hclock & Hlangs & Hwarned & Hid).
  exists w'. split; [|repeat split; assumption].
  unfold bind at 1. rewrite Hrun.
  destruct (rpc_result _) as [resp|e]; cbn [rbind]; [|reflexivity].
  rewrite bind_lift. destruct (Py.getitem resp "splitted_texts") as [sp|e]; cbn [rbind]; [|reflexivity].
  rewrite bind_lift. destruct (Py.getitem0 sp) as [first|e]; cbn [rbind]; [|reflexivity].
  rewrite bind_lift. destruct (Py.getitem resp "lang") as [lang|e]; cbn [rbind]; reflexivity.
Qed.

(** ** [_translate], step by step *)

Lemma lang_update_auto (params computed_lang : Json) (jobs : list Job)
    (destination_language : string) (formality : option string)
    (formated_string : string) (stamp : Z) :
  translate_lang_update
    (translate_params jobs "auto" destination_language 1 formality formated_string stamp)
    "auto" computed_lang
  = Raise (KeyError "user_preferred_langs").
Proof. reflexivity. Qed.

Lemma lang_update_selected (computed_lang : Json) (jobs : list Job)
    (source_language destination_language : string) (formality : option string)
    (formated_string : string) (stamp : Z) :
  String.eqb source_language "auto" = false ->
  translate_lang_update
    (translate_params jobs source_language destination_language 1 formality
                      formated_string stamp)
    source_language computed_lang
  = Ok (translate_sent_params jobs source_language destination_language formality
                              formated_string stamp).
Proof. intros H. unfold translate_lang_update. rewrite H. reflexivity. Qed.

Lemma translate_run (text_ destination_language source_language : string)
    (formality : option string) (dictionary : Dictionary) (w : World) :
  let termbase :=
    fst (build_termbase dictionary text_ source_language destination_language w) in
  let n0 := List.length (sent w) in
  exists w' k,
    _translate text_ destination_language source_language formality dictionary w
    = (translate_outcome source_language termbase (net w n0) (net w (S n0)), w') /\
    sent w' = sent w ++
      translate_log text_ destination_language source_language formality
        (user_preferred_langs w) (id_number w) termbase (net w n0) (clock w k).
Proof.
  intros termbase n0. subst termbase n0.
  unfold _translate, translate_outcome, translate_log. cbv zeta.
  pose proof (build_termbase_warn_only dictionary text_ source_language
                destination_language w) as Hb.
  destruct (build_termbase dictionary text_ source_language destination_language w)
    as [[fs|e] w1] eqn:Hterm; cbn [fst snd rbind] in *;
    destruct Hb as (Hid & _ & Hlangs & Hclock & _ & Hnet & Hsent & _).
  2:{ exists w1, 0. rewrite (bind_raise _ _ _ _ _ Hterm).
      split; [reflexivity|]. rewrite app_nil_r. exact Hsent. }
  rewrite (bind_ok _ _ _ _ _ Hterm).
  destruct (split_run text_ destination_language source_language w1)
    as (w2 & Hsplit & Hsent2 & Hnet2 & Hclock2 & Hlangs2 & _ & Hid2).
  rewrite Hsent, Hnet, Hlangs, Hid in *.
  destruct (split_reply (net w (List.length (sent w)))) as [[raw cl]|e] eqn:Hreply;
    cbn [fst snd rbind].
  2:{ exists w2, 0. rewrite (bind_raise _ _ _ _ _ Hsplit).
      split; [reflexivity|]. exact Hsent2. }
  rewrite (bind_ok _ _ _ _ _ Hsplit). rewrite bind_lift.
  destruct (_build_jobs raw EmptyString) as [jobs|e]; cbn [rbind].
  2:{ exists w2, 0. split; [reflexivity|]. exact Hsent2. }
  rewrite bind_lift.
  destruct (i_count raw) as [count|e]; cbn [rbind].
  2:{ exists w2, 0. split; [reflexivity|]. exact Hsent2. }
  unfold bind at 1. cbn [time]. rewrite bind_lift.
  destruct (String.eqb source_language "auto") eqn:Hauto.
  - apply String.eqb_eq in Hauto. subst source_language.
    rewrite lang_update_auto by exact JNull.
    eexists; exists 0. split; [reflexivity|]. cbn [sent]. exact Hsent2.
  - rewrite (lang_update_selected cl _ _ _ _ _ _ Hauto).
    unfold bind at 1.
    match goal with
    | |- context [JSONRPCRequest.send_jsonrpc ?m ?p ?w3] =>
        destruct (send_jsonrpc_run m p w3)
          as (w4 & Hrun & Hsent4 & _)
    end.
    rewrite Hrun. cbn [sent net id_number] in Hsent4 |- *.
    exists w4, (reads w2).
    rewrite Hsent2 in Hsent4 |- *. rewrite length_app. cbn [List.length].
    rewrite Nat.add_1_r, Hnet2.
    split.
    + destruct (rpc_result (net w (S (List.length (sent w))))) as [results|e];
        reflexivity.
    + rewrite Hsent4, Hid2, Hclock2, Hclock, <- app_assoc. reflexivity.
Qed.

Lemma language_update_eq (jobs : list Job) (computed_lang : Json) (stamp : Z) :
  language_lang_update (language_params jobs 1 stamp) computed_lang
  = Ok (language_sent_params jobs computed_lang stamp).
Proof. destruct computed_lang; reflexivity. Qed.

Lemma language_run (text_ : string) (w : World) :
  let n0 := List.length (sent w) in
  exists w' k,
    _language text_ w = (language_outcome (net w n0) (net w (S n0)), w') /\
    sent w' = sent w ++
      language_log text_ (user_preferred_langs w) (id_number w) (net w n0) (clock w k).
Proof.
  intros n0. subst n0.
  unfold _language, language_outcome, language_log. cbv zeta.
  destruct (split_run text_ "EN" "AUTO" w)
    as (w2 & Hsplit & Hsent2 & Hnet2 & Hclock2 & Hlangs2 & _ & Hid2).
  destruct (split_reply (net w (List.length (sent w)))) as [[raw cl]|e] eqn:Hreply;
    cbn [fst snd rbind].
  2:{ exists w2, 0. rewrite (bind_raise _ _ _ _ _ Hsplit).
      split; [reflexivity|]. exact Hsent2. }
  rewrite (bind_ok _ _ _ _ _ Hsplit). rewrite bind_lift.
  destruct (_build_jobs raw EmptyString) as [jobs|e]; cbn [rbind].
  2:{ exists w2, 0. split; [reflexivity|]. exact Hsent2. }
  rewrite bind_lift.
  destruct (i_count raw) as [count|e]; cbn [rbind].
  2:{ exists w2, 0. split; [reflexivity|]. exact Hsent2. }
  unfold bind at 1. cbn [time]. rewrite bind_lift, language_update_eq.
  unfold bind at 1.
  match goal with
  | |- context [JSONRPCRequest.send_jsonrpc ?m ?p ?w3] =>
      destruct (send_jsonrpc_run m p w3) as (w4 & Hrun & Hsent4 & _)
  end.
  rewrite Hrun. cbn [sent net id_number] in Hsent4 |- *.
  exists w4, (reads w2).
  rewrite Hsent2 in Hsent4 |- *. rewrite length_app. cbn [List.length].
  rewrite Nat.add_1_r, Hnet2.
  split.
  - destruct (rpc_result (net w (S (List.length (sent w))))) as [results|e];
      reflexivity.
  - rewrite Hsent4, Hid2, Hclock2, <- app_assoc. reflexivity.
Qed.

Lemma posted_app (w w' : World) (extra : list (string * Json)) :
  sent w' = sent w ++ extra -> posted w w' = extra.
Proof.
  intros H. unfold posted. rewrite H, skipn_app, skipn_all, Nat.sub_diag. reflexivity.
Qed.

(** ** The timestamp *)

Lemma count_char_nonneg (c : ascii) (s : string) : (0 <= PyStr.count_char c s)%Z.
Proof.
  induction s as [|a rest IH]; cbn [PyStr.count_char]; [lia|].
  destruct (Ascii.eqb a c); lia.
Qed.

Lemma sum_counts_nonneg (items : list Json) :
  forall total, sum_counts items = Ok total -> (0 <= total)%Z.
Proof.
  induction items as [|item rest IH]; cbn [sum_counts]; intros total H.
  - inversion H. lia.
  - destruct (Py.count item "i"%char) as [n|e] eqn:Hn; cbn [rbind] in H;
      [|discriminate H].
    destruct (sum_counts rest) as [m|e]; cbn [rbind] in H; [|discriminate H].
    injection H as H. specialize (IH m eq_refl).
    assert (0 <= n)%Z; [|lia].
    destruct item; cbn [Py.count] in Hn; inversion Hn;
      [apply count_char_nonneg | apply Nat2Z.is_nonneg].
Qed.

Lemma i_count_pos (sentences_ : Json) (n : Z) :
  i_count sentences_ = Ok n -> (1 <= n)%Z.
Proof.
  unfold i_count, rbind. intros H.
  destruct (Py.iterate sentences_) as [items|e]; [|discriminate H].
  destruct (sum_counts items) as [total|e] eqn:Ht; [|discriminate H].
  assert (Hn : (1 + total)%Z = n) by congruence.
  pose proof (sum_counts_nonneg items total Ht). lia.
Qed.

Lemma count_char_letters (c : ascii) (s : string) :
  PyStr.count_char c s = Z.of_nat (letters c s).
Proof.
  unfold letters.
  induction s as [|a rest IH]; cbn [PyStr.count_char list_ascii_of_string count_occ];
    [reflexivity|].
  rewrite IH. destruct (ascii_dec a c) as [Heq|Hne].
  - subst a. rewrite Ascii.eqb_refl. lia.
  - apply Ascii.eqb_neq in Hne. rewrite Hne. lia.
Qed.

(** On sentences that are strings the count of the code is the number
    of letters [i] in them, and one more. *)
Lemma i_count_strings (sentences_ : list string) :
  i_count (JArr (map JStr sentences_)) = Ok (1 + occurrences "i" sentences_)%Z.
Proof.
  unfold i_count. cbn [Py.iterate rbind].
  assert (H : sum_counts (map JStr sentences_) = Ok (occurrences "i" sentences_)).
  { unfold occurrences.
    induction sentences_ as [|s rest IH]; cbn [map sum_counts list_sum]; [reflexivity|].
    rewrite IH. cbn [Py.count rbind]. rewrite count_char_letters. f_equal.
    unfold list_sum. cbn [fold_right]. lia. }
  rewrite H. reflexivity.
Qed.

Lemma nth_seq (l : list Json) :
  forall pre,
    map (fun i => nth i (pre ++ l) JNull) (seq (List.length pre) (List.length l)) = l.
Proof.
  induction l as [|x l IH]; intros pre; [reflexivity|].
  cbn [List.length seq map]. rewrite nth_middle. f_equal.
  specialize (IH (pre ++ [x])).
  rewrite length_app, Nat.add_1_r, <- app_assoc in IH. exact IH.
Qed.

(** The sentences of the expected jobs are the sentences given. *)
Lemma expected_sentences (all : list Json) (quality_ : string) :
  flat_map (fun job => map text (sentences job))
           (map (expected_job all quality_) (seq 0 (List.length all)))
  = all.
Proof.
  rewrite <- (nth_seq all []) at 3. cbn [app List.length].
  generalize (seq 0 (List.length all)) as indices.
  induction indices as [|i indices IH]; [reflexivity|].
  cbn [map flat_map expected_job sentences text app]. now rewrite IH.
Qed.

Lemma timestamp_divisible (ts n : Z) : (1 <= n)%Z -> (timestamp ts n mod n = 0)%Z.
Proof.
  intros Hn. unfold timestamp.
  replace (ts + (n - ts mod n))%Z with ((ts / n + 1) * n)%Z.
  - apply Z.mod_mul. lia.
  - pose proof (Z.div_mod ts n ltac:(lia)) as H. lia.
Qed.

(** * The claims *)

(** C5: [_build_jobs] returns one job per sentence, in the order of the
    input and as many as there are sentences; the job at index [i] has
    the [min i 5] sentences just before [i] as its context before, in
    order, the oldest dropped first, and as its context after the one
    sentence at [i + 1], or nothing when [i] is the last index.  The
    sentences are the items of the list, whatever they are. *)
Theorem build_jobs_context (sentences_ : list Json) (quality_ : string) :
  exists jobs,
    _build_jobs (JArr sentences_) quality_ = Ok jobs /\
    List.length jobs = List.length sentences_ /\
    forall i, i < List.length sentences_ ->
      exists job,
        nth_error jobs i = Some job /\
        map text (sentences job) = [nth i sentences_ JNull] /\
        List.length (raw_en_context_before job) = Nat.min i 5 /\
        raw_en_context_before job = skipn (i - 5) (firstn i sentences_) /\
        (S i < List.length sentences_ ->
         raw_en_context_after job = [nth (S i) sentences_ JNull]) /\
        (S i = List.length sentences_ -> raw_en_context_after job = []).
Proof.
  exists (map (expected_job sentences_ quality_) (seq 0 (List.length sentences_))).
  split; [apply _build_jobs_eq|].
  split; [now rewrite length_map, length_seq|].
  intros i Hi. exists (expected_job sentences_ quality_ i).
  split.
  { rewrite nth_error_map, nth_error_seq.
    apply Nat.ltb_lt in Hi. rewrite Hi. reflexivity. }
  cbn [expected_job sentences text raw_en_context_before raw_en_context_after map].
  split; [reflexivity|].
  split; [apply window_length; lia|].
  split; [reflexivity|].
  rewrite following_nth. split; intros H.
  - destruct (nth_error sentences_ (S i)) as [x|] eqn:E.
    + now rewrite (nth_error_nth _ _ JNull E).
    + apply nth_error_None in E. lia.
  - assert (E : nth_error sentences_ (S i) = None) by (apply nth_error_None; lia).
    now rewrite E.
Qed.

Lemma build_jobs_context_witness :
  exists jobs job,
    _build_jobs (JArr [JStr "a"; JStr "b"; JStr "c"; JStr "d"; JStr "e"; JStr "f";
                       JStr "g"]) EmptyString
    = Ok jobs /\
    List.length jobs = 7 /\
    nth_error jobs 5 = Some job /\
    raw_en_context_before job = [JStr "a"; JStr "b"; JStr "c"; JStr "d"; JStr "e"] /\
    raw_en_context_after job = [JStr "g"].
Proof.
  destruct (build_jobs_context
              [JStr "a"; JStr "b"; JStr "c"; JStr "d"; JStr "e"; JStr "f"; JStr "g"]
              EmptyString)
    as (jobs & Hjobs & Hlen & Hat).
  destruct (Hat 5 ltac:(simpl; lia)) as (job & Hjob & _ & _ & Hbefore & Hafter & _).
  exists jobs, job. repeat split; try assumption.
  apply Hafter. simpl. lia.
Defined.

(** C7: when the split answers with sentences that are strings,
    [_language] posts the split and one job batch, and so does
    [_translate] once its termbase is built and its source language is
    not ['auto'], the only case in which it posts a job batch.  The
    batch carries the jobs of these sentences and the timestamp
    [ts + (N - ts mod N)], where [ts] is [int(time() * 10) * 100 + 1000]
    for a reading of the clock and [N] is one more than the number of
    letters [i] in all the sentences; the timestamp is a multiple of
    [N]. *)
Theorem timestamp_sent (text_ destination_language source_language : string)
    (formality : option string) (dictionary : Dictionary) (w : World)
    (sentences_ : list string) (computed_lang : Json) :
  split_reply (net w (List.length (sent w)))
  = Ok (JArr (map JStr sentences_), computed_lang) ->
  let N := (1 + occurrences "i" sentences_)%Z in
  let stamped (log : list (string * Json)) :=
    exists (split_payload payload params : Json) (jobs : list Job) (k : nat),
      let ts := (Py.int (Py.float_mul (clock w k) 10) * 100 + 1000)%Z in
      log = [(jsonrpc_url, split_payload); (jsonrpc_url, payload)] /\
      Py.getitem split_payload "method" = Ok (JStr "LMT_split_into_sentences") /\
      Py.getitem payload "method" = Ok (JStr "LMT_handle_jobs") /\
      Py.getitem payload "params" = Ok params /\
      Py.getitem params "jobs" = Ok (JArr (map job_json jobs)) /\
      flat_map (fun job => map text (sentences job)) jobs = map JStr sentences_ /\
      Py.getitem params "timestamp" = Ok (JNum (ts + (N - ts mod N))) /\
      ((ts + (N - ts mod N)) mod N = 0)%Z in
  let translated :=
    posted w (snd (_translate text_ destination_language source_language
                              formality dictionary w)) in
  let termbase :=
    fst (build_termbase dictionary text_ source_language destination_language w) in
  stamped (posted w (snd (_language text_ w))) /\
  (forall formated_string,
     termbase = Ok formated_string ->
     String.eqb source_language "auto" = false ->
     stamped translated) /\
  (forall url payload,
     In (url, payload) translated ->
     Py.getitem payload "method" = Ok (JStr "LMT_handle_jobs") ->
     (exists formated_string, termbase = Ok formated_string) /\
     String.eqb source_language "auto" = false).
Proof.
  intros Hreply. cbv zeta.
  pose proof (_build_jobs_eq (map JStr sentences_) EmptyString) as Hjobs.
  pose proof (i_count_strings sentences_) as Hcount.
  assert (Hdiv : forall ts,
            (timestamp ts (1 + occurrences "i" sentences_)
             mod (1 + occurrences "i" sentences_) = 0)%Z).
  { intros ts. apply timestamp_divisible. unfold occurrences. lia. }
  split; [|split].
  - destruct (language_run text_ w) as (w' & k & Hrun & Hsent).
    cbv zeta in Hrun, Hsent. rewrite Hrun. cbn [snd].
    rewrite (posted_app _ _ _ Hsent). unfold language_log.
    rewrite Hreply. cbn [fst snd]. rewrite Hjobs, Hcount.
    eexists. eexists. eexists. eexists. exists k.
    split; [reflexivity|]. split; [reflexivity|]. split; [reflexivity|].
    split; [reflexivity|]. split; [reflexivity|].
    split; [apply expected_sentences|]. split; [reflexivity|].
    apply Hdiv.
  - intros fs Hterm Hauto.
    destruct (translate_run text_ destination_language source_language formality
                dictionary w) as (w' & k & Hrun & Hsent).
    cbv zeta in Hrun, Hsent. rewrite Hrun. cbn [snd].
    rewrite (posted_app _ _ _ Hsent). unfold translate_log.
    rewrite Hterm, Hreply. cbn [fst snd]. rewrite Hjobs, Hcount, Hauto.
    eexists. eexists. eexists. eexists. exists k.
    split; [reflexivity|]. split; [reflexivity|]. split; [reflexivity|].
    split; [reflexivity|]. split; [reflexivity|].
    split; [apply expected_sentences|]. split; [reflexivity|].
    apply Hdiv.
  - intros url payload Hin Hmethod.
    destruct (translate_run text_ destination_language source_language formality
                dictionary w) as (w' & k & Hrun & Hsent).
    cbv zeta in Hrun, Hsent. rewrite Hrun in Hin. cbn [snd] in Hin.
    rewrite (posted_app _ _ _ Hsent) in Hin. unfold translate_log in Hin.
    destruct (fst (build_termbase _ _ _ _ w)) as [fs|e]; [|destruct Hin].
    destruct Hin as [Hin|Hin].
    { inversion Hin; subst. discriminate Hmethod. }
    rewrite Hreply in Hin. cbn [fst snd] in Hin. rewrite Hjobs, Hcount in Hin.
    destruct (String.eqb source_language "auto"); [destruct Hin|].
    split; [eexists|]; reflexivity.
Qed.

Lemma timestamp_sent_witness :
  (exists (payload params : Json) (k : nat),
     let ts := (Py.int (Py.float_mul (clock (fraction_world with_i) k) 10) * 100
                + 1000)%Z in
     nth_error (posted (fraction_world with_i)
                  (snd (_language "This is it. Hi!" (fraction_world with_i)))) 1
     = Some (jsonrpc_url, payload) /\
     Py.getitem payload "params" = Ok params /\
     Py.getitem params "timestamp" = Ok (JNum (ts + (5 - ts mod 5)))) /\
  (exists (payload params : Json) (k : nat),
     let ts := (Py.int (Py.float_mul (clock (fraction_world with_i) k) 10) * 100
                + 1000)%Z in
     nth_error (posted (fraction_world with_i)
                  (snd (_translate "This is it. Hi!" "FR" "EN" None
                                   (DictStr EmptyString) (fraction_world with_i)))) 1
     = Some (jsonrpc_url, payload) /\
     Py.getitem payload "params" = Ok params /\
     Py.getitem params "timestamp" = Ok (JNum (ts + (5 - ts mod 5)))).
Proof.
  destruct (timestamp_sent "This is it. Hi!" "FR" "EN" None (DictStr EmptyString)
              (fraction_world with_i) ["This is it."; "Hi!"] JNull eq_refl)
    as (Hlanguage & Htranslate & _).
  split.
  - destruct Hlanguage as (sp & payload & params & jobs & k & Hlog & _ & _ & Hp & _ & _ & Hs & _).
    exists payload, params, k. rewrite Hlog. repeat split; assumption.
  - destruct (Htranslate EmptyString eq_refl eq_refl)
      as (sp & payload & params & jobs & k & Hlog & _ & _ & Hp & _ & _ & Hs & _).
    exists payload, params, k. rewrite Hlog. repeat split; assumption.
Defined.

Example timestamp_sample :
  Py.getitem sample_params "timestamp" = Ok (JNum 1700000003105) /\
  i_count (JArr [JStr "This is it."; JStr "Hi!"]) = Ok 5%Z /\
  occurrences "i" ["This is it."; "Hi!"] = 4%Z /\
  base_timestamp (clock (fraction_world with_i) 2) = 1700000003100%Z /\
  (1700000003105 mod 5 = 0)%Z.
Proof. vm_compute. repeat split. Qed.

(** C2, as the code has it: with the default [dictionary=None] the
    guard of [_translate], which compares the dictionary with the empty
    string, lets the call through to [dictionary.source_language], and
    [_translate] raises [AttributeError] before anything is posted; no
    termbase string is built.  The empty string is the value that skips
    the glossary. *)
Theorem translate_without_glossary_raises
    (text_ destination_language source_language : string)
    (formality : option string) (w : World) :
  _translate text_ destination_language source_language formality DictNone w
  = (Raise AttributeError, w)
  /\ build_termbase (DictStr EmptyString) text_ source_language destination_language w
     = (Ok EmptyString, w).
Proof. split; reflexivity. Qed.

(** C4, as the code has it: with the source language ['auto'] the
    parameters of [_translate] have no [user_preferred_langs] entry to
    append the computed language to, so every such call raises, and
    when the termbase and the split succeed it raises [KeyError] and
    posts no job batch. *)
Theorem translate_auto_raises (text_ destination_language : string)
    (formality : option string) (dictionary : Dictionary) (w : World) :
  (exists e,
     fst (_translate text_ destination_language "auto" formality dictionary w)
     = Raise e)
  /\ fst (_translate "Hello. How are you? Bye." "FR" "auto" None (DictStr EmptyString)
                     (sample_world bonjour))
     = Raise (KeyError "user_preferred_langs")
  /\ List.length
       (sent (snd (_translate "Hello. How are you? Bye." "FR" "auto" None
                              (DictStr EmptyString) (sample_world bonjour))))
     = 1.
Proof.
  split; [|split; vm_compute; reflexivity].
  destruct (translate_run text_ destination_language "auto" formality dictionary w)
    as (w' & k & Hrun & _).
  cbv zeta in Hrun. rewrite Hrun. cbn [fst]. unfold translate_outcome.
  destruct (fst (build_termbase _ _ _ _ w)) as [fs|e]; cbn [rbind];
    [|eexists; reflexivity].
  destruct (split_reply _) as [reply|e]; cbn [rbind]; [|eexists; reflexivity].
  destruct (_build_jobs (fst reply) EmptyString) as [jobs|e]; cbn [rbind];
    [|eexists; reflexivity].
  destruct (i_count (fst reply)) as [count|e]; cbn [rbind]; eexists; reflexivity.
Qed.

(** C1, as the code has it: [_split_into_sentences] always returns the
    answer of the remote split; the tuple of the local split is
    computed and dropped, so a refused connection raises instead of
    falling back. *)
Theorem split_ignores_local_split
    (text_ destination_language source_language : string) (w : World) :
  fst (_split_into_sentences text_ destination_language source_language w)
  = split_reply (net w (List.length (sent w)))
  /\ fst (_split_into_sentences "Hello. Bye." "FR" "EN" (sample_world refused))
     = Raise ConnectionError
  /\ Regex.split "Hello. Bye." = ["Hello."; "Bye."].
Proof.
  split; [|split; reflexivity].
  destruct (split_run text_ destination_language source_language w) as (w' & H & _).
  rewrite H. reflexivity.
Qed.

(** C3, the claim as stated fails: for [EN] and [KO] the loader does
    not raise the error 5002. *)
Lemma en_ko_is_not_error_5002 :
  fst (load_glossary_from_csv (Ok sample_frame) "EN" "KO" (sample_world refused))
  <> Raise (DeeplTranslateException (JNum 5002)).
Proof. vm_compute. discriminate. Qed.

(** C3, amended: for [EN] and [KO] the loader raises the typed error
    5000, the unsupported language error, because [KO] is not a
    glossary language; it does so before it reads the file and whatever
    the file holds. *)
Theorem load_glossary_en_ko (read_csv : Result DataFrame.t) (w : World) :
  load_glossary_from_csv read_csv "EN" "KO" w
  = (Raise (DeeplTranslateException (JNum 5000)), w)
  /\ message (DeeplTranslateException (JNum 5000))
     = Some "Unsported language for glossary."
  /\ str_in "KO" _glossary_supported_languages = false.
Proof. repeat split. Qed.

(** ** The reassembly of the answer *)

Lemma all_str_map (l : list string) : Py.all_str (map JStr l) = Ok l.
Proof.
  induction l as [|s l IH]; cbn [map Py.all_str]; [reflexivity|].
  rewrite IH. reflexivity.
Qed.

Lemma top_texts_of (objs : list Json) (texts : list string) :
  Forall2 (fun obj t => top_text obj = Ok (JStr t)) objs texts ->
  top_texts objs = Ok (map JStr (non_empty texts)).
Proof.
  induction 1 as [|obj t objs texts Hobj _ IH]; [reflexivity|].
  cbn [top_texts non_empty filter]. rewrite Hobj. cbn [rbind Py.truthy].
  fold (non_empty texts).
  destruct (String.eqb t EmptyString); cbn [negb].
  - exact IH.
  - rewrite IH. reflexivity.
Qed.

Lemma reassemble_joins (source_language : string) (results : Json)
    (objs : list Json) (texts : list string) :
  Py.getitem results "translations" = Ok (JArr objs) ->
  Forall2 (fun obj t => top_text obj = Ok (JStr t)) objs texts ->
  reassemble source_language results
  = Ok (Some (match Py.getitem results "source_lang" with
              | Ok v => v
              | Raise _ => JStr source_language
              end,
              PyStr.join " " (non_empty texts))).
Proof.
  intros Htr Htexts. unfold reassemble.
  destruct results; try discriminate Htr.
  rewrite Htr. cbn [rbind Py.iterate].
  rewrite (top_texts_of _ _ Htexts). cbn [rbind].
  unfold Py.join. rewrite all_str_map. reflexivity.
Qed.

(** C8: when the job batch answers with translation objects whose top
    texts (first beam, first sentence) are the strings [texts],
    [_translate] returns those of them that are not empty, joined by
    single spaces, next to the detected language. *)
Theorem translate_joins_top_texts
    (text_ destination_language source_language : string)
    (formality : option string) (dictionary : Dictionary) (w : World)
    (formated_string : string) (reply : Json * Json) (jobs : list Job) (count : Z)
    (results : Json) (objs : list Json) (texts : list string) :
  String.eqb source_language "auto" = false ->
  fst (build_termbase dictionary text_ source_language destination_language w)
  = Ok formated_string ->
  split_reply (net w (List.length (sent w))) = Ok reply ->
  _build_jobs (fst reply) EmptyString = Ok jobs ->
  i_count (fst reply) = Ok count ->
  rpc_result (net w (S (List.length (sent w)))) = Ok results ->
  Py.getitem results "translations" = Ok (JArr objs) ->
  Forall2 (fun obj t => top_text obj = Ok (JStr t)) objs texts ->
  fst (_translate text_ destination_language source_language formality dictionary w)
  = Ok (Some (match Py.getitem results "source_lang" with
              | Ok v => v
              | Raise _ => JStr source_language
              end,
              PyStr.join " " (filter (fun t => negb (String.eqb t EmptyString)) texts))).
Proof.
  intros Hauto Hterm Hreply Hjobs Hcount Hres Htr Htexts.
  destruct (translate_run text_ destination_language source_language formality
              dictionary w) as (w' & k & Hrun & _).
  cbv zeta in Hrun. rewrite Hrun. cbn [fst]. unfold translate_outcome.
  rewrite Hterm, Hreply. cbn [rbind]. rewrite Hjobs. cbn [rbind].
  rewrite Hcount. cbn [rbind].
  rewrite Hauto, Hres. cbn [rbind].
  apply (reassemble_joins _ _ _ _ Htr Htexts).
Qed.

Lemma translate_joins_top_texts_witness :
  fst (_translate "Hello. How are you? Bye." "FR" "EN" None (DictStr EmptyString)
                  (sample_world bonjour))
  = Ok (Some (JStr "EN", "Bonjour. Comment ça va? Au revoir.")).
Proof.
  apply (translate_joins_top_texts
           "Hello. How are you? Bye." "FR" "EN" None (DictStr EmptyString)
           (sample_world bonjour) EmptyString
           (JArr [JStr "Hello."; JStr "How are you?"; JStr "Bye."], JStr "EN")
           (jobs_of [JStr "Hello."; JStr "How are you?"; JStr "Bye."]) 1%Z
           (JObj [("source_lang", JStr "EN");
                  ("translations",
                   JArr [translation "Bonjour."; translation "Comment ça va?";
                         translation "Au revoir."])])
           [translation "Bonjour."; translation "Comment ça va?";
            translation "Au revoir."]
           ["Bonjour."; "Comment ça va?"; "Au revoir."]);
    try reflexivity.
  repeat constructor.
Defined.

Example translate_skips_empty_segments :
  reassemble "EN"
    (JObj [("translations",
            JArr [translation "Bonjour."; translation EmptyString;
                  translation "Au revoir."])])
  = Ok (Some (JStr "EN", "Bonjour. Au revoir.")).
Proof. reflexivity. Qed.

(** ** Failures *)

Lemma bing_run (text_ destination_language : string)
    (source_language : BingTranslate.Source) (w : World) :
  fst (BingTranslate.translate text_ destination_language source_language w)
  = Ok (bing_outcome (net w (List.length (sent w)))).
Proof.
  unfold BingTranslate.translate, try_except, bing_outcome, bing_parse.
  unfold bind at 1. unfold post at 1.
  destruct (net w (List.length (sent w))) as [e|request]; [reflexivity|].
  destruct (status_code request <? 400)%Z; [|reflexivity].
  rewrite bind_lift. destruct (json request) as [data|e]; cbn [rbind]; [|reflexivity].
  rewrite bind_lift. destruct (Py.getitem0 data) as [first|e]; cbn [rbind]; [|reflexivity].
  rewrite bind_lift.
  destruct (Py.getitem first "detectedLanguage") as [detected|e]; cbn [rbind];
    [|reflexivity].
  rewrite bind_lift.
  destruct (Py.getitem detected "language") as [lang|e]; cbn [rbind]; [|reflexivity].
  rewrite bind_lift.
  destruct (Py.getitem first "translations") as [translations|e]; cbn [rbind];
    [|reflexivity].
  rewrite bind_lift.
  destruct (Py.getitem0 translations) as [tr|e]; cbn [rbind]; [|reflexivity].
  rewrite bind_lift.
  destruct (Py.getitem tr "text") as [translated|e]; cbn [rbind]; reflexivity.
Qed.

(** C9, the claim as stated fails: when the connection is refused,
    [_translate] of the DeepL translator raises. *)
Lemma deepl_translate_raises_when_refused :
  fst (_translate "Hello." "FR" "EN" None (DictStr EmptyString) (sample_world refused))
  = Raise ConnectionError.
Proof. vm_compute. reflexivity. Qed.

(** C9, amended: [BingTranslate.translate] never raises, and returns
    the pair of nulls when the transport fails, when the status is 400
    or more, when the body is not JSON and when the body has not the
    shape the call reads.  [_translate] of the DeepL translator has no
    handler: once the termbase is built, whatever glossary is given, a
    failure of the split request is raised to the caller, and so is a
    failure of the job batch when the call gets that far.  A failure is
    what [send_jsonrpc] raises: the exception of the transport, the
    error of the decoding of a body that is not JSON, and for a status
    other than 200 the [DeeplTranslateException] with the code of the
    response. *)
Theorem soft_fail_is_bing_only (text_ destination_language : string)
    (source : BingTranslate.Source) (source_language : string)
    (formality : option string) (dictionary : Dictionary) (w : World) :
  let bing := fst (BingTranslate.translate text_ destination_language source w) in
  let deepl :=
    fst (_translate text_ destination_language source_language formality
                    dictionary w) in
  let termbase :=
    fst (build_termbase dictionary text_ source_language destination_language w) in
  (exists pair, bing = Ok pair) /\
  (forall e, net w (List.length (sent w)) = PostRaises e -> bing = Ok (JNull, JNull)) /\
  (forall request, net w (List.length (sent w)) = PostReturns request ->
     (400 <= status_code request)%Z
     \/ body request = None
     \/ (exists data e, body request = Some data /\ bing_parse data = Raise e) ->
     bing = Ok (JNull, JNull)) /\
  (forall formated_string e,
     termbase = Ok formated_string ->
     rpc_result (net w (List.length (sent w))) = Raise e ->
     deepl = Raise e) /\
  (forall formated_string reply jobs count e,
     termbase = Ok formated_string ->
     String.eqb source_language "auto" = false ->
     split_reply (net w (List.length (sent w))) = Ok reply ->
     _build_jobs (fst reply) EmptyString = Ok jobs ->
     i_count (fst reply) = Ok count ->
     rpc_result (net w (S (List.length (sent w)))) = Raise e ->
     deepl = Raise e) /\
  (forall o,
     (forall e, o = PostRaises e -> rpc_result o = Raise e) /\
     (forall request,
        o = PostReturns request -> body request = None ->
        rpc_result o = Raise JSONDecodeError) /\
     (forall request response error code,
        o = PostReturns request -> status_code request <> 200%Z ->
        body request = Some response ->
        Py.getitem response "error" = Ok error ->
        Py.getitem error "code" = Ok code ->
        rpc_result o = Raise (DeeplTranslateException code))).
Proof.
  cbv zeta. split; [|split; [|split; [|split; [|split]]]].
  - eexists. apply bing_run.
  - intros e He. rewrite bing_run, He. reflexivity.
  - intros request Hreq Hbad. rewrite bing_run, Hreq. cbn [bing_outcome].
    destruct (status_code request <? 400)%Z eqn:Hlt; [|reflexivity].
    destruct Hbad as [Hstatus|[Hbody|(data & e & Hbody & Hparse)]].
    + apply Z.ltb_lt in Hlt. lia.
    + unfold json. rewrite Hbody. reflexivity.
    + unfold json. rewrite Hbody. cbn [rbind]. rewrite Hparse. reflexivity.
  - intros fs e Hterm He.
    destruct (translate_run text_ destination_language source_language formality
                dictionary w) as (w' & k & Hrun & _).
    cbv zeta in Hrun. rewrite Hrun. cbn [fst]. unfold translate_outcome, split_reply.
    rewrite Hterm, He. reflexivity.
  - intros fs reply jobs count e Hterm Hauto Hreply Hjobs Hcount He.
    destruct (translate_run text_ destination_language source_language formality
                dictionary w) as (w' & k & Hrun & _).
    cbv zeta in Hrun. rewrite Hrun. cbn [fst]. unfold translate_outcome.
    rewrite Hterm, Hreply. cbn [rbind]. rewrite Hjobs. cbn [rbind].
    rewrite Hcount. cbn [rbind]. rewrite Hauto, He. reflexivity.
  - intros o. split; [|split].
    + intros e Ho. subst o. reflexivity.
    + intros request Ho Hbody. subst o. unfold rpc_result, json. rewrite Hbody.
      reflexivity.
    + intros request response error code Ho Hstatus Hbody Herror Hcode. subst o.
      unfold rpc_result, json. rewrite Hbody. cbn [rbind].
      apply Z.eqb_neq in Hstatus. rewrite Hstatus, Herror. cbn [rbind].
      rewrite Hcode. reflexivity.
Qed.

Lemma soft_fail_is_bing_only_witness :
  fst (BingTranslate.translate "Hello." "fr" BingTranslate.SourceNone
                               (sample_world refused))
  = Ok (JNull, JNull)
  /\ fst (BingTranslate.translate "Hello." "fr" BingTranslate.SourceNone
                                  (sample_world nothing_to_correct))
     = Ok (JNull, JNull)
  /\ fst (_translate "Hello." "FR" "EN" None (DictStr EmptyString)
                     (sample_world refused))
     = Raise ConnectionError
  /\ fst (_translate "Hello." "FR" "EN" None (DictStr EmptyString)
                     (sample_world throttled))
     = Raise (DeeplTranslateException (JNum 1042911)).
Proof.
  destruct (soft_fail_is_bing_only "Hello." "fr" BingTranslate.SourceNone "EN" None
              (DictStr EmptyString) (sample_world refused))
    as (_ & Hbing & _ & _ & _ & _).
  destruct (soft_fail_is_bing_only "Hello." "fr" BingTranslate.SourceNone "EN" None
              (DictStr EmptyString) (sample_world nothing_to_correct))
    as (_ & _ & Hshape & _ & _ & _).
  destruct (soft_fail_is_bing_only "Hello." "FR" BingTranslate.SourceNone "EN" None
              (DictStr EmptyString) (sample_world refused))
    as (_ & _ & _ & Hdeepl & _ & _).
  destruct (soft_fail_is_bing_only "Hello." "FR" BingTranslate.SourceNone "EN" None
              (DictStr EmptyString) (sample_world throttled))
    as (_ & _ & _ & Hcode & _ & _).
  split; [|split; [|split]].
  - apply (Hbing ConnectionError). reflexivity.
  - eapply Hshape; [reflexivity|].
    right. right. eexists. eexists. split; reflexivity.
  - apply (Hdeepl EmptyString ConnectionError); reflexivity.
  - apply (Hcode EmptyString (DeeplTranslateException (JNum 1042911))); reflexivity.
Defined.

(** ** The glossary matcher *)

Lemma loc_eq_from_bounds (word : string) (col : list string) :
  forall row, Forall (fun p => p < row + List.length col)
                     (DataFrame.loc_eq_from row col word).
Proof.
  induction col as [|cell rest IH]; intros row; cbn [DataFrame.loc_eq_from List.length].
  - constructor.
  - specialize (IH (S row)).
    assert (H : Forall (fun p => p < row + S (List.length rest))
                       (DataFrame.loc_eq_from (S row) rest word)).
    { eapply Forall_impl; [|exact IH]. cbv beta. intros p Hp. lia. }
    destruct (String.eqb cell word); [constructor; [lia|exact H]|exact H].
Qed.

Lemma loc_eq_from_in (word : string) (col : list string) :
  forall row, In word col -> DataFrame.loc_eq_from row col word <> [].
Proof.
  induction col as [|cell rest IH]; intros row Hin; [destruct Hin|].
  cbn [DataFrame.loc_eq_from].
  destruct (String.eqb cell word) eqn:E; [discriminate|].
  destruct Hin as [Heq|Hin].
  - subst cell. rewrite String.eqb_refl in E. discriminate.
  - apply IH. exact Hin.
Qed.

Lemma take_in_range (targets : list string) (index : list nat) :
  Forall (fun p => p < List.length targets) index ->
  exists cells, DataFrame.take targets index = Ok cells.
Proof.
  induction 1 as [|p index Hp _ [cells IH]]; cbn [DataFrame.take].
  - eexists. reflexivity.
  - destruct (nth_error targets p) as [cell|] eqn:E.
    + rewrite IH. eexists. reflexivity.
    + apply nth_error_None in E. lia.
Qed.

(** In a frame whose target column is as long as its source column the
    look-up of the target of a word of the source column succeeds. *)
Lemma lookup_ok (words targets : list string) (word : string) :
  In word words ->
  List.length words <= List.length targets ->
  exists cells value,
    DataFrame.take targets (DataFrame.loc_eq words word) = Ok cells /\
    DataFrame.values0 cells = Ok value /\
    first_target words targets word = Some value.
Proof.
  intros Hin Hlen. unfold first_target, DataFrame.loc_eq.
  pose proof (loc_eq_from_bounds word words 0) as Hb.
  pose proof (loc_eq_from_in word words 0 Hin) as Hne.
  destruct (DataFrame.loc_eq_from 0 words word) as [|p index]; [congruence|].
  inversion Hb as [|? ? Hp Hrest]; subst.
  cbn [DataFrame.take].
  destruct (nth_error targets p) as [value|] eqn:E.
  2:{ apply nth_error_None in E. lia. }
  destruct (take_in_range targets index) as [cells Hcells].
  { eapply Forall_impl; [|exact Hrest]. cbv beta. intros q Hq. lia. }
  rewrite Hcells. exists (value :: cells), value. repeat split.
Qed.

Section Matcher.

Variable g : FormatedGlossary.t.
Variables text_ source_language : string.
Variables words targets : list string.

Hypothesis Hwords :
  DataFrame.getitem (FormatedGlossary.dataframe g) (PyStr.upper source_language)
  = Ok words.
Hypothesis Htargets :
  DataFrame.getitem (FormatedGlossary.dataframe g)
                    (PyStr.upper (FormatedGlossary.target_language g))
  = Ok targets.
Hypothesis Hlength : List.length words = List.length targets.

Lemma glossary_step_run (st : Z * string) (word : string) (w : World) :
  In word words ->
  exists w',
    glossary_step g text_ source_language st word w
    = (Ok (step_state text_ words targets st word), w') /\
    warned w' = warned w ++ step_warnings text_ words targets st word.
Proof.
  intros Hin. destruct st as [limit fs].
  destruct (lookup_ok words targets word Hin ltac:(lia))
    as (cells & value & Htake & Hvalue & Hfirst).
  unfold glossary_step, step_warnings, step_state, quoted_match, candidate.
  cbn [fst snd]. rewrite Hfirst, Z.gtb_ltb.
  destruct (PyStr.contains word text_); cbn [andb].
  2:{ unfold bind at 1. cbn [ret].
      destruct (0 <? limit)%Z; exists w; split;
        try reflexivity; cbn [app]; now rewrite app_nil_r. }
  destruct (0 <? limit)%Z eqn:Hlimit.
  - unfold bind at 1.
    rewrite bind_lift, Hwords. cbv beta iota.
    rewrite bind_lift, Htargets. cbv beta iota.
    rewrite bind_lift, Htake. cbv beta iota.
    rewrite bind_lift, Hvalue. cbv beta iota.
    destruct (negb (PyStr.has_quote value) && negb (PyStr.has_quote word)) eqn:Hq.
    + assert (Hnq : PyStr.has_quote value || PyStr.has_quote word = false).
      { destruct (PyStr.has_quote value), (PyStr.has_quote word);
          try discriminate; reflexivity. }
      rewrite Hnq. cbn [andb fst snd app ret].
      destruct (limit - 1 =? 0)%Z.
      * eexists. split; reflexivity.
      * exists w. split; [reflexivity|now rewrite app_nil_r].
    + assert (Hnq : PyStr.has_quote value || PyStr.has_quote word = true).
      { destruct (PyStr.has_quote value), (PyStr.has_quote word);
          try discriminate; reflexivity. }
      rewrite Hnq. cbn [andb fst snd].
      assert (Hz : (limit =? 0)%Z = false).
      { apply Z.ltb_lt in Hlimit. apply Z.eqb_neq. lia. }
      cbv [bind warn ret]. rewrite Hz. cbn [app].
      eexists. split; reflexivity.
  - unfold bind at 1. cbn [ret].
    rewrite andb_false_r. cbn [fst snd app].
    destruct (limit =? 0)%Z.
    + eexists. split; reflexivity.
    + exists w. split; [reflexivity|now rewrite app_nil_r].
Qed.

End Matcher.

Lemma append_nil_r (s : string) : s +++ EmptyString = s.
Proof. induction s as [|c s IH]; cbn; [reflexivity|now rewrite IH]. Qed.

Lemma append_assoc (a b c : string) : (a +++ b) +++ c = a +++ (b +++ c).
Proof. induction a as [|x a IH]; cbn; [reflexivity|now rewrite IH]. Qed.

Lemma has_quote_cons (c : ascii) (s : string) :
  PyStr.has_quote (String c s) = Ascii.eqb PyStr.quote c || PyStr.has_quote s.
Proof.
  unfold PyStr.has_quote. cbn [PyStr.contains PyStr.startswith].
  destruct s; now rewrite andb_true_r.
Qed.

Lemma has_quote_app (a b : string) :
  PyStr.has_quote (a +++ b) = PyStr.has_quote a || PyStr.has_quote b.
Proof.
  induction a as [|c a IH]; [reflexivity|].
  cbn [String.append]. rewrite !has_quote_cons, IH. apply orb_assoc.
Qed.

Lemma has_quote_pair_line (word value : string) :
  PyStr.has_quote (pair_line word value)
  = PyStr.has_quote word || PyStr.has_quote value.
Proof.
  unfold pair_line. rewrite has_quote_app. cbn [String.append].
  rewrite has_quote_cons, has_quote_app.
  replace (PyStr.has_quote (String PyStr.newline EmptyString)) with false by reflexivity.
  replace (Ascii.eqb PyStr.quote PyStr.tab) with false by reflexivity.
  now rewrite orb_false_r.
Qed.

Lemma has_quote_render (pairs : list (string * string)) :
  Forall quote_free pairs -> PyStr.has_quote (render pairs) = false.
Proof.
  induction 1 as [|p pairs [Hw Hv] _ IH]; [reflexivity|].
  cbn [render fold_right]. fold (render pairs).
  now rewrite has_quote_app, has_quote_pair_line, Hw, Hv, IH.
Qed.

(** A string without a quote has no occurrence of a pattern that starts
    with one: [replace] leaves it as it is. *)
Lemma replace_without_quote (old new s : string) :
  PyStr.has_quote s = false ->
  PyStr.replace (String PyStr.quote old) new s = s.
Proof.
  unfold PyStr.replace. generalize (String.length s) as fuel. intros fuel. revert s.
  induction fuel as [|fuel IH]; intros s Hq; [reflexivity|].
  destruct s as [|c s]; [reflexivity|].
  rewrite has_quote_cons in Hq. apply orb_false_elim in Hq. destruct Hq as [Hc Hs].
  cbn [PyStr.replace_from PyStr.startswith]. rewrite Hc. cbn [andb].
  now rewrite (IH s Hs).
Qed.

Lemma last_char_app (a : string) (c : ascii) (b : string) :
  PyStr.last_char (a +++ String c b) = PyStr.last_char (String c b).
Proof.
  induction a as [|x a IH]; [reflexivity|].
  cbn [String.append]. cbn [PyStr.last_char].
  destruct (a +++ String c b) eqn:E.
  - destruct a; discriminate E.
  - exact IH.
Qed.

Lemma pair_line_cons (word value : string) :
  exists c s, pair_line word value = String c s.
Proof. unfold pair_line. destruct word; cbn; eauto. Qed.

Lemma pair_line_last_char (word value : string) :
  PyStr.last_char (pair_line word value) = Some PyStr.newline.
Proof.
  unfold pair_line.
  rewrite <- (append_assoc (String PyStr.tab EmptyString)).
  rewrite <- append_assoc. apply last_char_app.
Qed.

Lemma render_last_char (p : string * string) (pairs : list (string * string)) :
  PyStr.last_char (render (p :: pairs)) = Some PyStr.newline.
Proof.
  revert p. induction pairs as [|q pairs IH]; intros p.
  - cbn [render fold_right]. rewrite append_nil_r. apply pair_line_last_char.
  - change (render (p :: q :: pairs))
      with (pair_line (fst p) (snd p) +++ render (q :: pairs)).
    destruct (render (q :: pairs)) as [|c s] eqn:E.
    + specialize (IH q). rewrite E in IH. discriminate IH.
    + rewrite last_char_app. rewrite <- E. apply IH.
Qed.

Lemma candidates_quote_free (text_ : string) (words targets ws : list string) :
  Forall (fun p => quote_free p /\ In (fst p) ws /\ PyStr.contains (fst p) text_ = true)
         (candidates text_ words targets ws).
Proof.
  induction ws as [|word rest IH]; [constructor|].
  cbn [candidates flat_map]. fold (candidates text_ words targets rest).
  assert (Hrest : Forall (fun p => quote_free p /\ In (fst p) (word :: rest)
                                   /\ PyStr.contains (fst p) text_ = true)
                         (candidates text_ words targets rest)).
  { eapply Forall_impl; [|exact IH]. cbv beta. intros p (Hq & Hin & Hc).
    repeat split; try apply Hq; try assumption. now right. }
  unfold candidate.
  destruct (PyStr.contains word text_) eqn:Hc; [|exact Hrest].
  destruct (first_target words targets word) as [value|]; [|exact Hrest].
  destruct (PyStr.has_quote value) eqn:Hv, (PyStr.has_quote word) eqn:Hw;
    cbn [negb andb app]; try exact Hrest.
  constructor; [|exact Hrest]. cbn [fst snd]. repeat split; auto. now left.
Qed.




Lemma fold_step_state (text_ : string) (words targets ws : list string) :
  forall (limit : Z) (fs : string),
    (0 <= limit)%Z ->
    fold_left (step_state text_ words targets) ws (limit, fs)
    = ((limit - Z.of_nat (List.length
                            (firstn (Z.to_nat limit) (candidates text_ words targets ws))))%Z,
       fs +++ render (firstn (Z.to_nat limit) (candidates text_ words targets ws))).
Proof.
  induction ws as [|word rest IH]; intros limit fs Hlimit.
  - cbn [candidates flat_map fold_left]. rewrite firstn_nil. cbn [render fold_right List.length].
    rewrite append_nil_r. f_equal. lia.
  - cbn [fold_left candidates flat_map]. fold (candidates text_ words targets rest).
    unfold step_state at 2. cbn [fst snd].
    destruct (0 <? limit)%Z eqn:Hpos.
    + apply Z.ltb_lt in Hpos.
      destruct (candidate text_ words targets word) as [p|]; cbn [app].
      * rewrite (IH (limit - 1)%Z) by lia.
        replace (Z.to_nat limit) with (S (Z.to_nat (limit - 1))) by lia.
        cbn [firstn List.length render fold_right].
        fold (render (firstn (Z.to_nat (limit - 1)) (candidates text_ words targets rest))).
        rewrite append_assoc. f_equal. lia.
      * apply IH. lia.
    + apply Z.ltb_ge in Hpos. assert (limit = 0%Z) by lia. subst limit.
      rewrite (IH 0%Z) by lia. reflexivity.
Qed.

Lemma Forall_firstn {A} (P : A -> Prop) (n : nat) (l : list A) :
  Forall P l -> Forall P (firstn n l).
Proof.
  intros H. revert n. induction H as [|x l Hx _ IH]; intros [|n]; cbn [firstn];
    constructor; auto.
Qed.

Lemma drop_last_app (a : string) (c : ascii) (b : string) :
  PyStr.drop_last (a +++ String c b) = a +++ PyStr.drop_last (String c b).
Proof.
  induction a as [|x a IH]; [reflexivity|].
  cbn [String.append]. cbn [PyStr.drop_last].
  destruct (a +++ String c b) eqn:E.
  - destruct a; discriminate E.
  - cbn [String.append]. f_equal. exact IH.
Qed.

Lemma pair_line_term_line (p : string * string) :
  pair_line (fst p) (snd p) = term_line p +++ String PyStr.newline EmptyString.
Proof.
  unfold pair_line, term_line. rewrite !append_assoc. reflexivity.
Qed.

Lemma drop_last_render (pairs : list (string * string)) :
  PyStr.drop_last (render pairs)
  = PyStr.join (String PyStr.newline EmptyString) (map term_line pairs).
Proof.
  induction pairs as [|p pairs IH]; [reflexivity|].
  cbn [render fold_right map]. fold (render pairs).
  rewrite pair_line_term_line.
  destruct pairs as [|q pairs].
  - cbn [render fold_right map PyStr.join]. rewrite append_nil_r.
    rewrite drop_last_app. cbn [PyStr.drop_last]. apply append_nil_r.
  - destruct (pair_line_cons (fst q) (snd q)) as (c & t & Hline).
    assert (Hr : render (q :: pairs) = String c (t +++ render pairs)).
    { cbn [render fold_right]. fold (render pairs). rewrite Hline. reflexivity. }
    rewrite append_assoc. cbn [String.append]. rewrite drop_last_app.
    cbn [String.append] in *.
    replace (PyStr.drop_last (String PyStr.newline (render (q :: pairs))))
      with (String PyStr.newline (PyStr.drop_last (render (q :: pairs)))).
    + rewrite IH. reflexivity.
    + rewrite Hr. reflexivity.
Qed.

Section MatcherLoop.

Variable g : FormatedGlossary.t.
Variables text_ source_language destination_language : string.
Variables words targets : list string.

Hypothesis Hwords :
  DataFrame.getitem (FormatedGlossary.dataframe g) (PyStr.upper source_language)
  = Ok words.
Hypothesis Htargets :
  DataFrame.getitem (FormatedGlossary.dataframe g)
                    (PyStr.upper (FormatedGlossary.target_language g))
  = Ok targets.
Hypothesis Hlength : List.length words = List.length targets.

Lemma glossary_loop_run (ws : list string) :
  forall (st : Z * string) (w : World),
    incl ws words ->
    exists w',
      glossary_loop g text_ source_language st ws w
      = (Ok (fold_left (step_state text_ words targets) ws st), w') /\
      warned w' = warned w ++ loop_warnings text_ words targets st ws.
Proof.
  induction ws as [|word rest IH]; intros st w Hincl.
  - exists w. split; [reflexivity|]. cbn [loop_warnings]. now rewrite app_nil_r.
  - destruct (glossary_step_run g text_ source_language words targets
                Hwords Htargets Hlength st word w) as (w1 & Hstep & Hw1).
    { apply Hincl. now left. }
    destruct (IH (step_state text_ words targets st word) w1) as (w2 & Hloop & Hw2).
    { intros x Hx. apply Hincl. now right. }
    exists w2. cbn [glossary_loop fold_left loop_warnings].
    rewrite (bind_ok _ _ _ _ _ Hstep). split; [exact Hloop|].
    rewrite Hw2, Hw1. now rewrite app_assoc.
Qed.

Hypothesis Hsource :
  PyStr.contains (PyStr.upper source_language) (FormatedGlossary.source_language g)
  = true.
Hypothesis Htarget :
  PyStr.contains (PyStr.upper destination_language)
                 (FormatedGlossary.target_language g)
  = true.

(** The termbase of a glossary that agrees with the languages of the
    call: the first ten pairs among the entries that occur in the
    text and hold no quote, without the last newline. *)
Lemma build_termbase_glossary (w : World) :
  fst (build_termbase (DictGlossary g) text_ source_language destination_language w)
  = Ok (PyStr.drop_last
          (render (firstn 10 (candidates text_ words targets words)))).
Proof.
  unfold build_termbase. cbn [dictionary_ne_empty glossary_of].
  rewrite bind_lift, Hsource, Htarget. cbn [negb orb].
  rewrite bind_lift, Hwords.
  destruct (glossary_loop_run words (10%Z, EmptyString) w (incl_refl words))
    as (w' & Hloop & _).
  rewrite (bind_ok _ _ _ _ _ Hloop).
  rewrite fold_step_state by lia. cbn [String.append].
  change (Z.to_nat 10) with 10.
  pose proof (candidates_quote_free text_ words targets words) as Hfree.
  apply (Forall_firstn _ 10) in Hfree.
  destruct (firstn 10 (candidates text_ words targets words)) as [|p pairs].
  - reflexivity.
  - destruct (pair_line_cons (fst p) (snd p)) as (c & s & Hline).
    assert (Hne : String.eqb (render (p :: pairs)) EmptyString = false).
    { cbn [render fold_right]. rewrite Hline. reflexivity. }
    rewrite Hne. cbn [negb].
    rewrite replace_without_quote.
    + rewrite render_last_char. reflexivity.
    + apply has_quote_render. eapply Forall_impl; [|exact Hfree].
      cbv beta. intros q Hq. apply Hq.
Qed.

End MatcherLoop.





Example sample_termbase :
  candidates sample_text sample_words sample_targets sample_words
  = [("a", "A"); ("c", "C"); ("d", "D"); ("e", "E"); ("f", "F");
     ("g", "G"); ("h", "H"); ("i", "I"); ("j", "J"); ("k", "K")]
  /\ fst (build_termbase (DictGlossary sample_glossary) sample_text "en" "fr"
                         (sample_world refused))
     = Ok (PyStr.join (String PyStr.newline EmptyString)
             (map term_line
                  [("a", "A"); ("c", "C"); ("d", "D"); ("e", "E"); ("f", "F");
                   ("g", "G"); ("h", "H"); ("i", "I"); ("j", "J"); ("k", "K")]))
  /\ warned (snd (build_termbase (DictGlossary sample_glossary) sample_text "en" "fr"
                                 (sample_world refused)))
     = [quote_warning; quote_warning; limit_warning].
Proof. vm_compute. repeat split; reflexivity. Qed.

(** ** Evaluations *)

Example regex_split_hello :
  Regex.split "Hello.  How are you? Bye." = ["Hello."; "How are you?"; "Bye."].
Proof. reflexivity. Qed.

Example regex_split_no_boundary : Regex.split "a b  c" = ["a b  c"].
Proof. reflexivity. Qed.

Example regex_split_trailing : Regex.split "Hi! " = ["Hi!"; EmptyString].
Proof. reflexivity. Qed.

Example upper_en : PyStr.upper "en-gb" = "EN-GB".
Proof. reflexivity. Qed.

(** [strip] removes the ideographic space U+3000 and the no-break space
    U+00A0, here in UTF-8, and leaves the letter U+00E0 in place. *)
Example strip_unicode :
  Py.strip (String (ascii_of_nat 227) (String (ascii_of_nat 128)
              (String (ascii_of_nat 128)
                 (" Hello " +++ String (ascii_of_nat 194)
                                  (String (ascii_of_nat 160) EmptyString)))))
  = "Hello"
  /\ Py.strip (String (ascii_of_nat 195) (String (ascii_of_nat 160) " "))
     = String (ascii_of_nat 195) (String (ascii_of_nat 160) EmptyString).
Proof. split; reflexivity. Qed.

(** A split that answers with the string [Hi] instead of a list: the
    jobs are those of its two characters, and the batch is posted. *)
Example translate_string_reply :
  let answers := fun k : nat =>
    match k with
    | O => ok_200 (JObj [("splitted_texts", JArr [JStr "Hi"]); ("lang", JStr "EN")])
    | _ => ok_200 JNull
    end in
  _build_jobs (JStr "Hi") EmptyString
  = _build_jobs (JArr [JStr "H"; JStr "i"]) EmptyString
  /\ i_count (JStr "Hi") = Ok 2%Z
  /\ List.length (sent (snd (_translate "Hi" "FR" "EN" None (DictStr EmptyString)
                                        (sample_world answers))))
     = 2.
Proof. vm_compute. repeat split. Qed.

Example replace_ex : PyStr.replace "ab" "-" "xababyab" = "x--y-".
Proof. reflexivity. Qed.

Example load_sorts_and_keeps_last :
  fst (load_glossary_from_csv
         (Ok [("en", ["b"; "a"; "b"]); ("fr", ["1"; "2"; "3"])]) "en" "fr"
         (sample_world refused))
  = Ok {| FormatedGlossary.dataframe := [("EN", ["a"; "b"]); ("FR", ["2"; "3"])];
          FormatedGlossary.source_language := "EN";
          FormatedGlossary.target_language := "FR" |}.
Proof. reflexivity. Qed.

(** * Further properties of the code *)

(** ** The RPC layer *)

Lemma Qmax_zero_nonneg (a : Q) : (0 <= Py.Qmax a 0)%Q.
Proof.
  unfold Py.Qmax. destruct (Qle_bool a 0) eqn:E.
  - apply Qle_refl.
  - apply Qlt_le_weak, Qnot_le_lt. intros H.
    apply Qle_bool_iff in H. congruence.
Qed.

(** Rounding to a float keeps a number that is not negative so, and
    keeps it under an integer bound below [2 ^ 52]. *)
Lemma round_half_even_le (z : Q) (M : Z) :
  (z <= inject_Z M)%Q -> (Py.round_half_even z <= M)%Z.
Proof.
  unfold Qle, Py.round_half_even. cbn [Qnum Qden inject_Z]. intros H.
  set (n := Qnum z) in *. set (d := Zpos (Qden z)) in *.
  assert (Hd : (0 < d)%Z) by (subst d; lia).
  pose proof (Z.div_mod n d ltac:(lia)) as Hdiv.
  pose proof (Z.mod_pos_bound n d Hd) as Hmod.
  assert (Hq : (n / d <= M)%Z) by (apply Z.div_le_upper_bound; lia).
  destruct (Z.eq_dec (n / d) M) as [Heq|Hne].
  - assert (Hr : (n mod d = 0)%Z) by nia.
    rewrite Hr. replace (2 * 0 ?= d)%Z with Lt by (symmetry; apply Z.compare_lt_iff; lia).
    lia.
  - destruct (2 * (n mod d) ?= d)%Z; [destruct (Z.even (n / d))| |]; lia.
Qed.

Lemma round_half_even_nonneg (z : Q) :
  (0 <= z)%Q -> (0 <= Py.round_half_even z)%Z.
Proof.
  unfold Qle, Py.round_half_even. cbn [Qnum Qden]. intros H.
  assert (Hq : (0 <= Qnum z / Zpos (Qden z))%Z) by (apply Z.div_pos; lia).
  destruct (2 * (Qnum z mod Zpos (Qden z)) ?= Zpos (Qden z))%Z;
    [destruct (Z.even _)| |]; lia.
Qed.

Lemma exponent_le (x : Q) (M : Z) :
  (0 < x)%Q -> (x <= inject_Z M)%Q -> (M < 2 ^ 52)%Z -> (Py.exponent x <= 52)%Z.
Proof.
  unfold Qlt, Qle, Py.exponent. cbn [Qnum Qden inject_Z]. intros Hpos Hle HM.
  set (n := Qnum x) in *. set (d := Zpos (Qden x)) in *.
  assert (Hd : (0 < d)%Z) by (subst d; lia).
  assert (Hn : (0 < n)%Z) by lia.
  assert (Hlog : (Z.log2 (Z.abs n) - Z.log2 d <= 52)%Z).
  { rewrite Z.abs_eq by lia.
    assert (H1 : (Z.log2 n <= Z.log2 (d * 2 ^ 52))%Z) by (apply Z.log2_le_mono; nia).
    rewrite Z.log2_mul_pow2 in H1 by lia. lia. }
  destruct (Qle_bool _ _); lia.
Qed.

Lemma step_inverse (k : Z) :
  (k <= 0)%Z -> (Qpower 2 k * inject_Z (2 ^ (- k)) == 1)%Q.
Proof.
  intros Hk. rewrite Zpower_Qpower by lia.
  change (inject_Z 2) with 2%Q.
  rewrite <- Qpower_plus by discriminate.
  replace (k + - k)%Z with 0%Z by lia. reflexivity.
Qed.

Lemma float_round_nonneg (x : Q) : (0 <= x)%Q -> (0 <= Py.float_round x)%Q.
Proof.
  intros Hx. unfold Py.float_round.
  destruct (Qeq_bool x 0); [apply Qle_refl|].
  set (step := Qpower 2 _).
  assert (Hstep : (0 < step)%Q) by (apply Qpower_0_lt; reflexivity).
  apply Qmult_le_0_compat; [|apply Qlt_le_weak; exact Hstep].
  change 0%Q with (inject_Z 0). rewrite <- Zle_Qle.
  apply round_half_even_nonneg.
  apply Qle_shift_div_l; [exact Hstep|]. rewrite Qmult_0_l. exact Hx.
Qed.

Lemma float_round_le (x : Q) (M : Z) :
  (0 <= M < 2 ^ 52)%Z -> (x <= inject_Z M)%Q -> (Py.float_round x <= inject_Z M)%Q.
Proof.
  intros HM Hx. unfold Py.float_round.
  assert (HM0 : (0 <= inject_Z M)%Q).
  { change 0%Q with (inject_Z 0). rewrite <- Zle_Qle. lia. }
  destruct (Qeq_bool x 0); [exact HM0|].
  set (k := (Z.max (Py.exponent x) (-1022) - 52)%Z).
  assert (Hstep : (0 < Qpower 2 k)%Q) by (apply Qpower_0_lt; reflexivity).
  destruct (Qlt_le_dec 0 x) as [Hpos|Hneg].
  - assert (Hk : (k <= 0)%Z).
    { pose proof (exponent_le x M Hpos Hx ltac:(lia)). subst k. lia. }
    pose proof (step_inverse k Hk) as Hinv.
    assert (Hr : (Py.round_half_even (x / Qpower 2 k) <= M * 2 ^ (- k))%Z).
    { apply round_half_even_le. apply Qle_shift_div_r; [exact Hstep|].
      rewrite inject_Z_mult, <- Qmult_assoc, (Qmult_comm (inject_Z (2 ^ (- k)))), Hinv,
        Qmult_1_r.
      exact Hx. }
    rewrite Zle_Qle in Hr.
    eapply Qle_trans.
    + apply Qmult_le_compat_r; [exact Hr|apply Qlt_le_weak; exact Hstep].
    + rewrite inject_Z_mult, <- Qmult_assoc, (Qmult_comm (inject_Z (2 ^ (- k)))), Hinv,
        Qmult_1_r.
      apply Qle_refl.
  - assert (Hr : (Py.round_half_even (x / Qpower 2 k) <= 0)%Z).
    { apply round_half_even_le. apply Qle_shift_div_r; [exact Hstep|].
      change (inject_Z 0) with 0%Q. rewrite Qmult_0_l. exact Hneg. }
    rewrite Zle_Qle in Hr.
    eapply Qle_trans; [|exact HM0].
    eapply Qle_trans.
    + apply Qmult_le_compat_r; [exact Hr|apply Qlt_le_weak; exact Hstep].
    + change (inject_Z 0) with 0%Q. rewrite Qmult_0_l. apply Qle_refl.
Qed.

(** What [send_jsonrpc] does to the sleeps and to [last_access]. *)
Lemma send_jsonrpc_effects (method : string) (params : Json) (w : World) :
  exists w',
    JSONRPCRequest.send_jsonrpc method params w
    = (rpc_result (net w (List.length (sent w))), w') /\
    slept w' = slept w ++
      (if Py.Qltb (Py.float_sub (clock w (reads w)) (last_access w)) 5
       then [Py.Qmax (Py.float_sub 5 (Py.float_sub (clock w (S (reads w)))
                                                    (last_access w))) 0]
       else []) /\
    last_access w' =
      match net w (List.length (sent w)) with
      | PostRaises _ => last_access w
      | PostReturns _ =>
          clock w (if Py.Qltb (Py.float_sub (clock w (reads w)) (last_access w)) 5
                   then S (S (reads w)) else S (reads w))
      end.
Proof.
  unfold JSONRPCRequest.send_jsonrpc, JSONRPCRequest.dump, rpc_result.
  unfold bind at 1. cbn [time fst snd].
  unfold bind at 1. cbn [get last_access].
  destruct (Py.Qltb _ 5);
    cbv [bind time get sleep set_id_number set_last_access post ret lift raise
         id_number last_access user_preferred_langs clock reads net sent slept warned];
    fold (sent w); fold (net w); fold (clock w); fold (slept w);
    fold (last_access w); fold (reads w);
    (destruct (net w (List.length (sent w))) as [e|request];
     [ | unfold json; destruct (body request) as [response|]; cbn [rbind];
         [ destruct (status_code request =? 200)%Z;
           [ destruct (Py.getitem response "result")
           | destruct (Py.getitem response "error") as [error|]; cbn [rbind];
             [ destruct (Py.getitem error "code") | ] ]
         | ] ]);
    (eexists; split; [reflexivity|]);
    (split; [try reflexivity; now rewrite app_nil_r|reflexivity]).
Qed.

(** X1: [send_jsonrpc] sleeps at most once, only when less than five
    seconds have passed since the last request, and never for a negative
    time; when the clock is not behind the last request it sleeps for
    five seconds at most. *)
Theorem send_jsonrpc_sleep (method : string) (params : Json) (w : World) :
  let w' := snd (JSONRPCRequest.send_jsonrpc method params w) in
  let early := Py.Qltb (Py.float_sub (clock w (reads w)) (last_access w)) 5 in
  (early = false -> slept w' = slept w) /\
  (early = true ->
   exists d, slept w' = slept w ++ [d] /\ (0 <= d)%Q /\
             ((last_access w <= clock w (S (reads w)))%Q -> (d <= 5)%Q)).
Proof.
  cbv zeta. destruct (send_jsonrpc_effects method params w) as (w' & Hrun & Hslept & _).
  rewrite Hrun. cbn [snd]. split; intros Hearly; rewrite Hearly in Hslept.
  - now rewrite app_nil_r in Hslept.
  - eexists. split; [exact Hslept|]. split; [apply Qmax_zero_nonneg|].
    intros Hmono. unfold Py.Qmax.
    destruct (Qle_bool _ 0); [lra|].
    unfold Py.float_sub at 1. apply (float_round_le _ 5); [lia|].
    assert (H0 : (0 <= Py.float_sub (clock w (S (reads w))) (last_access w))%Q).
    { apply float_round_nonneg. lra. }
    change (inject_Z 5) with 5%Q. lra.
Qed.

Lemma send_jsonrpc_sleep_witness :
  exists d,
    slept (snd (JSONRPCRequest.send_jsonrpc "LMT_handle_jobs" JNull recent_world))
    = slept recent_world ++ [d] /\ (0 <= d)%Q.
Proof.
  destruct (send_jsonrpc_sleep "LMT_handle_jobs" JNull recent_world) as [_ H].
  destruct (H eq_refl) as (d & Hd & Hpos & _).
  exists d. split; assumption.
Defined.

(** X2: every call of [send_jsonrpc] posts one request to the JSON-RPC
    address and moves the identifier up by one, whatever the answer: two
    calls in a row post the identifiers [n + 1] and [n + 2]. *)
Theorem send_jsonrpc_identifiers (m1 m2 : string) (p1 p2 : Json) (w : World) :
  let w1 := snd (JSONRPCRequest.send_jsonrpc m1 p1 w) in
  let w2 := snd (JSONRPCRequest.send_jsonrpc m2 p2 w1) in
  sent w2 = sent w ++
    [(jsonrpc_url,
      JObj [("jsonrpc", JStr "2.0"); ("method", JStr m1); ("params", p1);
            ("id", JNum (id_number w + 1))]);
     (jsonrpc_url,
      JObj [("jsonrpc", JStr "2.0"); ("method", JStr m2); ("params", p2);
            ("id", JNum (id_number w + 2))])] /\
  id_number w2 = (id_number w + 2)%Z.
Proof.
  cbv zeta.
  destruct (send_jsonrpc_run m1 p1 w) as (w1 & H1 & Hs1 & _ & _ & _ & _ & Hid1).
  rewrite H1. cbn [snd].
  destruct (send_jsonrpc_run m2 p2 w1) as (w2 & H2 & Hs2 & _ & _ & _ & _ & Hid2).
  rewrite H2. cbn [snd]. rewrite Hs2, Hs1, Hid2, Hid1, <- app_assoc.
  unfold rpc_payload. cbn [app].
  replace (id_number w + 1 + 1)%Z with (id_number w + 2)%Z by lia.
  split; reflexivity.
Qed.

(** X3: [send_jsonrpc] sets [last_access] to the reading of the clock
    taken after the post when the post returns a response, whatever its
    status, and leaves it as it is when the post raises. *)
Theorem send_jsonrpc_last_access (method : string) (params : Json) (w : World) :
  let w' := snd (JSONRPCRequest.send_jsonrpc method params w) in
  (forall e, net w (List.length (sent w)) = PostRaises e ->
             last_access w' = last_access w) /\
  (forall request, net w (List.length (sent w)) = PostReturns request ->
                   exists k, reads w < k /\ last_access w' = clock w k).
Proof.
  cbv zeta. destruct (send_jsonrpc_effects method params w) as (w' & Hrun & _ & Hlast).
  rewrite Hrun. cbn [snd]. split.
  - intros e He. now rewrite He in Hlast.
  - intros request Hreq. rewrite Hreq in Hlast.
    destruct (Py.Qltb _ 5); eexists; (split; [|exact Hlast]); lia.
Qed.

Lemma send_jsonrpc_last_access_witness :
  last_access (snd (JSONRPCRequest.send_jsonrpc "LMT_handle_jobs" JNull
                                                (sample_world refused)))
  = last_access (sample_world refused).
Proof.
  destruct (send_jsonrpc_last_access "LMT_handle_jobs" JNull (sample_world refused))
    as [H _].
  apply (H ConnectionError). reflexivity.
Defined.

(** X4: [send_jsonrpc] never returns a value for a response whose
    status is not 200: it raises, and when the body holds an error with a
    code it raises [DeeplTranslateException] with that code. *)
Theorem send_jsonrpc_error_status (method : string) (params : Json) (w : World)
    (request : Response) :
  net w (List.length (sent w)) = PostReturns request ->
  status_code request <> 200%Z ->
  (exists e, fst (JSONRPCRequest.send_jsonrpc method params w) = Raise e) /\
  (forall response error code,
     body request = Some response ->
     Py.getitem response "error" = Ok error ->
     Py.getitem error "code" = Ok code ->
     fst (JSONRPCRequest.send_jsonrpc method params w)
     = Raise (DeeplTranslateException code)).
Proof.
  intros Hreq Hstatus.
  destruct (send_jsonrpc_run method params w) as (w' & Hrun & _).
  rewrite Hrun, Hreq. cbn [fst rpc_result].
  apply Z.eqb_neq in Hstatus. rewrite Hstatus. split.
  - unfold json. destruct (body request) as [response|]; cbn [rbind];
      [|eexists; reflexivity].
    destruct (Py.getitem response "error") as [error|]; cbn [rbind];
      [|eexists; reflexivity].
    destruct (Py.getitem error "code"); cbn [rbind]; eexists; reflexivity.
  - intros response error code Hbody Herror Hcode.
    unfold json. rewrite Hbody. cbn [rbind]. rewrite Herror. cbn [rbind].
    rewrite Hcode. reflexivity.
Qed.

Lemma send_jsonrpc_error_status_witness :
  fst (JSONRPCRequest.send_jsonrpc "LMT_handle_jobs" JNull (sample_world throttled))
  = Raise (DeeplTranslateException (JNum 1042911))
  /\ message (DeeplTranslateException (JNum 1042911)) = Some "Too many requests.".
Proof.
  split; [|reflexivity].
  destruct (send_jsonrpc_error_status "LMT_handle_jobs" JNull (sample_world throttled)
              {| status_code := 429;
                 body := Some (JObj [("id", JNum 1);
                                     ("error", JObj [("code", JNum 1042911);
                                                     ("message", JStr "Too many requests")])]) |}
              eq_refl ltac:(discriminate)) as [_ H].
  apply (H _ _ _ eq_refl eq_refl eq_refl).
Defined.

(** X5: for a response with the status 200 [send_jsonrpc] returns the
    [result] entry of the body, and raises [KeyError] when the body is an
    object without one, and [JSONDecodeError] when the body is not JSON;
    an [error] entry of such a response is not looked at. *)
Theorem send_jsonrpc_ok_status (method : string) (params : Json) (w : World)
    (request : Response) :
  net w (List.length (sent w)) = PostReturns request ->
  status_code request = 200%Z ->
  (body request = None ->
   fst (JSONRPCRequest.send_jsonrpc method params w) = Raise JSONDecodeError) /\
  (forall fields, body request = Some (JObj fields) ->
     fst (JSONRPCRequest.send_jsonrpc method params w)
     = match Py.dict_get "result" fields with
       | Some v => Ok v
       | None => Raise (KeyError "result")
       end).
Proof.
  intros Hreq Hstatus.
  destruct (send_jsonrpc_run method params w) as (w' & Hrun & _).
  rewrite Hrun, Hreq. cbn [fst rpc_result]. rewrite Hstatus. cbn [Z.eqb Pos.eqb].
  split.
  - intros Hbody. unfold json. now rewrite Hbody.
  - intros fields Hbody. unfold json. rewrite Hbody. reflexivity.
Qed.

Lemma send_jsonrpc_ok_status_witness :
  fst (JSONRPCRequest.send_jsonrpc "LMT_handle_jobs" JNull
         (sample_world (fun _ => PostReturns {| status_code := 200;
                                                body := Some (JObj [("id", JNum 7)]) |})))
  = Raise (KeyError "result").
Proof.
  destruct (send_jsonrpc_ok_status "LMT_handle_jobs" JNull
              (sample_world (fun _ => PostReturns {| status_code := 200;
                                                     body := Some (JObj [("id", JNum 7)]) |}))
              {| status_code := 200; body := Some (JObj [("id", JNum 7)]) |}
              eq_refl eq_refl) as [_ H].
  apply (H [("id", JNum 7)] eq_refl).
Defined.

(** ** The construction of the session *)

Lemma init_run (r1 r2 : Z) (w : World) :
  exists w',
    JSONRPCRequest_init r1 r2 w
    = (Ok (handshake_id r2 (net w (List.length (sent w)))), w') /\
    last_access w' = 0%Q /\
    sent w' = sent w ++
      [(GetClientState.url,
        GetClientState.request_of
          (JObj [("id", JNum (r1 * 10000 + 1));
                 ("jsonrpc", JStr "2.0");
                 ("method", JStr "getClientState");
                 ("params", JObj [("v", JStr "20180814"); ("clientVars", JObj [])])]))].
Proof.
  unfold JSONRPCRequest_init, GetClientState.get, try_except, handshake_id.
  cbn [GetClientState.dump GetClientState.init GetClientState.id_number].
  cbv [bind post lift ret set_last_access json
       id_number last_access user_preferred_langs clock reads net sent slept warned].
  fold (sent w). fold (net w).
  destruct (net w (List.length (sent w))) as [e|request].
  - eexists. split; [reflexivity|]. split; reflexivity.
  - destruct request as [status [response|]]; cbn [body].
    + destruct (Py.getitem response "id"); eexists; (split; [reflexivity|]);
        split; reflexivity.
    + eexists. split; [reflexivity|]. split; reflexivity.
Qed.

(** X6: the construction of [JSONRPCRequest] never raises.  It posts one
    state request, whose identifier is the draw of the state manager
    times 10000 plus one, and keeps the [id] of the answer, whatever the
    status of the answer; when the post raises, the body is not JSON or
    has no [id], it keeps a made-up identifier, which is one more than a
    multiple of 10000 and lies between 10000001 and 99990001.  It sets
    [last_access] to zero. *)
Theorem init_never_raises (r1 r2 : Z) (w : World) :
  (1000 <= r2 <= 9999)%Z ->
  exists v w',
    JSONRPCRequest_init r1 r2 w = (Ok v, w') /\
    ((exists request response,
        net w (List.length (sent w)) = PostReturns request /\
        body request = Some response /\ Py.getitem response "id" = Ok v)
     \/ (exists n, v = JNum n /\ (10000001 <= n <= 99990001)%Z /\ (n mod 10000 = 1)%Z
                   /\ forall request response,
                        net w (List.length (sent w)) = PostReturns request ->
                        body request = Some response ->
                        Py.getitem response "id" = Raise (KeyError "id")
                        \/ Py.getitem response "id" = Raise TypeError)) /\
    last_access w' = 0%Q /\
    sent w' = sent w ++
      [(GetClientState.url,
        GetClientState.request_of
          (JObj [("id", JNum (r1 * 10000 + 1));
                 ("jsonrpc", JStr "2.0");
                 ("method", JStr "getClientState");
                 ("params", JObj [("v", JStr "20180814"); ("clientVars", JObj [])])]))].
Proof.
  intros Hr.
  destruct (init_run r1 r2 w) as (w' & Hrun & Hlast & Hsent).
  exists (handshake_id r2 (net w (List.length (sent w)))), w'.
  split; [exact Hrun|]. split; [|split; assumption].
  assert (Hrange : (10000001 <= r2 * 10000 + 1 <= 99990001)%Z
                   /\ ((r2 * 10000 + 1) mod 10000 = 1)%Z).
  { split; [lia|]. rewrite Z.add_comm, Z.mod_add by lia. reflexivity. }
  unfold handshake_id.
  destruct (net w (List.length (sent w))) as [e|request].
  - right. eexists. split; [reflexivity|]. split; [apply Hrange|].
    split; [apply Hrange|]. intros ? ? H. discriminate H.
  - destruct (body request) as [response|] eqn:Hbody.
    + destruct (Py.getitem response "id") as [v|e] eqn:Hid.
      * left. exists request, response. repeat split; assumption.
      * right. eexists. split; [reflexivity|]. split; [apply Hrange|].
        split; [apply Hrange|]. intros request' response' Hreq Hbody'.
        inversion Hreq; subst request'. rewrite Hbody in Hbody'.
        inversion Hbody'; subst response'.
        unfold Py.getitem in *. destruct response; try (right; reflexivity).
        destruct (Py.dict_get "id" fields); [discriminate Hid|left; reflexivity].
    + right. eexists. split; [reflexivity|]. split; [apply Hrange|].
      split; [apply Hrange|]. intros request' response' Hreq Hbody'.
      inversion Hreq; subst request'. rewrite Hbody in Hbody'. discriminate Hbody'.
Qed.

Lemma init_never_raises_witness :
  exists v w',
    JSONRPCRequest_init 1234 5678 (sample_world refused) = (Ok v, w')
    /\ last_access w' = 0%Q.
Proof.
  destruct (init_never_raises 1234 5678 (sample_world refused) ltac:(lia))
    as (v & w' & Hv & _ & Hlast & _).
  exists v, w'. split; assumption.
Defined.

(** ** The job builder, again *)

(** X7: every job of [_build_jobs] is of the kind [default] with four
    beams and one sentence, of identifier 0 and empty prefix; a quality
    that is not empty is attached to every job as it is, and an empty
    quality leaves every job without a [quality] entry. *)
Theorem build_jobs_quality (sentences_ : list Json) (quality_ : string) :
  exists jobs,
    _build_jobs (JArr sentences_) quality_ = Ok jobs /\
    Forall (fun job =>
              kind job = "default" /\ preferred_num_beams job = 4%Z /\
              (exists s, sentences job = [{| text := s; id := 0; prefix := EmptyString |}]) /\
              Py.getitem (job_json job) "quality"
              = if String.eqb quality_ EmptyString
                then Raise (KeyError "quality")
                else Ok (JStr quality_))
           jobs.
Proof.
  eexists. split; [apply _build_jobs_eq|].
  apply Forall_map, Forall_forall. intros i _.
  unfold expected_job. cbn [kind preferred_num_beams sentences].
  repeat split; [eexists; reflexivity|].
  unfold job_json. cbn [quality kind preferred_num_beams raw_en_context_after
                        raw_en_context_before sentences].
  destruct (String.eqb quality_ EmptyString); reflexivity.
Qed.

(** X8: the window of [_build_jobs] moves by one sentence from a job to
    the next: the context after of a job is the sentence of the next
    job, and the context before of the next job is the context before of
    this job, without its first sentence when it holds five, followed by
    the sentence of this job. *)
Theorem build_jobs_window_moves (sentences_ : list Json) (quality_ : string)
    (i : nat) :
  S i < List.length sentences_ ->
  exists jobs job next,
    _build_jobs (JArr sentences_) quality_ = Ok jobs /\
    nth_error jobs i = Some job /\ nth_error jobs (S i) = Some next /\
    raw_en_context_after job = map text (sentences next) /\
    raw_en_context_before next
    = (if (4 <? List.length (raw_en_context_before job))%nat
       then tl (raw_en_context_before job)
       else raw_en_context_before job)
      ++ map text (sentences job).
Proof.
  intros Hi.
  exists (map (expected_job sentences_ quality_) (seq 0 (List.length sentences_))),
         (expected_job sentences_ quality_ i),
         (expected_job sentences_ quality_ (S i)).
  split; [apply _build_jobs_eq|].
  assert (Hnth : forall k, k < List.length sentences_ ->
                 nth_error (map (expected_job sentences_ quality_)
                                (seq 0 (List.length sentences_))) k
                 = Some (expected_job sentences_ quality_ k)).
  { intros k Hk. rewrite nth_error_map, nth_error_seq.
    apply Nat.ltb_lt in Hk. rewrite Hk. reflexivity. }
  split; [apply Hnth; lia|]. split; [apply Hnth; lia|].
  cbn [expected_job raw_en_context_after raw_en_context_before sentences map text].
  destruct (nth_error sentences_ i) as [x|] eqn:Ex.
  2:{ apply nth_error_None in Ex. lia. }
  destruct (nth_error sentences_ (S i)) as [y|] eqn:Ey.
  2:{ apply nth_error_None in Ey. lia. }
  split.
  - rewrite following_nth, Ey. now rewrite (nth_error_nth _ _ JNull Ey).
  - rewrite (nth_error_nth _ _ JNull Ex). symmetry. apply window_step. exact Ex.
Qed.

Lemma build_jobs_window_moves_witness :
  exists jobs job next,
    _build_jobs (JArr [JStr "a"; JStr "b"; JStr "c"; JStr "d"; JStr "e"; JStr "f";
                       JStr "g"]) EmptyString
    = Ok jobs /\
    nth_error jobs 5 = Some job /\ nth_error jobs 6 = Some next /\
    raw_en_context_after job = map text (sentences next).
Proof.
  destruct (build_jobs_window_moves
              [JStr "a"; JStr "b"; JStr "c"; JStr "d"; JStr "e"; JStr "f"; JStr "g"]
              EmptyString 5
              ltac:(simpl; lia)) as (jobs & job & next & H1 & H2 & H3 & H4 & _).
  exists jobs, job, next. repeat split; assumption.
Defined.

Lemma sum_counts_raises (items : list Json) (item : Json) :
  In item items -> Py.count item "i"%char = Raise AttributeError ->
  sum_counts items = Raise AttributeError.
Proof.
  induction items as [|x rest IH]; intros Hin Hitem; [destruct Hin|].
  cbn [sum_counts]. destruct Hin as [Heq|Hin].
  - subst x. rewrite Hitem. reflexivity.
  - destruct (Py.count x "i"%char) as [n|e] eqn:Hx; cbn [rbind].
    + rewrite (IH Hin Hitem). reflexivity.
    + destruct x; cbn [Py.count] in Hx; inversion Hx; reflexivity.
Qed.

(** X26: [_build_jobs] takes what the split gave as it is.  For a list
    it builds one job per item and for a [str] one job per character,
    whatever the items are; for a decoded object it builds no job when
    the object is empty and raises [KeyError] otherwise, on
    [sentences[1]]; null, a number and a boolean raise [TypeError].  The
    count of the letters [i] that follows raises [AttributeError] when
    one sentence of a list is null, a number, a boolean or an object. *)
Theorem build_jobs_shapes (sentences_ : Json) (quality_ : string) :
  match sentences_ with
  | JArr items =>
      exists jobs,
        _build_jobs sentences_ quality_ = Ok jobs /\
        flat_map (fun job => map text (sentences job)) jobs = items /\
        ((exists item, In item items /\
                       match item with
                       | JStr _ | JArr _ => False
                       | _ => True
                       end) ->
         i_count sentences_ = Raise AttributeError)
  | JStr s =>
      exists jobs,
        _build_jobs sentences_ quality_ = Ok jobs /\
        flat_map (fun job => map text (sentences job)) jobs = Py.chars s
  | JObj [] => _build_jobs sentences_ quality_ = Ok []
  | JObj (_ :: _) => _build_jobs sentences_ quality_ = Raise (KeyError "1")
  | JNull | JBool _ | JNum _ => _build_jobs sentences_ quality_ = Raise TypeError
  end.
Proof.
  destruct sentences_ as [| | |s|items|fields]; try reflexivity.
  - eexists. split; [now apply (_build_jobs_sequence (JStr s) (Py.chars s))|].
    apply expected_sentences.
  - eexists. split; [apply _build_jobs_eq|]. split; [apply expected_sentences|].
    intros (item & Hin & Hitem). unfold i_count. cbn [Py.iterate rbind].
    rewrite (sum_counts_raises items item Hin); [reflexivity|].
    destruct item; try reflexivity; destruct Hitem.
  - destruct fields as [|[k v] rest]; reflexivity.
Qed.

(** ** The requests of the translator *)

(** X9: [_split_into_sentences] posts one request, of the method
    [LMT_split_into_sentences], whatever the answer; it sends the text
    without the white space at its ends, the source language as the
    language the user selected and, as preferred languages, the
    preferred languages of the translator and the destination language,
    each once. *)
Theorem split_request (text_ destination_language source_language : string)
    (w : World) :
  let w' := snd (_split_into_sentences text_ destination_language source_language w) in
  exists payload params langs,
    posted w w' = [(jsonrpc_url, payload)] /\
    Py.getitem payload "method" = Ok (JStr "LMT_split_into_sentences") /\
    Py.getitem payload "id" = Ok (JNum (id_number w + 1)) /\
    Py.getitem payload "params" = Ok params /\
    Py.getitem params "texts" = Ok (JArr [JStr (Py.strip text_)]) /\
    getpath params ["lang"; "lang_user_selected"] = Ok (JStr source_language) /\
    getpath params ["lang"; "user_preferred_langs"] = Ok (JArr (map JStr langs)) /\
    NoDup langs /\
    (forall l, In l langs <-> In l (user_preferred_langs w) \/ l = destination_language).
Proof.
  cbv zeta.
  destruct (split_run text_ destination_language source_language w)
    as (w' & Hrun & Hsent & _).
  rewrite Hrun. cbn [snd].
  eexists. eexists.
  exists (nodup string_dec (user_preferred_langs w ++ [destination_language])).
  split; [apply posted_app; exact Hsent|].
  repeat split; try reflexivity.
  - apply NoDup_nodup.
  - intros H. apply nodup_In, in_app_or in H. destruct H as [H|[H|[]]]; auto.
  - intros H. apply nodup_In, in_or_app. destruct H as [H|H]; [now left|].
    right. left. now symmetry.
Qed.

(** X10: [_translate] posts two requests at most, the split and then
    the job batch, with identifiers that follow each other; it posts
    nothing when the termbase fails, and it posts the job batch exactly
    when the termbase is built, the split answers, the jobs are built
    from its sentences and their letters [i] counted, and the source
    language is not ['auto'].  So it does when the sentences are a list
    of strings. *)
Theorem translate_posts (text_ destination_language source_language : string)
    (formality : option string) (dictionary : Dictionary) (w : World) :
  let w' := snd (_translate text_ destination_language source_language
                            formality dictionary w) in
  let termbase :=
    fst (build_termbase dictionary text_ source_language destination_language w) in
  List.length (posted w w') <= 2 /\
  (forall e, termbase = Raise e -> posted w w' = []) /\
  (forall fs, termbase = Ok fs ->
     exists payload,
       nth_error (posted w w') 0 = Some (jsonrpc_url, payload) /\
       Py.getitem payload "method" = Ok (JStr "LMT_split_into_sentences") /\
       Py.getitem payload "id" = Ok (JNum (id_number w + 1))) /\
  (forall request, nth_error (posted w w') 1 = Some request ->
     fst request = jsonrpc_url /\
     Py.getitem (snd request) "method" = Ok (JStr "LMT_handle_jobs") /\
     Py.getitem (snd request) "id" = Ok (JNum (id_number w + 2))) /\
  (List.length (posted w w') = 2 <->
   exists fs reply jobs count,
     termbase = Ok fs /\
     split_reply (net w (List.length (sent w))) = Ok reply /\
     _build_jobs (fst reply) EmptyString = Ok jobs /\
     i_count (fst reply) = Ok count /\
     String.eqb source_language "auto" = false) /\
  (forall fs (sentences_ : list string) computed_lang,
     termbase = Ok fs ->
     split_reply (net w (List.length (sent w)))
     = Ok (JArr (map JStr sentences_), computed_lang) ->
     String.eqb source_language "auto" = false ->
     List.length (posted w w') = 2).
Proof.
  cbv zeta.
  destruct (translate_run text_ destination_language source_language formality
              dictionary w) as (w' & k & Hrun & Hsent).
  cbv zeta in Hrun, Hsent. rewrite Hrun. cbn [snd].
  rewrite (posted_app _ _ _ Hsent). unfold translate_log.
  destruct (fst (build_termbase _ _ _ _ w)) as [fs|e].
  2:{ split; [cbn [List.length]; lia|]. split; [reflexivity|].
      split; [intros fs0 H0; discriminate H0|].
      split; [intros request H0; discriminate H0|].
      split; [split; [intros H0; discriminate H0|]|].
      - intros (? & ? & ? & ? & H & _). discriminate H.
      - intros ? ? ? H. discriminate H. }
  assert (Hfirst : forall rest,
    exists payload,
      nth_error ((jsonrpc_url,
                  rpc_payload "LMT_split_into_sentences"
                    (split_params text_ destination_language source_language
                                  (user_preferred_langs w)) (id_number w)) :: rest) 0
      = Some (jsonrpc_url, payload) /\
      Py.getitem payload "method" = Ok (JStr "LMT_split_into_sentences") /\
      Py.getitem payload "id" = Ok (JNum (id_number w + 1))).
  { intros rest. eexists. repeat split. }
  destruct (split_reply _) as [reply|e].
  2:{ split; [cbn [List.length]; lia|]. split; [intros e0 H0; discriminate H0|].
      split; [intros fs0 _; apply Hfirst|].
      split; [intros request H0; discriminate H0|].
      split; [split; [intros H0; discriminate H0|]|].
      - intros (? & ? & ? & ? & _ & H & _). discriminate H.
      - intros ? ? ? _ H. discriminate H. }
  assert (Hstrings : forall (ss : list string) cl,
            Ok reply = Ok (JArr (map JStr ss), cl) ->
            exists jobs count,
              _build_jobs (fst reply) EmptyString = Ok jobs /\
              i_count (fst reply) = Ok count).
  { intros ss cl H. injection H as H. subst reply. cbn [fst].
    rewrite _build_jobs_eq, i_count_strings. eexists. eexists. split; reflexivity. }
  destruct (_build_jobs (fst reply) EmptyString) as [jobs|e] eqn:Hjobs.
  2:{ split; [cbn [List.length]; lia|]. split; [intros e0 H0; discriminate H0|].
      split; [intros fs0 _; apply Hfirst|].
      split; [intros request H0; discriminate H0|].
      split; [split; [intros H0; discriminate H0|]|].
      - intros (? & r & ? & ? & _ & Hr & H & _). inversion Hr; subst r.
        rewrite Hjobs in H. discriminate H.
      - intros ? ss cl _ H _. destruct (Hstrings ss cl H) as (? & ? & H0 & _).
        discriminate H0. }
  destruct (i_count (fst reply)) as [count|e] eqn:Hcount.
  2:{ split; [cbn [List.length]; lia|]. split; [intros e0 H0; discriminate H0|].
      split; [intros fs0 _; apply Hfirst|].
      split; [intros request H0; discriminate H0|].
      split; [split; [intros H0; discriminate H0|]|].
      - intros (? & r & ? & ? & _ & Hr & _ & H & _). inversion Hr; subst r.
        rewrite Hcount in H. discriminate H.
      - intros ? ss cl _ H _. destruct (Hstrings ss cl H) as (? & ? & _ & H0).
        discriminate H0. }
  destruct (String.eqb source_language "auto") eqn:Hauto.
  - split; [cbn [List.length]; lia|]. split; [intros e0 H0; discriminate H0|].
    split; [intros fs0 _; apply Hfirst|].
    split; [intros request H0; discriminate H0|].
    split; [split; [intros H0; discriminate H0|]|].
    + intros (? & ? & ? & ? & _ & _ & _ & _ & H). discriminate H.
    + intros ? ? ? _ _ H. discriminate H.
  - split; [cbn [List.length]; lia|]. split; [intros e0 H0; discriminate H0|].
    split; [intros fs0 _; apply Hfirst|].
    split; [|split].
    + intros request H0. cbn [nth_error] in H0. inversion H0. cbn [fst snd].
      split; [reflexivity|]. split; [reflexivity|].
      unfold rpc_payload. cbn [Py.getitem Py.dict_get String.eqb Ascii.eqb Bool.eqb].
      replace (id_number w + 1 + 1)%Z with (id_number w + 2)%Z by lia.
      reflexivity.
    + split; [|reflexivity].
      intros _. exists fs, reply, jobs, count. repeat split; auto.
    + reflexivity.
Qed.

Lemma translate_posts_witness :
  List.length
    (posted (sample_world bonjour)
       (snd (_translate "Hello. How are you? Bye." "FR" "EN" None (DictStr EmptyString)
                        (sample_world bonjour))))
  = 2.
Proof.
  destruct (translate_posts "Hello. How are you? Bye." "FR" "EN" None
              (DictStr EmptyString) (sample_world bonjour))
    as (_ & _ & _ & _ & _ & H).
  apply (H EmptyString ["Hello."; "How are you?"; "Bye."] (JStr "EN")); reflexivity.
Defined.

(** X11: the job batch of [_translate] carries the jobs of the sentences
    of the split, the destination language as target, the termbase built
    from the glossary, the formality as given and the mode [translate];
    the source language of the call is sent both as the language the
    user selected and as the computed language, whatever language the
    split computed. *)
Theorem translate_job_batch (text_ destination_language source_language : string)
    (formality : option string) (dictionary : Dictionary) (w : World)
    (formated_string : string) (reply : Json * Json) (jobs : list Job) (count : Z) :
  fst (build_termbase dictionary text_ source_language destination_language w)
  = Ok formated_string ->
  split_reply (net w (List.length (sent w))) = Ok reply ->
  _build_jobs (fst reply) EmptyString = Ok jobs ->
  i_count (fst reply) = Ok count ->
  String.eqb source_language "auto" = false ->
  let w' := snd (_translate text_ destination_language source_language
                            formality dictionary w) in
  exists payload params,
    nth_error (posted w w') 1 = Some (jsonrpc_url, payload) /\
    Py.getitem payload "params" = Ok params /\
    Py.getitem params "jobs" = Ok (JArr (map job_json jobs)) /\
    Py.getitem params "priority" = Ok (JNum 1) /\
    getpath params ["lang"; "target_lang"] = Ok (JStr destination_language) /\
    getpath params ["lang"; "source_lang_user_selected"] = Ok (JStr source_language) /\
    getpath params ["lang"; "source_lang_computed"] = Ok (JStr source_language) /\
    getpath params ["commonJobParams"; "mode"] = Ok (JStr "translate") /\
    getpath params ["commonJobParams"; "formality"] = Ok (Py.opt_str formality) /\
    getpath params ["commonJobParams"; "termbase"; "dictionary"]
    = Ok (JStr formated_string).
Proof.
  intros Hterm Hreply Hjobs Hcount Hauto. cbv zeta.
  destruct (translate_run text_ destination_language source_language formality
              dictionary w) as (w' & k & Hrun & Hsent).
  cbv zeta in Hrun, Hsent. rewrite Hrun. cbn [snd].
  rewrite (posted_app _ _ _ Hsent). unfold translate_log.
  rewrite Hterm, Hreply, Hjobs, Hcount, Hauto.
  eexists. eexists.
  split; [reflexivity|]. split; [reflexivity|].
  repeat split.
Qed.

Lemma translate_job_batch_witness :
  exists payload params,
    nth_error
      (posted (sample_world bonjour)
         (snd (_translate "Hello. How are you? Bye." "FR" "EN" (Some "less")
                          (DictStr EmptyString) (sample_world bonjour)))) 1
    = Some (jsonrpc_url, payload) /\
    Py.getitem payload "params" = Ok params /\
    getpath params ["commonJobParams"; "formality"] = Ok (JStr "less").
Proof.
  destruct (translate_job_batch "Hello. How are you? Bye." "FR" "EN" (Some "less")
              (DictStr EmptyString) (sample_world bonjour) EmptyString
              (JArr [JStr "Hello."; JStr "How are you?"; JStr "Bye."], JStr "EN")
              (jobs_of [JStr "Hello."; JStr "How are you?"; JStr "Bye."]) 1%Z
              eq_refl eq_refl eq_refl eq_refl eq_refl)
    as (payload & params & H1 & H2 & _ & _ & _ & _ & _ & _ & H3 & _).
  exists payload, params. repeat split; assumption.
Defined.



(** ** The text of the termbase *)

(** X13: for a glossary that agrees with the call the termbase is made
    of the lines [source TAB target] of the pairs emitted, joined by
    newlines, with no newline at the end; when no word of the glossary
    occurs in the text it is the empty string. *)
Theorem termbase_lines (g : FormatedGlossary.t)
    (text_ source_language destination_language : string)
    (words targets : list string) (w : World) :
  DataFrame.getitem (FormatedGlossary.dataframe g) (PyStr.upper source_language)
  = Ok words ->
  DataFrame.getitem (FormatedGlossary.dataframe g)
                    (PyStr.upper (FormatedGlossary.target_language g))
  = Ok targets ->
  List.length words = List.length targets ->
  PyStr.contains (PyStr.upper source_language) (FormatedGlossary.source_language g)
  = true ->
  PyStr.contains (PyStr.upper destination_language) (FormatedGlossary.target_language g)
  = true ->
  fst (build_termbase (DictGlossary g) text_ source_language destination_language w)
  = Ok (PyStr.join (String PyStr.newline EmptyString)
          (map (fun p => fst p +++ String PyStr.tab EmptyString +++ snd p)
               (firstn 10 (candidates text_ words targets words)))) /\
  ((forall word, In word words -> PyStr.contains word text_ = false) ->
   fst (build_termbase (DictGlossary g) text_ source_language destination_language w)
   = Ok EmptyString).
Proof.
  intros Hwords Htargets Hlength Hsource Htarget.
  pose proof (build_termbase_glossary g text_ source_language destination_language
                words targets Hwords Htargets Hlength Hsource Htarget w) as H.
  rewrite drop_last_render in H. split; [exact H|].
  intros Hnone. rewrite H.
  assert (Hc : forall ws, incl ws words -> candidates text_ words targets ws = []).
  { induction ws as [|word rest IH]; intros Hincl; [reflexivity|].
    cbn [candidates flat_map]. fold (candidates text_ words targets rest).
    unfold candidate. rewrite (Hnone word) by (apply Hincl; now left).
    apply IH. intros x Hx. apply Hincl. now right. }
  rewrite (Hc words (incl_refl words)). reflexivity.
Qed.

Lemma termbase_lines_witness :
  fst (build_termbase (DictGlossary sample_glossary) "xyz" "en" "fr"
                      (sample_world refused))
  = Ok EmptyString.
Proof.
  destruct (termbase_lines sample_glossary "xyz" "en" "fr" sample_words sample_targets
              (sample_world refused) eq_refl eq_refl eq_refl eq_refl eq_refl)
    as [_ H].
  apply H. intros word Hin. cbn in Hin.
  repeat (destruct Hin as [Hin|Hin]; [subst word; reflexivity|]). destruct Hin.
Defined.

(** ** [_language] *)

(** X14: [_language] asks for the split with the source language
    [AUTO], and when the split answers and the jobs of its sentences are
    built and their letters [i] counted, as they are for a list of
    strings, it posts
    a job batch to the target language [FR]: when the split computed a
    language, the batch carries it as the computed source language and
    as a second preferred language; when the split computed none, the
    batch carries [AUTO] as the language the user selected. *)
Theorem language_job_batch (text_ : string) (w : World)
    (reply : Json * Json) (jobs : list Job) (count : Z) :
  split_reply (net w (List.length (sent w))) = Ok reply ->
  _build_jobs (fst reply) EmptyString = Ok jobs ->
  i_count (fst reply) = Ok count ->
  let w' := snd (_language text_ w) in
  exists split_payload payload params,
    posted w w' = [(jsonrpc_url, split_payload); (jsonrpc_url, payload)] /\
    getpath split_payload ["params"; "lang"; "lang_user_selected"] = Ok (JStr "AUTO") /\
    Py.getitem payload "method" = Ok (JStr "LMT_handle_jobs") /\
    Py.getitem payload "params" = Ok params /\
    getpath params ["lang"; "target_lang"] = Ok (JStr "FR") /\
    (snd reply = JNull ->
     getpath params ["lang"; "source_lang_user_selected"] = Ok (JStr "AUTO") /\
     getpath params ["lang"; "user_preferred_langs"] = Ok (JArr [JStr "FR"]) /\
     getpath params ["lang"; "source_lang_computed"]
     = Raise (KeyError "source_lang_computed")) /\
    (snd reply <> JNull ->
     getpath params ["lang"; "source_lang_computed"] = Ok (snd reply) /\
     getpath params ["lang"; "user_preferred_langs"]
     = Ok (JArr [JStr "FR"; snd reply]) /\
     getpath params ["lang"; "source_lang_user_selected"]
     = Raise (KeyError "source_lang_user_selected")).
Proof.
  intros Hreply Hjobs Hcount. cbv zeta.
  destruct (language_run text_ w) as (w' & k & Hrun & Hsent).
  cbv zeta in Hrun, Hsent. rewrite Hrun. cbn [snd].
  rewrite (posted_app _ _ _ Hsent). unfold language_log.
  rewrite Hreply, Hjobs, Hcount.
  eexists. eexists. eexists.
  split; [reflexivity|]. split; [reflexivity|]. split; [reflexivity|].
  split; [reflexivity|]. split; [reflexivity|].
  split.
  - intros Hnull. rewrite Hnull. repeat split.
  - intros Hlang. destruct (snd reply); try (repeat split; fail). now elim Hlang.
Qed.

Lemma language_job_batch_witness :
  exists split_payload payload params,
    posted (sample_world bonjour) (snd (_language "Hello." (sample_world bonjour)))
    = [(jsonrpc_url, split_payload); (jsonrpc_url, payload)] /\
    Py.getitem payload "params" = Ok params /\
    getpath params ["lang"; "source_lang_computed"] = Ok (JStr "EN").
Proof.
  destruct (language_job_batch "Hello." (sample_world bonjour)
              (JArr [JStr "Hello."; JStr "How are you?"; JStr "Bye."], JStr "EN")
              (jobs_of [JStr "Hello."; JStr "How are you?"; JStr "Bye."]) 1%Z
              eq_refl eq_refl eq_refl)
    as (sp & payload & params & H1 & _ & _ & H2 & _ & _ & H3).
  exists sp, payload, params. split; [exact H1|]. split; [exact H2|].
  apply H3. discriminate.
Defined.

(** X15: when the split answers and the jobs of its sentences are
    built and their letters [i] counted, as they are for a list of
    strings, [_language]
    returns the [source_lang] entry of the result of the job batch; it
    returns [None] when the result is null, raises [KeyError] when the
    result is an object without that entry, and raises what the job
    batch raises. *)
Theorem language_result_cases (text_ : string) (w : World)
    (reply : Json * Json) (jobs : list Job) (count : Z) :
  split_reply (net w (List.length (sent w))) = Ok reply ->
  _build_jobs (fst reply) EmptyString = Ok jobs ->
  i_count (fst reply) = Ok count ->
  (forall e, rpc_result (net w (S (List.length (sent w)))) = Raise e ->
             fst (_language text_ w) = Raise e) /\
  (rpc_result (net w (S (List.length (sent w)))) = Ok JNull ->
   fst (_language text_ w) = Ok JNull) /\
  (forall fields,
     rpc_result (net w (S (List.length (sent w)))) = Ok (JObj fields) ->
     fst (_language text_ w)
     = match Py.dict_get "source_lang" fields with
       | Some v => Ok v
       | None => Raise (KeyError "source_lang")
       end).
Proof.
  intros Hreply Hjobs Hcount.
  destruct (language_run text_ w) as (w' & k & Hrun & _).
  cbv zeta in Hrun. rewrite Hrun. cbn [fst]. unfold language_outcome.
  rewrite Hreply. cbn [rbind]. rewrite Hjobs. cbn [rbind].
  rewrite Hcount. cbn [rbind].
  split; [|split].
  - intros e He. now rewrite He.
  - intros Hres. now rewrite Hres.
  - intros fields Hres. rewrite Hres. reflexivity.
Qed.

Lemma language_result_cases_witness :
  fst (_language "Hello. Bye." (sample_world no_source_lang))
  = Raise (KeyError "source_lang").
Proof.
  destruct (language_result_cases "Hello. Bye." (sample_world no_source_lang)
              (JArr [JStr "Hello."; JStr "Bye."], JNull)
              (jobs_of [JStr "Hello."; JStr "Bye."]) 1%Z
              eq_refl eq_refl eq_refl) as (_ & _ & H).
  apply (H [("translations", JArr [translation "Bonjour."])]). reflexivity.
Defined.

(** ** The result of [_translate] *)

Lemma top_texts_raise (objs : list Json) (obj : Json) (e0 : PyExn) :
  In obj objs -> top_text obj = Raise e0 -> exists e, top_texts objs = Raise e.
Proof.
  induction objs as [|x rest IH]; intros Hin Hobj; [destruct Hin|].
  cbn [top_texts]. destruct Hin as [Heq|Hin].
  - subst x. rewrite Hobj. eexists. reflexivity.
  - destruct (top_text x) as [c|e]; cbn [rbind]; [|eexists; reflexivity].
    destruct (IH Hin Hobj) as [e He]. rewrite He.
    destruct (Py.truthy c); cbn [rbind]; eexists; reflexivity.
Qed.

(** X16: when [_translate] reaches the job batch, it returns [None] for
    a null result; for a result without a [source_lang] entry it gives
    the source language of the call as the detected language; and when
    one translation object of the result has no first beam, no first
    sentence or no text, the whole call raises and no text is returned. *)
Theorem translate_result_edges (text_ destination_language source_language : string)
    (formality : option string) (dictionary : Dictionary) (w : World)
    (formated_string : string) (reply : Json * Json) (jobs : list Job) (count : Z) :
  fst (build_termbase dictionary text_ source_language destination_language w)
  = Ok formated_string ->
  split_reply (net w (List.length (sent w))) = Ok reply ->
  _build_jobs (fst reply) EmptyString = Ok jobs ->
  i_count (fst reply) = Ok count ->
  String.eqb source_language "auto" = false ->
  let result :=
    fst (_translate text_ destination_language source_language formality
                    dictionary w) in
  (rpc_result (net w (S (List.length (sent w)))) = Ok JNull -> result = Ok None) /\
  (forall fields objs texts,
     rpc_result (net w (S (List.length (sent w)))) = Ok (JObj fields) ->
     Py.dict_get "source_lang" fields = None ->
     Py.dict_get "translations" fields = Some (JArr objs) ->
     Forall2 (fun obj t => top_text obj = Ok (JStr t)) objs texts ->
     exists joined, result = Ok (Some (JStr source_language, joined))) /\
  (forall fields objs obj e0,
     rpc_result (net w (S (List.length (sent w)))) = Ok (JObj fields) ->
     Py.dict_get "translations" fields = Some (JArr objs) ->
     In obj objs -> top_text obj = Raise e0 ->
     exists e, result = Raise e).
Proof.
  intros Hterm Hreply Hjobs Hcount Hauto. cbv zeta.
  destruct (translate_run text_ destination_language source_language formality
              dictionary w) as (w' & k & Hrun & _).
  cbv zeta in Hrun. rewrite Hrun. cbn [fst]. unfold translate_outcome.
  rewrite Hterm, Hreply. cbn [rbind]. rewrite Hjobs. cbn [rbind].
  rewrite Hcount. cbn [rbind]. rewrite Hauto.
  split; [|split].
  - intros Hres. rewrite Hres. reflexivity.
  - intros fields objs texts Hres Hsrc Htr Htexts. rewrite Hres. cbn [rbind].
    eexists.
    rewrite (reassemble_joins source_language (JObj fields) objs texts).
    + cbn [Py.getitem]. rewrite Hsrc. reflexivity.
    + cbn [Py.getitem]. now rewrite Htr.
    + exact Htexts.
  - intros fields objs obj e0 Hres Htr Hin Hobj. rewrite Hres. cbn [rbind].
    unfold reassemble. cbn [Py.getitem]. rewrite Htr. cbn [rbind Py.iterate].
    destruct (top_texts_raise objs obj e0 Hin Hobj) as [e He].
    rewrite He. eexists. reflexivity.
Qed.

Lemma translate_result_edges_witness :
  exists joined,
    fst (_translate "Hello. Bye." "FR" "EN" None (DictStr EmptyString)
                    (sample_world no_source_lang))
    = Ok (Some (JStr "EN", joined)).
Proof.
  destruct (translate_result_edges "Hello. Bye." "FR" "EN" None (DictStr EmptyString)
              (sample_world no_source_lang) EmptyString
              (JArr [JStr "Hello."; JStr "Bye."], JNull)
              (jobs_of [JStr "Hello."; JStr "Bye."]) 1%Z
              eq_refl eq_refl eq_refl eq_refl eq_refl) as (_ & H & _).
  apply (H [("translations", JArr [translation "Bonjour."])]
           [translation "Bonjour."] ["Bonjour."]); try reflexivity.
  repeat constructor.
Defined.

(** ** The loader of glossaries *)

Lemma str_in_In (x : string) (l : list string) : str_in x l = true <-> In x l.
Proof.
  unfold str_in. rewrite existsb_exists. split.
  - intros (y & Hy & E). apply String.eqb_eq in E. now subst y.
  - intros H. exists x. split; [exact H|apply String.eqb_refl].
Qed.

(** The eight checks of the combinations never fire once the two
    languages are glossary languages and differ. *)
Lemma combinations_pass (s t : string) :
  str_in s _glossary_supported_languages = true ->
  str_in t _glossary_supported_languages = true ->
  String.eqb s t = false ->
  (String.eqb s "EN" && negb (str_in t ["FR"; "DE"; "ES"; "IT"; "PL"; "JA"; "NL"]) = false) /\
  (String.eqb s "FR" && negb (str_in t ["EN"; "DE"; "ES"; "IT"; "PL"; "JA"; "NL"]) = false) /\
  (String.eqb s "DE" && negb (str_in t ["EN"; "FR"; "ES"; "IT"; "PL"; "JA"; "NL"]) = false) /\
  (String.eqb s "ES" && negb (str_in t ["EN"; "FR"; "DE"; "IT"; "PL"; "JA"; "NL"]) = false) /\
  (String.eqb s "IT" && negb (str_in t ["EN"; "FR"; "DE"; "ES"; "PL"; "JA"; "NL"]) = false) /\
  (String.eqb s "PL" && negb (str_in t ["EN"; "FR"; "DE"; "ES"; "IT"; "JA"; "NL"]) = false) /\
  (String.eqb s "JA" && negb (str_in t ["EN"; "FR"; "DE"; "ES"; "IT"; "PL"; "NL"]) = false) /\
  (String.eqb s "NL" && negb (str_in t ["EN"; "FR"; "DE"; "ES"; "IT"; "PL"; "JA"]) = false).
Proof.
  intros Hs Ht Hne.
  apply str_in_In in Hs. apply str_in_In in Ht.
  cbn [_glossary_supported_languages In] in Hs, Ht.
  repeat (destruct Hs as [Hs|Hs]; [subst s|]); try (destruct Hs);
    repeat (destruct Ht as [Ht|Ht]; [subst t|]); try (destruct Ht);
    try discriminate Hne; repeat split; reflexivity.
Qed.

Lemma getitem_select_rows (df : DataFrame.t) (name : string) (rows : list nat) :
  DataFrame.getitem (DataFrame.select_rows df rows) name
  = let? col := DataFrame.getitem df name in Ok (pick_rows col rows).
Proof.
  induction df as [|[n cells] rest IH]; [reflexivity|].
  cbn [DataFrame.select_rows map DataFrame.getitem fst snd].
  destruct (String.eqb name n); [reflexivity|exact IH].
Qed.









Lemma getitem_raises_KeyError (df : DataFrame.t) (name : string) (e : PyExn) :
  DataFrame.getitem df name = Raise e -> e = KeyError name.
Proof.
  induction df as [|[n cells] rest IH]; cbn [DataFrame.getitem].
  - intros H. now inversion H.
  - destruct (String.eqb name n); [discriminate|exact IH].
Qed.


Lemma getitem_labelled (df : DataFrame.t) (name : string) :
  DataFrame.getitem df name
  = match DataFrame.labelled df name with
    | [] => Raise (KeyError name)
    | key :: _ => Ok key
    end.
Proof.
  unfold DataFrame.labelled.
  induction df as [|[n cells] rest IH]; [reflexivity|].
  cbn [DataFrame.getitem filter fst]. destruct (String.eqb name n); [reflexivity|exact IH].
Qed.

(** What the loader does once the two languages are accepted and the
    file is read. *)
Lemma load_run (df : DataFrame.t) (source_language target_language : string)
    (w : World) :
  let s := PyStr.upper source_language in
  let t := PyStr.upper target_language in
  let csv := DataFrame.upper_columns df in
  str_in s _glossary_supported_languages = true ->
  str_in t _glossary_supported_languages = true ->
  String.eqb s t = false ->
  match DataFrame.labelled csv s with
  | [] =>
      load_glossary_from_csv (Ok df) source_language target_language w
      = (Raise (DeeplTranslateException (JNum 5010)), w)
  | [key] =>
      let sorted := pick_rows key (DataFrame.sorted_rows key) in
      let csv1 := DataFrame.select_rows csv (DataFrame.sorted_rows key) in
      if DataFrame.is_unique sorted
      then
        load_glossary_from_csv (Ok df) source_language target_language w
        = (Ok {| FormatedGlossary.dataframe := csv1;
                 FormatedGlossary.source_language := s;
                 FormatedGlossary.target_language := t |}, w)
      else
        exists w',
          load_glossary_from_csv (Ok df) source_language target_language w
          = (Ok {| FormatedGlossary.dataframe :=
                     DataFrame.select_rows csv1 (DataFrame.last_rows_from 0 sorted);
                   FormatedGlossary.source_language := s;
                   FormatedGlossary.target_language := t |}, w') /\
          warned w' = warned w ++ [duplicate_warning]
  | _ :: _ :: _ =>
      load_glossary_from_csv (Ok df) source_language target_language w
      = (Raise ValueError, w)
  end.
Proof.
  cbv zeta. intros Hs Ht Hne.
  destruct (combinations_pass _ _ Hs Ht Hne)
    as (H1 & H2 & H3 & H4 & H5 & H6 & H7 & H8).
  unfold load_glossary_from_csv. cbv zeta.
  rewrite Hs, Ht, Hne. cbn [negb orb].
  rewrite bind_lift, H1, H2, H3, H4, H5, H6, H7, H8.
  cbv [bind try_except_KeyError lift ret raise raise_code
       DataFrame.sort_values DataFrame.drop_duplicates].
  pose proof (getitem_labelled (DataFrame.upper_columns df)
                               (PyStr.upper source_language)) as Hkey.
  destruct (DataFrame.labelled (DataFrame.upper_columns df)
                               (PyStr.upper source_language)) as [|key [|key' more]].
  - reflexivity.
  - rewrite getitem_select_rows, Hkey. cbn [rbind].
    destruct (DataFrame.is_unique _) eqn:Hu; cbn [negb].
    + reflexivity.
    + cbn [warn].
      eexists. split; reflexivity.
  - reflexivity.
Qed.

Lemma load_unsupported (read_csv : Result DataFrame.t)
    (source_language target_language : string) (w : World) :
  str_in (PyStr.upper source_language) _glossary_supported_languages = false
  \/ str_in (PyStr.upper target_language) _glossary_supported_languages = false ->
  load_glossary_from_csv read_csv source_language target_language w
  = (Raise (DeeplTranslateException (JNum 5000)), w).
Proof.
  unfold load_glossary_from_csv. cbv zeta.
  intros [H|H]; rewrite H; cbn [negb orb]; [reflexivity|].
  now rewrite orb_true_r.
Qed.

Lemma load_same_language (read_csv : Result DataFrame.t)
    (source_language target_language : string) (w : World) :
  str_in (PyStr.upper source_language) _glossary_supported_languages = true ->
  PyStr.upper source_language = PyStr.upper target_language ->
  load_glossary_from_csv read_csv source_language target_language w
  = (Raise (DeeplTranslateException (JNum 5001)), w).
Proof.
  unfold load_glossary_from_csv. cbv zeta.
  intros Hs Heq. rewrite <- Heq, Hs. cbn [negb orb].
  now rewrite String.eqb_refl.
Qed.










(** ** The Bing translator *)

Lemma bing_translate_run (text_ destination_language : string)
    (source : BingTranslate.Source) (w : World) :
  exists w',
    BingTranslate.translate text_ destination_language source w
    = (Ok (bing_outcome (net w (List.length (sent w)))), w') /\
    sent w' = sent w ++
      [(Bing.translate_url,
        Bing.request_of (JObj [("text", JStr text_);
                               ("fromLang", JStr (bing_from_lang source));
                               ("to", JStr destination_language)]))].
Proof.
  unfold BingTranslate.translate, try_except, bing_outcome, bing_parse.
  fold (bing_from_lang source).
  unfold bind at 1. unfold post at 1.
  destruct (net w (List.length (sent w))) as [e|request];
    [eexists; split; reflexivity|].
  destruct (status_code request <? 400)%Z; [|eexists; split; reflexivity].
  rewrite bind_lift. destruct (json request) as [data|e]; cbn [rbind];
    [|eexists; split; reflexivity].
  rewrite bind_lift. destruct (Py.getitem0 data) as [first|e]; cbn [rbind];
    [|eexists; split; reflexivity].
  rewrite bind_lift.
  destruct (Py.getitem first "detectedLanguage") as [detected|e]; cbn [rbind];
    [|eexists; split; reflexivity].
  rewrite bind_lift.
  destruct (Py.getitem detected "language") as [lang|e]; cbn [rbind];
    [|eexists; split; reflexivity].
  rewrite bind_lift.
  destruct (Py.getitem first "translations") as [translations|e]; cbn [rbind];
    [|eexists; split; reflexivity].
  rewrite bind_lift.
  destruct (Py.getitem0 translations) as [tr|e]; cbn [rbind];
    [|eexists; split; reflexivity].
  rewrite bind_lift.
  destruct (Py.getitem tr "text") as [translated|e]; cbn [rbind];
    eexists; split; reflexivity.
Qed.

(** X23: [BingTranslate.translate] posts one request, with the source
    language [auto-detect] when none is given and the Bing code of a
    [Language] object; for an answer of a status below 400 whose body
    has the expected shape it returns the detected language and the
    text of the first translation of the first entry. *)
Theorem bing_translate_reads (text_ destination_language : string)
    (source : BingTranslate.Source) (w : World) :
  let w' := snd (BingTranslate.translate text_ destination_language source w) in
  posted w w'
  = [(Bing.translate_url,
      Bing.request_of
        (JObj [("text", JStr text_);
               ("fromLang",
                JStr match source with
                     | BingTranslate.SourceNone => "auto-detect"
                     | BingTranslate.SourceLanguage l => Language.bing_translate l
                     | BingTranslate.SourceStr s => s
                     end);
               ("to", JStr destination_language)]))] /\
  (forall request data first detected lang translations tr translated,
     net w (List.length (sent w)) = PostReturns request ->
     (status_code request < 400)%Z ->
     body request = Some data ->
     Py.getitem0 data = Ok first ->
     Py.getitem first "detectedLanguage" = Ok detected ->
     Py.getitem detected "language" = Ok lang ->
     Py.getitem first "translations" = Ok translations ->
     Py.getitem0 translations = Ok tr ->
     Py.getitem tr "text" = Ok translated ->
     fst (BingTranslate.translate text_ destination_language source w)
     = Ok (lang, translated)).
Proof.
  cbv zeta.
  destruct (bing_translate_run text_ destination_language source w)
    as (w' & Hrun & Hsent).
  rewrite Hrun. cbn [fst snd]. split; [apply posted_app; exact Hsent|].
  intros request data first detected lang translations tr translated
         Hreq Hstatus Hbody H0 H1 H2 H3 H4 H5.
  rewrite Hreq. unfold bing_outcome, bing_parse, json.
  apply Z.ltb_lt in Hstatus. rewrite Hstatus, Hbody. cbn [rbind].
  rewrite H0. cbn [rbind]. rewrite H1. cbn [rbind]. rewrite H2. cbn [rbind].
  rewrite H3. cbn [rbind]. rewrite H4. cbn [rbind]. rewrite H5. reflexivity.
Qed.

Lemma bing_translate_reads_witness :
  fst (BingTranslate.translate "Hello" "fr" BingTranslate.SourceNone
                               (sample_world bing_answer))
  = Ok (JStr "en", JStr "Bonjour").
Proof.
  destruct (bing_translate_reads "Hello" "fr" BingTranslate.SourceNone
              (sample_world bing_answer)) as [_ H].
  eapply H; try reflexivity; try lia.
Defined.

Lemma bing_language_run (text_ : string) (w : World) :
  exists w',
    Bing.language text_ w
    = (Ok (match net w (List.length (sent w)) with
           | PostRaises _ => JNull
           | PostReturns request =>
               if (status_code request <? 400)%Z
               then
                 match (let? data := json request in
                        let? first := Py.getitem0 data in
                        let? detected := Py.getitem first "detectedLanguage" in
                        Py.getitem detected "language") with
                 | Ok lang => lang
                 | Raise _ => JNull
                 end
               else JNull
           end), w') /\
    sent w' = sent w ++
      [(Bing.translate_url,
        Bing.request_of (JObj [("text", JStr text_);
                               ("fromLang", JStr "auto-detect");
                               ("to", JStr "en")]))] /\
    net w' = net w.
Proof.
  unfold Bing.language, try_except.
  unfold bind at 1. unfold post at 1.
  destruct (net w (List.length (sent w))) as [e|request];
    [eexists; repeat split|].
  destruct (status_code request <? 400)%Z; [|eexists; repeat split].
  rewrite bind_lift. destruct (json request) as [data|e]; cbn [rbind];
    [|eexists; repeat split].
  rewrite bind_lift. destruct (Py.getitem0 data) as [first|e]; cbn [rbind];
    [|eexists; repeat split].
  rewrite bind_lift.
  destruct (Py.getitem first "detectedLanguage") as [detected|e]; cbn [rbind];
    [|eexists; repeat split].
  unfold lift.
  destruct (Py.getitem detected "language") as [lang|e];
    eexists; repeat split.
Qed.

(** X21: [BingTranslate.language] never raises; it posts the request
    that [translate] posts for the same text with no source language
    and the destination [en]; it returns [None] when the post raises,
    when the status is 400 or more and when the body is not JSON, and
    whenever [translate] returns a detected language for the answer it
    returns that language. *)
Theorem bing_language_soft (text_ : string) (w : World) :
  let w' := snd (Bing.language text_ w) in
  (exists v, fst (Bing.language text_ w) = Ok v) /\
  posted w w'
  = posted w (snd (BingTranslate.translate text_ "en" BingTranslate.SourceNone w)) /\
  (forall e, net w (List.length (sent w)) = PostRaises e ->
             fst (Bing.language text_ w) = Ok JNull) /\
  (forall request, net w (List.length (sent w)) = PostReturns request ->
     (400 <= status_code request)%Z \/ body request = None ->
     fst (Bing.language text_ w) = Ok JNull) /\
  (forall request data lang translated,
     net w (List.length (sent w)) = PostReturns request ->
     (status_code request < 400)%Z ->
     body request = Some data ->
     bing_parse data = Ok (lang, translated) ->
     fst (BingTranslate.translate text_ "en" BingTranslate.SourceNone w)
     = Ok (lang, translated)
     /\ fst (Bing.language text_ w) = Ok lang).
Proof.
  cbv zeta.
  destruct (bing_language_run text_ w) as (w' & Hrun & Hsent & _).
  destruct (bing_translate_run text_ "en" BingTranslate.SourceNone w)
    as (w2 & Hrun2 & Hsent2).
  rewrite Hrun, Hrun2. cbn [fst snd].
  split; [eexists; reflexivity|].
  split; [now rewrite (posted_app _ _ _ Hsent), (posted_app _ _ _ Hsent2)|].
  split; [|split].
  - intros e He. now rewrite He.
  - intros request Hreq [Hstatus|Hbody]; rewrite Hreq.
    + apply Z.ltb_ge in Hstatus. now rewrite Hstatus.
    + unfold json. rewrite Hbody. cbn [rbind].
      now destruct (status_code request <? 400)%Z.
  - intros request data lang translated Hreq Hstatus Hbody Hparse.
    rewrite Hreq. unfold bing_outcome, json.
    apply Z.ltb_lt in Hstatus. rewrite Hstatus, Hbody. cbn [rbind].
    rewrite Hparse. split; [reflexivity|].
    unfold bing_parse in Hparse.
    destruct (Py.getitem0 data) as [first|]; cbn [rbind] in *; [|discriminate].
    destruct (Py.getitem first "detectedLanguage") as [detected|]; cbn [rbind] in *;
      [|discriminate].
    destruct (Py.getitem detected "language") as [l|]; cbn [rbind] in *;
      [|discriminate].
    destruct (Py.getitem first "translations") as [trs|]; cbn [rbind] in *;
      [|discriminate].
    destruct (Py.getitem0 trs) as [tr|]; cbn [rbind] in *; [|discriminate].
    destruct (Py.getitem tr "text") as [t|]; cbn [rbind] in *; [|discriminate].
    now inversion Hparse.
Qed.

Lemma bing_language_soft_witness :
  fst (Bing.language "Hello" (sample_world bing_answer)) = Ok (JStr "en")
  /\ fst (Bing.language "Hello" (sample_world refused)) = Ok JNull.
Proof.
  split.
  - destruct (bing_language_soft "Hello" (sample_world bing_answer))
      as (_ & _ & _ & _ & H).
    eapply H; try reflexivity; try lia.
  - destruct (bing_language_soft "Hello" (sample_world refused))
      as (_ & _ & H & _).
    apply (H ConnectionError). reflexivity.
Defined.

Lemma spellcheck_request_run (str_ : Json -> string) (text_ : string)
    (source_language : Json) (w : World) :
  exists w',
    Bing.spellcheck_request str_ text_ source_language w
    = (match net w (List.length (sent w)) with
       | PostRaises e => Raise e
       | PostReturns request =>
           if (status_code request <? 400)%Z
           then
             let? data := json request in
             let? result := Py.getitem data "correctedText" in
             Ok (source_language,
                 if Bing.is_empty_str result then JStr text_ else result)
           else Ok (JNull, JNull)
       end, w') /\
    sent w' = sent w ++
      [(Bing.spellcheck_url,
        Bing.request_of (JObj [("text", JStr text_);
                               ("fromLang", JStr (str_ source_language))]))].
Proof.
  unfold Bing.spellcheck_request.
  unfold bind at 1. unfold post at 1.
  destruct (net w (List.length (sent w))) as [e|request];
    [eexists; split; reflexivity|].
  destruct (status_code request <? 400)%Z; [|eexists; split; reflexivity].
  rewrite bind_lift. destruct (json request) as [data|e]; cbn [rbind];
    [|eexists; split; reflexivity].
  rewrite bind_lift. destruct (Py.getitem data "correctedText") as [result|e];
    cbn [rbind]; [|eexists; split; reflexivity].
  destruct (Bing.is_empty_str result); eexists; split; reflexivity.
Qed.

(** X22: [BingTranslate.spellcheck] never raises.  With a source
    language given it posts one request, and for an answer of a status
    below 400 it returns the source language with the corrected text, or
    with the text it was given when the corrected text is the empty
    string.  Without a source language it first asks [language], and
    when that returns [None] it returns the pair of nulls without a
    second request. *)
Theorem bing_spellcheck_soft (str_ : Json -> string) (text_ : string)
    (source_language : option string) (w : World) :
  let w' := snd (Bing.spellcheck str_ text_ source_language w) in
  (exists answer, fst (Bing.spellcheck str_ text_ source_language w) = Ok answer) /\
  (forall s request data result,
     source_language = Some s ->
     net w (List.length (sent w)) = PostReturns request ->
     (status_code request < 400)%Z ->
     body request = Some data ->
     Py.getitem data "correctedText" = Ok result ->
     fst (Bing.spellcheck str_ text_ source_language w)
     = Ok (JStr s, if Bing.is_empty_str result then JStr text_ else result)
     /\ posted w w'
        = [(Bing.spellcheck_url,
            Bing.request_of (JObj [("text", JStr text_);
                                   ("fromLang", JStr (str_ (JStr s)))]))]) /\
  (source_language = None ->
   fst (Bing.language text_ w) = Ok JNull ->
   fst (Bing.spellcheck str_ text_ source_language w) = Ok (JNull, JNull)
   /\ posted w w' = posted w (snd (Bing.language text_ w))
   /\ List.length (posted w w') = 1).
Proof.
  cbv zeta. split; [|split].
  - unfold Bing.spellcheck, try_except.
    match goal with
    | |- exists _, fst (match ?b with _ => _ end) = _ =>
        destruct b as [[answer|e] w']
    end; eexists; reflexivity.
  - intros s request data result Hs Hreq Hstatus Hbody Hresult. subst source_language.
    destruct (spellcheck_request_run str_ text_ (JStr s) w) as (w' & Hrun & Hsent).
    assert (Hsp : Bing.spellcheck str_ text_ (Some s) w
                  = (Ok (JStr s, if Bing.is_empty_str result then JStr text_ else result),
                     w')).
    { unfold Bing.spellcheck, try_except.
      rewrite Hrun, Hreq. apply Z.ltb_lt in Hstatus. rewrite Hstatus.
      unfold json. rewrite Hbody. cbn [rbind]. rewrite Hresult. reflexivity. }
    rewrite Hsp. cbn [fst snd].
    split; [reflexivity|]. apply posted_app. exact Hsent.
  - intros Hs Hlang. subst source_language.
    destruct (bing_language_run text_ w) as (w1 & Hrun & Hsent & _).
    rewrite Hrun in Hlang. cbn [fst] in Hlang. injection Hlang as Hnull.
    assert (Hsp : Bing.spellcheck str_ text_ None w = (Ok (JNull, JNull), w1)).
    { unfold Bing.spellcheck, try_except, bind. rewrite Hrun, Hnull. reflexivity. }
    rewrite Hsp, Hrun. cbn [fst snd]. rewrite (posted_app _ _ _ Hsent).
    repeat split.
Qed.

Lemma bing_spellcheck_soft_witness :
  fst (Bing.spellcheck sample_str "Helo" (Some "en") (sample_world nothing_to_correct))
  = Ok (JStr "en", JStr "Helo")
  /\ fst (Bing.spellcheck sample_str "Helo" None (sample_world refused))
     = Ok (JNull, JNull).
Proof.
  split.
  - destruct (bing_spellcheck_soft sample_str "Helo" (Some "en")
                (sample_world nothing_to_correct)) as (_ & H & _).
    destruct (H "en" {| status_code := 200;
                        body := Some (JObj [("correctedText", JStr EmptyString)]) |}
                (JObj [("correctedText", JStr EmptyString)]) (JStr EmptyString)
                eq_refl eq_refl eq_refl eq_refl eq_refl) as [Hfst _].
    exact Hfst.
  - destruct (bing_spellcheck_soft sample_str "Helo" None (sample_world refused))
      as (_ & _ & H).
    apply H; reflexivity.
Defined.

(** ** The loader and the matcher together *)

Lemma startswith_refl (s : string) : PyStr.startswith s s = true.
Proof.
  induction s as [|c s IH]; [reflexivity|].
  cbn [PyStr.startswith]. now rewrite Ascii.eqb_refl, IH.
Qed.

Lemma contains_refl (s : string) : PyStr.contains s s = true.
Proof. destruct s; cbn [PyStr.contains]; now rewrite startswith_refl. Qed.

Lemma glossary_step_no_match (g : FormatedGlossary.t) (text_ source_language : string)
    (st : Z * string) (word : string) (w : World) :
  PyStr.contains word text_ = false ->
  glossary_step g text_ source_language st word w = (Ok st, w).
Proof.
  intros H. destruct st as [limit fs]. unfold glossary_step.
  rewrite H. reflexivity.
Qed.

Lemma glossary_loop_no_match (g : FormatedGlossary.t) (text_ source_language : string)
    (ws : list string) :
  forall (st : Z * string) (w : World),
    (forall word, In word ws -> PyStr.contains word text_ = false) ->
    glossary_loop g text_ source_language st ws w = (Ok st, w).
Proof.
  induction ws as [|word rest IH]; intros st w H; [reflexivity|].
  cbn [glossary_loop].
  rewrite (bind_ok _ _ _ _ _ (glossary_step_no_match g text_ source_language st word w
                                (H word (or_introl eq_refl)))).
  apply IH. intros x Hx. apply H. now right.
Qed.

Lemma load_ok_inv (df : DataFrame.t) (source_language target_language : string)
    (w : World) (g : FormatedGlossary.t) :
  fst (load_glossary_from_csv (Ok df) source_language target_language w) = Ok g ->
  FormatedGlossary.source_language g = PyStr.upper source_language /\
  FormatedGlossary.target_language g = PyStr.upper target_language /\
  exists words,
    DataFrame.getitem (FormatedGlossary.dataframe g) (PyStr.upper source_language)
    = Ok words.
Proof.
  intros H.
  destruct (str_in (PyStr.upper source_language) _glossary_supported_languages) eqn:Hs.
  2:{ rewrite load_unsupported in H by (now left). discriminate H. }
  destruct (str_in (PyStr.upper target_language) _glossary_supported_languages) eqn:Ht.
  2:{ rewrite load_unsupported in H by (now right). discriminate H. }
  destruct (String.eqb (PyStr.upper source_language) (PyStr.upper target_language))
    eqn:Hne.
  { apply String.eqb_eq in Hne.
    rewrite (load_same_language _ _ _ _ Hs Hne) in H. discriminate H. }
  pose proof (load_run df source_language target_language w Hs Ht Hne) as Hrun.
  cbv zeta in Hrun.
  pose proof (getitem_labelled (DataFrame.upper_columns df)
                               (PyStr.upper source_language)) as Hkey.
  destruct (DataFrame.labelled (DataFrame.upper_columns df)
                               (PyStr.upper source_language)) as [|key [|key' more]].
  1,3: rewrite Hrun in H; discriminate H.
  destruct (DataFrame.is_unique _).
  - rewrite Hrun in H. cbn [fst] in H. inversion H. subst g.
    cbn [FormatedGlossary.source_language FormatedGlossary.target_language
         FormatedGlossary.dataframe].
    repeat split. eexists. rewrite getitem_select_rows, Hkey. reflexivity.
  - destruct Hrun as (w' & Hrun & _). rewrite Hrun in H. cbn [fst] in H.
    inversion H. subst g.
    cbn [FormatedGlossary.source_language FormatedGlossary.target_language
         FormatedGlossary.dataframe].
    repeat split. eexists. rewrite !getitem_select_rows, Hkey. reflexivity.
Qed.

(** X24: a glossary that the loader returns agrees with a call of
    [_translate] for the languages it was loaded with: the check of the
    languages passes and the source column is found, so that for a text
    in which no word of the glossary occurs the termbase is the empty
    string, with no warning. *)
Theorem loaded_glossary_agrees (df : DataFrame.t)
    (source_language target_language text_ : string)
    (w w1 : World) (g : FormatedGlossary.t) :
  fst (load_glossary_from_csv (Ok df) source_language target_language w) = Ok g ->
  exists words,
    DataFrame.getitem (FormatedGlossary.dataframe g) (PyStr.upper source_language)
    = Ok words /\
    PyStr.contains (PyStr.upper source_language) (FormatedGlossary.source_language g)
    = true /\
    PyStr.contains (PyStr.upper target_language) (FormatedGlossary.target_language g)
    = true /\
    ((forall word, In word words -> PyStr.contains word text_ = false) ->
     build_termbase (DictGlossary g) text_ source_language target_language w1
     = (Ok EmptyString, w1)).
Proof.
  intros H. destruct (load_ok_inv _ _ _ _ _ H) as (Hs & Ht & words & Hwords).
  exists words. rewrite Hs, Ht, !contains_refl.
  split; [exact Hwords|]. split; [reflexivity|]. split; [reflexivity|].
  intros Hnone. unfold build_termbase. cbn [dictionary_ne_empty glossary_of].
  rewrite bind_lift, Hs, Ht, !contains_refl. cbn [negb orb].
  rewrite bind_lift, Hwords.
  rewrite (bind_ok _ _ _ _ _ (glossary_loop_no_match g text_ source_language words
                                (10%Z, EmptyString) w1 Hnone)).
  reflexivity.
Qed.

Lemma loaded_glossary_agrees_witness :
  exists g words,
    fst (load_glossary_from_csv (Ok [("en", ["cat"; "dog"]); ("fr", ["chat"; "chien"])])
                                "en" "fr" (sample_world refused))
    = Ok g /\
    DataFrame.getitem (FormatedGlossary.dataframe g) (PyStr.upper "en") = Ok words /\
    PyStr.contains (PyStr.upper "en") (FormatedGlossary.source_language g) = true.
Proof.
  eexists.
  destruct (loaded_glossary_agrees [("en", ["cat"; "dog"]); ("fr", ["chat"; "chien"])]
              "en" "fr" "a bird" (sample_world refused) (sample_world refused)
              _ eq_refl) as (words & H1 & H2 & _).
  exists words. split; [reflexivity|]. split; assumption.
Defined.

Lemma glossary_loop_missing_target (g : FormatedGlossary.t)
    (text_ source_language : string) (words : list string) (e : PyExn) (ws : list string) :
  DataFrame.getitem (FormatedGlossary.dataframe g) (PyStr.upper source_language)
  = Ok words ->
  DataFrame.getitem (FormatedGlossary.dataframe g)
                    (PyStr.upper (FormatedGlossary.target_language g))
  = Raise e ->
  forall (limit : Z) (fs : string) (w : World),
    (0 < limit)%Z ->
    (exists word, In word ws /\ PyStr.contains word text_ = true) ->
    glossary_loop g text_ source_language (limit, fs) ws w = (Raise e, w).
Proof.
  intros Hwords Htargets. induction ws as [|word rest IH]; intros limit fs w Hlimit Hex.
  - destruct Hex as (x & [] & _).
  - cbn [glossary_loop].
    destruct (PyStr.contains word text_) eqn:Hc.
    + apply bind_raise. unfold glossary_step. rewrite Hc.
      apply Z.gtb_lt in Hlimit. rewrite Hlimit. cbn [andb].
      unfold bind at 1. rewrite bind_lift, Hwords. cbv beta iota.
      rewrite bind_lift, Htargets. reflexivity.
    + rewrite (bind_ok _ _ _ _ _ (glossary_step_no_match g text_ source_language
                                    (limit, fs) word w Hc)).
      apply IH; [exact Hlimit|].
      destruct Hex as (x & [Hx|Hx] & Hcx); [subst x; congruence|].
      exists x. split; assumption.
Qed.

Lemma getitem_missing (df : DataFrame.t) (name : string) :
  (forall c, In c df -> fst c <> name) ->
  DataFrame.getitem df name = Raise (KeyError name).
Proof.
  induction df as [|[n cells] rest IH]; intros H; [reflexivity|].
  cbn [DataFrame.getitem]. destruct (String.eqb name n) eqn:E.
  - apply String.eqb_eq in E. exfalso. apply (H (n, cells)); [now left|].
    now symmetry.
  - apply IH. intros c Hc. apply H. now right.
Qed.

(** X25: the column of the target language is looked for only when a
    word of the glossary occurs in the text: for a glossary whose frame
    has the source column but no column of the target language,
    [_translate] raises [KeyError] for the target column at the first
    word that occurs in the text, and posts nothing. *)
Theorem translate_missing_target_column (g : FormatedGlossary.t)
    (text_ destination_language source_language : string)
    (formality : option string) (words : list string) (w : World) :
  PyStr.contains (PyStr.upper source_language) (FormatedGlossary.source_language g)
  = true ->
  PyStr.contains (PyStr.upper destination_language) (FormatedGlossary.target_language g)
  = true ->
  DataFrame.getitem (FormatedGlossary.dataframe g) (PyStr.upper source_language)
  = Ok words ->
  (forall c, In c (FormatedGlossary.dataframe g) ->
             fst c <> PyStr.upper (FormatedGlossary.target_language g)) ->
  (exists word, In word words /\ PyStr.contains word text_ = true) ->
  _translate text_ destination_language source_language formality (DictGlossary g) w
  = (Raise (KeyError (PyStr.upper (FormatedGlossary.target_language g))), w).
Proof.
  intros Hsource Htarget Hwords Hmissing Hex.
  assert (Htargets :
    DataFrame.getitem (FormatedGlossary.dataframe g)
                      (PyStr.upper (FormatedGlossary.target_language g))
    = Raise (KeyError (PyStr.upper (FormatedGlossary.target_language g)))).
  { apply getitem_missing. exact Hmissing. }
  unfold _translate. cbv zeta. apply bind_raise.
  unfold build_termbase. cbn [dictionary_ne_empty glossary_of].
  rewrite bind_lift, Hsource, Htarget. cbn [negb orb].
  rewrite bind_lift, Hwords.
  apply bind_raise.
  apply (glossary_loop_missing_target g text_ source_language words _ words
           Hwords Htargets); [lia|exact Hex].
Qed.

Lemma translate_missing_target_column_witness :
  _translate "the cat sat" "FR" "EN" None (DictGlossary no_target_glossary)
             (sample_world bonjour)
  = (Raise (KeyError "FR"), sample_world bonjour).
Proof.
  apply (translate_missing_target_column no_target_glossary "the cat sat" "FR" "EN"
           None ["cat"; "dog"] (sample_world bonjour)); try reflexivity.
  - intros c [Hc|[Hc|[]]]; subst c; discriminate.
  - exists "cat". split; [now left|reflexivity].
Defined.
